(** * Stripe webhook reconciliation: a shallow embedding

    The server keeps, for each user, a record in the Firebase Realtime
    Database under [users/<userId>] and brings its [plan], [subscription]
    and [invoices] children in line with the events the billing provider
    delivers to [POST /webhooks/stripe].

    Three revisions of the server entry point are embedded, each in a
    module of its own: [Part000] (five event kinds), [IndexTs]
    (src/index.ts) and [Part001].  They share the store model and the
    exception/state monad defined first. *)

From stdpp Require Import gmap strings list fin_maps option.

Local Open Scope string_scope.

(** ** Values held by the database

    A Realtime Database location holds a tree: a primitive leaf or an object
    with named children.  [null] is not stored; a location without value is
    absent from its parent. *)

Inductive prim :=
| PStr (s : string)
| PNum (n : Z)
| PBool (b : bool).

#[warning="-register-all"]
Inductive node :=
| Leaf (p : prim)
| Obj (kids : gmap string node).

(** What JavaScript code can hand to the database client as the value of a
    key: [undefined], [null] or a tree. *)
Inductive jsval :=
| JUndefined
| JNull
| JNode (n : node).

(** An object literal as far as its top-level keys go. *)
Abbreviation jsobject := (gmap string jsval).
(** The value of [users/<userId>]. *)
Abbreviation record := (gmap string node).

Definition str (s : string) : node := Leaf (PStr s).
Definition num (n : Z) : node := Leaf (PNum n).

(** [o.k] for an object read back from the database: [undefined] when the
    key is absent. *)
Definition prop (o : record) (k : string) : jsval :=
  match o !! k with
  | Some n => JNode n
  | None => JUndefined
  end.

(** [{ ...o }] *)
Definition spread (o : record) : jsobject := JNode <$> o.

(** A value that may be [null] on the JavaScript side. *)
Definition nullable (o : option node) : jsval :=
  match o with
  | Some n => JNode n
  | None => JNull
  end.

Definition is_undefined (v : jsval) : bool :=
  match v with
  | JUndefined => true
  | _ => false
  end.

(** [{ ...o, k1: v1, ..., kn: vn }]: later keys win. *)
Definition assign (o : jsobject) (fields : list (string * jsval)) : jsobject :=
  foldl (fun acc f => <[f.1 := f.2]> acc) o fields.

(** How the database stores the children of a written object: a [null]
    child is no child. *)
Definition stored_kids (o : jsobject) : gmap string node :=
  omap (fun v => match v with JNode n => Some n | _ => None end) o.

(** An object literal used as a value.  The database client refuses a value
    with [undefined] anywhere inside it, so such a literal counts as
    [undefined] here; an object without stored children is [null]. *)
Definition literal (fields : list (string * jsval)) : jsval :=
  if existsb (fun f => is_undefined f.2) fields then JUndefined
  else
    let kids := stored_kids (assign ∅ fields) in
    if decide (kids = ∅) then JNull else JNode (Obj kids).

(** ** Exceptions, the store and the handler monad *)

(** A thrown value: an [Error] instance with its [message] and [stack], or
    anything else.  The text of a stack is not modelled: the field holds the
    name of the error's class. *)
Inductive exn :=
| JsError (message stack : string)
| JsThrown.

Definition TypeError (message : string) : exn := JsError message "TypeError".

(** The accesses a handler makes to the database. *)
Inductive access :=
| Query (customerId : string)
| Read (userId : string)
| Update (userId : string)
| SetInvoice (userId invoiceId : string).

(** [users] is the content of the [users] location.  [faults] says, for each
    database round trip still to come, whether it is rejected and with what
    (an exhausted list rejects nothing).  [trace] lists the round trips made
    so far. *)
Record world := World {
  users : gmap string record;
  faults : list (option exn);
  trace : list access;
}.

Definition M (A : Type) : Type := world -> (exn + A) * world.

#[global] Instance M_ret : MRet M := fun A a w => (inr a, w).
#[global] Instance M_bind : MBind M := fun A B k c w =>
  match c w with
  | (inr a, w') => k a w'
  | (inl e, w') => (inl e, w')
  end.

Definition throw {A} (e : exn) : M A := fun w => (inl e, w).

(** A call that does not touch the database: its value, or what it threw. *)
Definition call {A} (r : exn + A) : M A := fun w => (r, w).

(** [try { body } catch (err) { handler err }] *)
Definition try_catch {A} (body : M A) (handler : exn -> M A) : M A := fun w =>
  match body w with
  | (inr a, w') => (inr a, w')
  | (inl e, w') => handler e w'
  end.

(** One round trip to the database: logged, and rejected when the fault
    schedule says so. *)
Definition round_trip (a : access) : M unit := fun w =>
  let w' := World (users w) (tail (faults w)) (trace w ++ [a]) in
  match faults w with
  | Some e :: _ => (inl e, w')
  | _ => (inr (), w')
  end.

Definition read_users {A} (f : gmap string record -> A) : M A :=
  fun w => (inr (f (users w)), w).

Definition write_users (f : gmap string record -> gmap string record) : M unit :=
  fun w => (inr (), World (f (users w)) (faults w) (trace w)).

(** *** The Realtime Database client *)

(** Characters the database client refuses in a key, and the separator of
    path segments. *)
Definition forbidden_in_key (c : Ascii.ascii) : bool :=
  Nat.ltb (Ascii.nat_of_ascii c) 32 || Nat.eqb (Ascii.nat_of_ascii c) 127
  || existsb (Ascii.eqb c) (String.list_ascii_of_string "/.#$[]").

Fixpoint all_chars (p : Ascii.ascii -> bool) (s : string) : bool :=
  match s with
  | EmptyString => true
  | String c s' => p c && all_chars p s'
  end.

(** [users/${userId}] names the child [userId] of [users] exactly when
    [userId] is one path segment the client accepts.  (The client's limits
    on the length of a key are not modelled.) *)
Definition is_key (userId : string) : bool :=
  negb (String.eqb userId "") && all_chars (fun c => negb (forbidden_in_key c)) userId.

(** Characters the database client refuses anywhere in a path. *)
Definition forbidden_in_path (c : Ascii.ascii) : bool :=
  Nat.ltb (Ascii.nat_of_ascii c) 32 || Nat.eqb (Ascii.nat_of_ascii c) 127
  || existsb (Ascii.eqb c) (String.list_ascii_of_string ".#$[]").

(** [ref.child(path)] accepts [path] when it is not empty and holds none of
    the refused characters; a slash separates segments.  (The client's
    limits on the length and the depth of a path are not modelled.) *)
Definition is_path (path : string) : bool :=
  negb (String.eqb path "") && all_chars (fun c => negb (forbidden_in_path c)) path.

(** Is the character the separator [/]? *)
Definition is_slash (c : Ascii.ascii) : bool :=
  existsb (Ascii.eqb c) (String.list_ascii_of_string "/").

(** [path.split('/')] *)
Fixpoint split_slash (path : string) : list string :=
  match path with
  | EmptyString => [""]
  | String c rest =>
      if is_slash c then "" :: split_slash rest
      else match split_slash rest with
           | piece :: more => String c piece :: more
           | [] => [String c ""]
           end
  end.

(** The segments of a path: its pieces between slashes, the empty ones
    dropped. *)
Definition segments (path : string) : list string :=
  filter (fun piece => piece ≠ "") (split_slash path).

(** Does the child [stripeCustomerId] of a user equal the given string? *)
Definition customer_is (customerId : string) (r : record) : bool :=
  match r !! "stripeCustomerId" with
  | Some (Leaf (PStr s)) => bool_decide (s = customerId)
  | _ => false
  end.

(** [usersRef.orderByChild('stripeCustomerId').equalTo(customerId)] as a
    function of the content of [users]. *)
Definition matching (customerId : string) (us : gmap string record)
  : gmap string record :=
  filter (fun kv => customer_is customerId kv.2 = true) us.

(** [await usersRef.orderByChild(..).equalTo(customerId).once('value')];
    the snapshot is given by the users it holds. *)
Definition query_customer (customerId : string) : M (gmap string record) :=
  round_trip (Query customerId);; read_users (matching customerId).

(** [snapshot.exists()] *)
Definition snapshot_exists (snapshot : gmap string record) : bool :=
  bool_decide (snapshot ≠ ∅).

(** [Object.keys(snapshot.val())[0]].  The order of the keys of the snapshot
    is the map's enumeration order; it depends on the set of keys only. *)
Definition first_key (snapshot : gmap string record) : option string :=
  fst <$> (map_to_list snapshot !! 0%nat).

Definition first_user (snapshot : gmap string record) : M string :=
  match first_key snapshot with
  | Some userId => mret userId
  | None => throw (TypeError "Cannot convert undefined or null to object")
  end.

(** [(await userRef.once('value')).val()], [None] for [null]. *)
Definition once_value (userId : string) : M (option record) :=
  round_trip (Read userId);; read_users (fun us => us !! userId).

(** What a location holds after its children are written: a location
    without children does not exist. *)
Definition put_record (userId : string) (r : record) (us : gmap string record)
  : gmap string record :=
  if decide (r = ∅) then delete userId us else <[userId := r]> us.

(** The children of a record after [update(values)]: the named children are
    replaced ([null] removes one), all others are kept. *)
Definition apply_update (values : jsobject) (r : record) : record :=
  merge (fun v old => match v with
                      | Some (JNode n) => Some n
                      | Some JNull => None
                      | _ => old
                      end) values r.

Definition has_undefined (values : jsobject) : bool :=
  bool_decide (map_Exists (fun _ v => is_undefined v = true) values).

(** [await userRef.update(values)].  The client validates its argument
    before anything is sent and throws on an [undefined] value. *)
Definition update (userId : string) (values : jsobject) : M unit :=
  if has_undefined values then
    throw (JsError "Reference.update failed: First argument contains undefined" "Error")
  else
    round_trip (Update userId);;
    write_users (fun us =>
      put_record userId (apply_update values (default ∅ (us !! userId))) us).

(** The children of a location, none when it holds a leaf or nothing. *)
Definition kids_of (o : option node) : gmap string node :=
  match o with
  | Some (Obj kids) => kids
  | _ => ∅
  end.

(** What a location with the given children holds. *)
Definition obj_of (kids : gmap string node) : option node :=
  if decide (kids = ∅) then None else Some (Obj kids).

(** What a location holds after [set(value)] at a path below it, [None]
    being [null]: the locations on the way become objects, and one left
    without children holds nothing. *)
Fixpoint set_at (path : list string) (value : option node) (old : option node)
  : option node :=
  match path with
  | [] => value
  | k :: path' => obj_of (partial_alter (set_at path' value) k (kids_of old))
  end.

(** The record after [child('invoices').child(invoiceId).set(value)]:
    [invoiceId] is a path below [invoices]. *)
Definition set_invoice_in (invoiceId : string) (value : jsval) (r : record)
  : record :=
  partial_alter
    (set_at (segments invoiceId)
            (match value with JNode n => Some n | _ => None end))
    "invoices" r.

(** What [child(invoiceId)] or [set(value)] throws before anything is sent:
    [child] validates the path, then [set] the value. *)
Definition set_refusal (invoiceId : string) (value : jsval) : option exn :=
  if negb (is_path invoiceId) then
    Some (JsError "Reference.child failed: First argument was an invalid path" "Error")
  else if is_undefined value then
    Some (JsError "Reference.set failed: First argument contains undefined" "Error")
  else None.

(** [await userRef.child('invoices').child(invoiceId).set(value)] *)
Definition set_invoice (userId invoiceId : string) (value : jsval) : M unit :=
  match set_refusal invoiceId value with
  | Some error => throw error
  | None =>
      round_trip (SetInvoice userId invoiceId);;
      write_users (fun us =>
        put_record userId
          (set_invoice_in invoiceId value (default ∅ (us !! userId))) us)
  end.

(** ** The billing provider's objects, as the handlers type them *)

Module Price.
Record t := Build { id : string }.
End Price.

Module SubscriptionItem.
Record t := Build { price : Price.t }.
End SubscriptionItem.

Module ApiList.
Record t := Build { data : list SubscriptionItem.t }.
End ApiList.

Module Subscription.
(** [items] is [None] for a payload that carries no item list. *)
Record t := Build {
  id : string;
  customer : string;
  status : string;
  items : option ApiList.t;
  current_period_end : Z;
  cancel_at_period_end : bool;
  trial_end : option Z;
}.
End Subscription.

Module Invoice.
(** [hosted_invoice_url] and [invoice_pdf] are optional and nullable. *)
Record t := Build {
  id : string;
  customer : string;
  status : option string;
  currency : string;
  amount_paid : Z;
  hosted_invoice_url : jsval;
  invoice_pdf : jsval;
  created : Z;
  billing_reason : option string;
}.
End Invoice.

Module Event.
(** A verified event: its [type] together with [data.object] at the type
    the handler casts it to.  [other type] is an event of any type for
    which the switch has no case. *)
Inductive t :=
| customer_subscription_created (object : Subscription.t)
| customer_subscription_updated (object : Subscription.t)
| customer_subscription_deleted (object : Subscription.t)
| invoice_paid (object : Invoice.t)
| invoice_payment_failed (object : Invoice.t)
| other (type : string).

Definition type (e : t) : string :=
  match e with
  | customer_subscription_created _ => "customer.subscription.created"
  | customer_subscription_updated _ => "customer.subscription.updated"
  | customer_subscription_deleted _ => "customer.subscription.deleted"
  | invoice_paid _ => "invoice.paid"
  | invoice_payment_failed _ => "invoice.payment_failed"
  | other type => type
  end.
End Event.

(** [subscription.items.data[0].price.id] *)
Definition first_price_id (subscription : Subscription.t) : M string :=
  match Subscription.items subscription with
  | None => throw (TypeError "Cannot read properties of undefined (reading 'data')")
  | Some items =>
      match ApiList.data items with
      | [] => throw (TypeError "Cannot read properties of undefined (reading 'price')")
      | item :: _ => mret (Price.id (SubscriptionItem.price item))
      end
  end.

(** [currentUserData.k] where [currentUserData] may be [null]. *)
Definition member (currentUserData : option record) (k : string) : M jsval :=
  match currentUserData with
  | Some o => mret (prop o k)
  | None => throw (TypeError "Cannot read properties of null")
  end.

(** ** The HTTP exchange *)

Record request := Request {
  body : string;
  stripe_signature : option string;
}.

Inductive json_body :=
| received_true
| error_body (message code : string) (stack : option string).

Record response := Response {
  status : Z;
  json : json_body;
}.

(** [v || ''] *)
Definition or_empty (v : option string) : string := default "" v.

(** [res.json(b)] with the default status. *)
Definition res_json (b : json_body) : response := Response 200 b.

(** The literal stored under [subscription] by the upsert handlers. *)
Definition subscription_literal (subscription : Subscription.t) (priceId : string)
  : jsval :=
  literal [
    ("subscriptionId", JNode (str (Subscription.id subscription)));
    ("priceId", JNode (str priceId));
    ("status", JNode (str (Subscription.status subscription)));
    ("currentPeriodEnd", JNode (num (Subscription.current_period_end subscription)));
    ("cancelAtPeriodEnd", JNode (Leaf (PBool (Subscription.cancel_at_period_end subscription))));
    ("trialEnd", nullable (num <$> Subscription.trial_end subscription))
  ].

(** The profile children the whitelisting handlers copy from the record
    they read. *)
Definition profile_keys : list string :=
  ["uid"; "displayName"; "email"; "createdAt"; "lastLoginAt"; "summaryCount";
   "dailySummaryCount"; "dailySummaryResetTime"].

(** [stripe.webhooks.constructEvent(payload, header, secret)]: the verified
    event, or the exception thrown when verification fails. *)
Abbreviation verifier := (string -> string -> string -> exn + Event.t).

(** ** Revision [part_000]: five event kinds *)

Module Part000.
Section Webhook.
Variable constructEvent : verifier.
Variable STRIPE_WEBHOOK_SECRET : option string.

(** [case 'customer.subscription.created': case 'customer.subscription.updated':] *)
Definition subscription_upserted (subscription : Subscription.t) : M unit :=
  let customerId := Subscription.customer subscription in
  snapshot ← query_customer customerId;
  if negb (snapshot_exists snapshot) then
    throw (JsError "No user found for customer" "Error")
  else
    userId ← first_user snapshot;
    currentUserData ← once_value userId;
    match currentUserData with
    | None => throw (TypeError "Cannot read properties of null (reading 'uid')")
    | Some currentUserData =>
        priceId ← first_price_id subscription;
        update userId (assign ∅ [
          ("uid", prop currentUserData "uid");
          ("displayName", prop currentUserData "displayName");
          ("email", prop currentUserData "email");
          ("createdAt", prop currentUserData "createdAt");
          ("lastLoginAt", prop currentUserData "lastLoginAt");
          ("summaryCount", prop currentUserData "summaryCount");
          ("dailySummaryCount", prop currentUserData "dailySummaryCount");
          ("dailySummaryResetTime", prop currentUserData "dailySummaryResetTime");
          ("plan", JNode (str
             (if bool_decide (Subscription.status subscription = "active")
                 || bool_decide (Subscription.status subscription = "trialing")
              then "pro" else "free")));
          ("stripeCustomerId", JNode (str customerId));
          ("subscription", subscription_literal subscription priceId)
        ])
    end.

(** [case 'customer.subscription.deleted':] *)
Definition subscription_deleted (subscription : Subscription.t) : M unit :=
  let customerId := Subscription.customer subscription in
  snapshot ← query_customer customerId;
  if snapshot_exists snapshot then
    userId ← first_user snapshot;
    currentUserData ← once_value userId;
    match currentUserData with
    | None => throw (TypeError "Cannot read properties of null (reading 'uid')")
    | Some currentUserData =>
        update userId (assign ∅ [
          ("uid", prop currentUserData "uid");
          ("displayName", prop currentUserData "displayName");
          ("email", prop currentUserData "email");
          ("createdAt", prop currentUserData "createdAt");
          ("lastLoginAt", prop currentUserData "lastLoginAt");
          ("summaryCount", prop currentUserData "summaryCount");
          ("dailySummaryCount", prop currentUserData "dailySummaryCount");
          ("dailySummaryResetTime", prop currentUserData "dailySummaryResetTime");
          ("plan", JNode (str "free"));
          ("subscription", JNull)
        ])
    end
  else mret ().

(** [case 'invoice.paid':] the invoice is written twice, the second time
    inside a [try] of its own. *)
Definition invoice_paid (invoice : Invoice.t) : M unit :=
  let customerId := Invoice.customer invoice in
  snapshot ← query_customer customerId;
  if negb (snapshot_exists snapshot) then mret ()
  else
    userId ← first_user snapshot;
    let invoiceData := literal [
      ("status", nullable (str <$> Invoice.status invoice));
      ("currency", JNode (str (Invoice.currency invoice)));
      ("amountPaid", JNode (num (Invoice.amount_paid invoice)));
      ("hostedInvoiceUrl", Invoice.hosted_invoice_url invoice);
      ("invoicePdf", Invoice.invoice_pdf invoice);
      ("created", JNode (num (Invoice.created invoice)))
    ] in
    set_invoice userId (Invoice.id invoice) invoiceData;;
    try_catch (set_invoice userId (Invoice.id invoice) invoiceData)
              (fun error => mret ()).

(** [case 'invoice.payment_failed':] *)
Definition invoice_payment_failed (invoice : Invoice.t) : M unit :=
  if bool_decide (Invoice.billing_reason invoice = Some "subscription_create") then
    let customerId := Invoice.customer invoice in
    snapshot ← query_customer customerId;
    if snapshot_exists snapshot then
      userId ← first_user snapshot;
      currentUserData ← once_value userId;
      update userId (assign (spread (default ∅ currentUserData)) [
        ("plan", JNode (str "free"));
        ("subscription", JNull)
      ])
    else mret ()
  else mret ().

(** [switch (event.type) { ... }] *)
Definition dispatch (event : Event.t) : M unit :=
  match event with
  | Event.customer_subscription_created subscription
  | Event.customer_subscription_updated subscription =>
      subscription_upserted subscription
  | Event.customer_subscription_deleted subscription =>
      subscription_deleted subscription
  | Event.invoice_paid invoice => invoice_paid invoice
  | Event.invoice_payment_failed invoice => invoice_payment_failed invoice
  | Event.other _ => mret ()
  end.

(** The [catch (err: unknown)] block. *)
Definition on_error (err : exn) : response :=
  match err with
  | JsError message stack =>
      Response 400 (error_body
        (if bool_decide (message = "") then "Webhook signature verification failed"
         else message)
        "WEBHOOK_SIGNATURE_ERROR"
        (Some stack))
  | JsThrown =>
      Response 400 (error_body "Unknown error occurred" "WEBHOOK_SIGNATURE_ERROR" None)
  end.

(** [server.post('/webhooks/stripe', express.raw(..), async (req, res) => ..)]:
    the [try] block, then the [catch] block on whatever it threw. *)
Definition webhook_try (req : request) : M response :=
  let sig := stripe_signature req in
  event ← call (constructEvent (body req) (or_empty sig)
                               (or_empty STRIPE_WEBHOOK_SECRET));
  dispatch event;;
  mret (res_json received_true).

Definition webhook (req : request) (w : world) : response * world :=
  match webhook_try req w with
  | (inr res, w') => (res, w')
  | (inl err, w') => (on_error err, w')
  end.
End Webhook.
End Part000.

(** ** Revision [src/index.ts]: subscription events only *)

Module IndexTs.
Section Webhook.
Variable constructEvent : verifier.
Variable STRIPE_WEBHOOK_SECRET : option string.

(** [case 'customer.subscription.created': case 'customer.subscription.updated':] *)
Definition subscription_upserted (subscription : Subscription.t) : M unit :=
  let customerId := Subscription.customer subscription in
  snapshot ← query_customer customerId;
  if negb (snapshot_exists snapshot) then
    throw (JsError "No user found for customer" "Error")
  else
    userId ← first_user snapshot;
    currentUserData ← once_value userId;
    match currentUserData with
    | None => throw (TypeError "Cannot read properties of null (reading 'uid')")
    | Some currentUserData =>
        priceId ← first_price_id subscription;
        update userId (assign ∅ [
          ("uid", prop currentUserData "uid");
          ("displayName", prop currentUserData "displayName");
          ("email", prop currentUserData "email");
          ("createdAt", prop currentUserData "createdAt");
          ("lastLoginAt", prop currentUserData "lastLoginAt");
          ("summaryCount", prop currentUserData "summaryCount");
          ("dailySummaryCount", prop currentUserData "dailySummaryCount");
          ("dailySummaryResetTime", prop currentUserData "dailySummaryResetTime");
          ("plan", JNode (str
             (if bool_decide (Subscription.status subscription = "active")
              then "pro" else "free")));
          ("stripeCustomerId", JNode (str customerId));
          ("subscription", subscription_literal subscription priceId)
        ])
    end.

(** [case 'customer.subscription.deleted':] *)
Definition subscription_deleted (subscription : Subscription.t) : M unit :=
  let customerId := Subscription.customer subscription in
  snapshot ← query_customer customerId;
  if snapshot_exists snapshot then
    userId ← first_user snapshot;
    currentUserData ← once_value userId;
    match currentUserData with
    | None => throw (TypeError "Cannot read properties of null (reading 'uid')")
    | Some currentUserData =>
        update userId (assign ∅ [
          ("uid", prop currentUserData "uid");
          ("displayName", prop currentUserData "displayName");
          ("email", prop currentUserData "email");
          ("createdAt", prop currentUserData "createdAt");
          ("lastLoginAt", prop currentUserData "lastLoginAt");
          ("summaryCount", prop currentUserData "summaryCount");
          ("dailySummaryCount", prop currentUserData "dailySummaryCount");
          ("dailySummaryResetTime", prop currentUserData "dailySummaryResetTime");
          ("plan", JNode (str "free"));
          ("subscription", JNull)
        ])
    end
  else mret ().

(** [switch (event.type) { ... }]: the invoice events have no case. *)
Definition dispatch (event : Event.t) : M unit :=
  match event with
  | Event.customer_subscription_created subscription
  | Event.customer_subscription_updated subscription =>
      subscription_upserted subscription
  | Event.customer_subscription_deleted subscription =>
      subscription_deleted subscription
  | _ => mret ()
  end.

(** The [catch (err)] block. *)
Definition on_error (err : exn) : response :=
  Response 400 (error_body "Webhook signature verification failed"
                           "WEBHOOK_SIGNATURE_ERROR" None).

Definition webhook_try (req : request) : M response :=
  let sig := stripe_signature req in
  event ← call (constructEvent (body req) (or_empty sig)
                               (or_empty STRIPE_WEBHOOK_SECRET));
  dispatch event;;
  mret (res_json received_true).

Definition webhook (req : request) (w : world) : response * world :=
  match webhook_try req w with
  | (inr res, w') => (res, w')
  | (inl err, w') => (on_error err, w')
  end.
End Webhook.
End IndexTs.

(** ** Revision [part_001]: subscription events, spreading the record read *)

Module Part001.
Section Webhook.
Variable constructEvent : verifier.
Variable STRIPE_WEBHOOK_SECRET : option string.

(** [case 'customer.subscription.created': case 'customer.subscription.updated':] *)
Definition subscription_upserted (subscription : Subscription.t) : M unit :=
  let customerId := Subscription.customer subscription in
  snapshot ← query_customer customerId;
  if negb (snapshot_exists snapshot) then
    throw (JsError "No user found for customer" "Error")
  else
    userId ← first_user snapshot;
    currentUserData ← once_value userId;
    priceId ← first_price_id subscription;
    update userId (assign (spread (default ∅ currentUserData)) [
      ("plan", JNode (str
         (if bool_decide (Subscription.status subscription = "active")
          then "pro" else "free")));
      ("subscription", subscription_literal subscription priceId)
    ]).

(** [case 'customer.subscription.deleted':] *)
Definition subscription_deleted (subscription : Subscription.t) : M unit :=
  let customerId := Subscription.customer subscription in
  snapshot ← query_customer customerId;
  if snapshot_exists snapshot then
    userId ← first_user snapshot;
    currentUserData ← once_value userId;
    update userId (assign (spread (default ∅ currentUserData)) [
      ("plan", JNode (str "free"));
      ("subscription", JNull)
    ])
  else mret ().

(** [switch (event.type) { ... }]: the invoice events have no case. *)
Definition dispatch (event : Event.t) : M unit :=
  match event with
  | Event.customer_subscription_created subscription
  | Event.customer_subscription_updated subscription =>
      subscription_upserted subscription
  | Event.customer_subscription_deleted subscription =>
      subscription_deleted subscription
  | _ => mret ()
  end.

(** The [catch (err)] block. *)
Definition on_error (err : exn) : response :=
  Response 400 (error_body "Webhook signature verification failed"
                           "WEBHOOK_SIGNATURE_ERROR" None).

Definition webhook_try (req : request) : M response :=
  let sig := stripe_signature req in
  event ← call (constructEvent (body req) (or_empty sig)
                               (or_empty STRIPE_WEBHOOK_SECRET));
  dispatch event;;
  mret (res_json received_true).

Definition webhook (req : request) (w : world) : response * world :=
  match webhook_try req w with
  | (inr res, w') => (res, w')
  | (inl err, w') => (on_error err, w')
  end.
End Webhook.
End Part001.

(** ** The body parsers in front of the webhook handler

    The billing provider posts an event as JSON text with
    [Content-Type: application/json] and signs the bytes of the body; the
    library's [constructEvent] needs those bytes.  In [part_000] nothing
    parses the body before the route's [express.raw]
    ([server.use(express.json())] comes after the route, lines 243-244), so
    the handler finds the bytes in [req.body].  In [src/index.ts] and
    [part_001] [server.use(express.json())] (line 45) is mounted before the
    route: a body it cannot parse never reaches the handler, and one it
    parses reaches the handler as the parsed value, which [express.raw]
    then leaves alone. *)

(** What the handler finds in [req.body] for a body with the given text. *)
Inductive payload :=
| raw_bytes (text : string)
| parsed_value (text : string).

(** [stripe.webhooks.constructEvent], on what it is handed. *)
Abbreviation library := (payload -> string -> string -> exn + Event.t).

(** A delivery as it arrives. *)
Record delivery := Delivery {
  body_text : string;
  signature : option string;
}.

(** The request the handler sees; in what form it holds the body is for
    the route to say. *)
Definition received (d : delivery) : request :=
  Request (body_text d) (signature d).

(** [part_000] 53: [express.raw] is the first parser the body meets. *)
Definition Part000_route (stripe : library) (secret : option string)
    (d : delivery) (w : world) : response * world :=
  Part000.webhook (fun text => stripe (raw_bytes text)) secret (received d) w.

(** [src/index.ts] 45 and 53: [express.json()] has parsed the body;
    [parses] says whether it could, and [None] is the exchange in which it
    could not and the handler is not called. *)
Definition IndexTs_route (parses : string -> bool) (stripe : library)
    (secret : option string) (d : delivery) (w : world)
  : option (response * world) :=
  if parses (body_text d) then
    Some (IndexTs.webhook (fun text => stripe (parsed_value text)) secret
            (received d) w)
  else None.

(** [part_001] 45 and 53: as in [src/index.ts]. *)
Definition Part001_route (parses : string -> bool) (stripe : library)
    (secret : option string) (d : delivery) (w : world)
  : option (response * world) :=
  if parses (body_text d) then
    Some (Part001.webhook (fun text => stripe (parsed_value text)) secret
            (received d) w)
  else None.

(** ** The session endpoints

    [POST /api/stripe/create-checkout-session] in the three revisions and
    [POST /api/stripe/create-payment-intent] in [part_001] read the user
    under [users/<userId>], give the user a billing customer on first use
    and then ask the billing provider for a session or a subscription. *)

Module Customer.
Record t := Build { id : string }.
End Customer.

Module CustomerParams.
(** The argument of [stripe.customers.create]: [metadata.userId], [email]
    and [name]. *)
Record t := Build {
  metadata_userId : string;
  email : jsval;
  name : jsval;
}.
End CustomerParams.

Module Session.
Record t := Build { id : string; url : option string }.
End Session.

Module SessionParams.
(** The parts of the argument of [stripe.checkout.sessions.create] that
    vary; the payment method types, the mode and the quantity are
    constants of the source. *)
Record t := Build {
  customer : node;
  price : option string;
  trial_period_days : Z;
  success_url : string;
  cancel_url : string;
}.
End SessionParams.

Module PaymentIntent.
Record t := Build { client_secret : option string }.
End PaymentIntent.

Module LatestInvoice.
Record t := Build { payment_intent : option PaymentIntent.t }.
End LatestInvoice.

Module CreatedSubscription.
Record t := Build { id : string; latest_invoice : option LatestInvoice.t }.
End CreatedSubscription.

Module SubscriptionParams.
(** The parts of the argument of [stripe.subscriptions.create] that vary. *)
Record t := Build {
  customer : node;
  price : option string;
  trial_period_days : Z;
}.
End SubscriptionParams.

Module CheckoutBody.
(** [const { userId, returnUrl } = req.body] *)
Record t := Build { userId : string; returnUrl : string }.
End CheckoutBody.

Inductive api_body :=
| session_body (sessionId : string) (url : option string)
| secret_body (clientSecret : option string) (subscriptionId : string)
| error_text (error : string)
| error_thrown (error : exn).

Record api_response := ApiResponse {
  api_status : Z;
  api_json : api_body;
}.

(** [snapshot.exists()] for the snapshot of one user: a location without
    children holds no value. *)
Definition snapshot_present (snapshot : option record) : bool :=
  match snapshot with
  | Some r => bool_decide (r ≠ ∅)
  | None => false
  end.

(** JavaScript truthiness of a stored value. *)
Definition truthy (n : node) : bool :=
  match n with
  | Leaf (PStr s) => negb (String.eqb s "")
  | Leaf (PNum z) => negb (Z.eqb z 0)
  | Leaf (PBool b) => b
  | Obj _ => true
  end.

(** [let customerId = userData?.stripeCustomerId; if (!customerId) { .. }]:
    the stored customer, or a customer created for the user and written to
    the user's record.  The same lines occur in all four handlers
    (part_000 260-276, src/index.ts 175-189, part_001 148-158 and
    197-207). *)
Definition ensure_customer
    (customers_create : CustomerParams.t -> exn + Customer.t)
    (userId : string) (userData : record) : M node :=
  let create : M node :=
    customer ← call (customers_create
                       (CustomerParams.Build userId (prop userData "email")
                                             (prop userData "displayName")));
    update userId (assign ∅ [
      ("stripeCustomerId", JNode (str (Customer.id customer)))
    ]);;
    mret (str (Customer.id customer)) in
  match prop userData "stripeCustomerId" with
  | JNode customerId => if truthy customerId then mret customerId else create
  | _ => create
  end.

(** The shape all four handlers share: read the user, answer 404 when there
    is none, otherwise make sure of a customer and go on with it. *)
Definition with_customer
    (customers_create : CustomerParams.t -> exn + Customer.t)
    (userId : string) (continue : node -> M api_response) : M api_response :=
  snapshot ← once_value userId;
  if negb (snapshot_present snapshot) then
    mret (ApiResponse 404 (error_text "User not found"))
  else
    let userData := default ∅ snapshot in
    customerId ← ensure_customer customers_create userId userData;
    continue customerId.

(** The exchange of an endpoint whose [try] block is [body] and whose
    [catch] block answers [on_error]; [None] when [userId] is not a key, in
    which case the location read is not a child of [users] and the model
    does not describe the exchange. *)
Definition endpoint (userId : string) (body : M api_response)
    (on_error : exn -> api_response) (w : world)
  : option (api_response * world) :=
  if is_key userId then
    Some (match body w with
          | (inr res, w') => (res, w')
          | (inl error, w') => (on_error error, w')
          end)
  else None.

Module Part000_api.
Section Endpoints.
Variable customers_create : CustomerParams.t -> exn + Customer.t.
Variable sessions_create : SessionParams.t -> exn + Session.t.
Variable STRIPE_PRO_PLAN_PRICE_ID : option string.

(** [server.post('/api/stripe/create-checkout-session', ..)], part_000
    247-304. *)
Definition create_checkout_session (req : CheckoutBody.t) (w : world)
  : option (api_response * world) :=
  let userId := CheckoutBody.userId req in
  let returnUrl := CheckoutBody.returnUrl req in
  endpoint userId
    (with_customer customers_create userId (fun customerId =>
       session ← call (sessions_create
                         (SessionParams.Build customerId STRIPE_PRO_PLAN_PRICE_ID 1
                            "https://silly-cat-6ba5b6.netlify.app"
                            (String.append returnUrl "?canceled=true")));
       mret (ApiResponse 200
               (session_body (Session.id session) (Session.url session)))))
    (fun error => ApiResponse 500 (error_thrown error))
    w.
End Endpoints.
End Part000_api.

Module IndexTs_api.
Section Endpoints.
Variable customers_create : CustomerParams.t -> exn + Customer.t.
Variable sessions_create : SessionParams.t -> exn + Session.t.
Variable STRIPE_PRO_PLAN_PRICE_ID : option string.

(** [server.post('/api/stripe/create-checkout-session', ..)], src/index.ts
    162-216. *)
Definition create_checkout_session (req : CheckoutBody.t) (w : world)
  : option (api_response * world) :=
  let userId := CheckoutBody.userId req in
  let returnUrl := CheckoutBody.returnUrl req in
  endpoint userId
    (with_customer customers_create userId (fun customerId =>
       session ← call (sessions_create
                         (SessionParams.Build customerId STRIPE_PRO_PLAN_PRICE_ID 3
                            (String.append returnUrl "?success=true")
                            (String.append returnUrl "?canceled=true")));
       mret (ApiResponse 200
               (session_body (Session.id session) (Session.url session)))))
    (fun error => ApiResponse 500 (error_thrown error))
    w.
End Endpoints.
End IndexTs_api.

Module Part001_api.
Section Endpoints.
Variable customers_create : CustomerParams.t -> exn + Customer.t.
Variable sessions_create : SessionParams.t -> exn + Session.t.
Variable subscriptions_create : SubscriptionParams.t -> exn + CreatedSubscription.t.
Variable STRIPE_PRO_PLAN_PRICE_ID : option string.

(** [server.post('/api/stripe/create-checkout-session', ..)], part_001
    140-185. *)
Definition create_checkout_session (req : CheckoutBody.t) (w : world)
  : option (api_response * world) :=
  let userId := CheckoutBody.userId req in
  let returnUrl := CheckoutBody.returnUrl req in
  endpoint userId
    (with_customer customers_create userId (fun customerId =>
       session ← call (sessions_create
                         (SessionParams.Build customerId STRIPE_PRO_PLAN_PRICE_ID 3
                            (String.append returnUrl "?success=true")
                            (String.append returnUrl "?canceled=true")));
       mret (ApiResponse 200
               (session_body (Session.id session) (Session.url session)))))
    (fun error => ApiResponse 500 (error_text "Failed to create checkout session"))
    w.

(** [server.post('/api/stripe/create-payment-intent', ..)], part_001
    188-227; [clientSecret] is
    [subscription.latest_invoice?.payment_intent?.client_secret]. *)
Definition create_payment_intent (userId : string) (w : world)
  : option (api_response * world) :=
  endpoint userId
    (with_customer customers_create userId (fun customerId =>
       subscription ← call (subscriptions_create
                              (SubscriptionParams.Build customerId
                                 STRIPE_PRO_PLAN_PRICE_ID 3));
       let clientSecret :=
         match CreatedSubscription.latest_invoice subscription with
         | Some latest_invoice =>
             match LatestInvoice.payment_intent latest_invoice with
             | Some payment_intent => PaymentIntent.client_secret payment_intent
             | None => None
             end
         | None => None
         end in
       mret (ApiResponse 200
               (secret_body clientSecret (CreatedSubscription.id subscription)))))
    (fun error => ApiResponse 500 (error_text "Failed to create payment intent"))
    w.
End Endpoints.
End Part001_api.

(** ** Sample data *)

Definition alice : record :=
  list_to_map [
    ("uid", str "u1"); ("displayName", str "Alice"); ("email", str "alice@example.com");
    ("createdAt", num 1690000000); ("lastLoginAt", num 1699000000);
    ("summaryCount", num 4); ("dailySummaryCount", num 1);
    ("dailySummaryResetTime", num 1699900000);
    ("plan", str "free"); ("stripeCustomerId", str "cus_1")
  ].

Definition sample_users : gmap string record := {[ "u1" := alice ]}.

Definition sample_world : world := World sample_users [] [].

Definition sample_subscription (status : string) : Subscription.t :=
  Subscription.Build "sub_1" "cus_1" status
    (Some (ApiList.Build [SubscriptionItem.Build (Price.Build "price_pro")]))
    1700000000 false None.

Definition sample_invoice (reason : option string) : Invoice.t :=
  Invoice.Build "in_1" "cus_1" (Some "paid") "usd" 999
    (JNode (str "https://invoice.example/in_1")) JNull 1699999000 reason.

(** A verifier for the examples: the header must equal the secret, and the
    payload names the event. *)
Definition sample_verifier : verifier := fun payload header secret =>
  if bool_decide (header = secret) then
    inr (if bool_decide (payload = "trialing") then
           Event.customer_subscription_updated (sample_subscription "trialing")
         else if bool_decide (payload = "active") then
           Event.customer_subscription_created (sample_subscription "active")
         else if bool_decide (payload = "canceled") then
           Event.customer_subscription_updated (sample_subscription "canceled")
         else if bool_decide (payload = "orphan") then
           Event.customer_subscription_updated
             (Subscription.Build "sub_9" "cus_404" "active"
                (Some (ApiList.Build [SubscriptionItem.Build (Price.Build "price_pro")]))
                1700000000 false None)
         else if bool_decide (payload = "deleted") then
           Event.customer_subscription_deleted (sample_subscription "canceled")
         else if bool_decide (payload = "paid") then
           Event.invoice_paid (sample_invoice (Some "subscription_cycle"))
         else if bool_decide (payload = "failed") then
           Event.invoice_payment_failed (sample_invoice (Some "subscription_create"))
         else if bool_decide (payload = "failed_renewal") then
           Event.invoice_payment_failed (sample_invoice (Some "subscription_cycle"))
         else if bool_decide (payload = "no_items") then
           Event.customer_subscription_created
             (Subscription.Build "sub_1" "cus_1" "active"
                (Some (ApiList.Build [])) 1700000000 false None)
         else Event.other payload)
  else inl (JsError "No signatures found matching the expected signature for payload" "StripeSignatureVerificationError").

Definition signed (payload : string) : request := Request payload (Some "whsec").

(** A user with a running subscription. *)
Definition subscriber : record :=
  <["plan" := str "pro"]>
    (<["subscription" :=
         Obj (list_to_map [
           ("subscriptionId", str "sub_1"); ("priceId", str "price_pro");
           ("status", str "active"); ("currentPeriodEnd", num 1700000000);
           ("cancelAtPeriodEnd", Leaf (PBool false))
         ])]> alice).

Definition subscriber_world : world := World {[ "u1" := subscriber ]} [] [].

(** A user whose plan is none of the two the handlers write. *)
Definition gold_world : world :=
  World {[ "u1" := <["plan" := str "gold"]> alice ]} [] [].

(** A library for the examples: on the bytes it is [sample_verifier]; on a
    parsed value it throws, as signature verification over anything but
    the bytes does. *)
Definition sample_stripe : library := fun payload header secret =>
  match payload with
  | raw_bytes text => sample_verifier text header secret
  | parsed_value _ =>
      inl (JsError "Webhook payload must be provided as a string or a Buffer instance representing the raw request body" "StripeSignatureVerificationError")
  end.

(** The text of a body is not modelled; every body of the examples stands
    for a JSON document. *)
Definition sample_parses : string -> bool := fun text => true.

Definition sample_delivery (body : string) : delivery :=
  Delivery body (Some "whsec").

(** * Vocabulary of the statements *)

(** [field us uid k] is the child [k] of [users/<uid>]. *)
Definition field (us : gmap string record) (uid k : string) : option node :=
  us !! uid ≫= (.!! k).

(** [keeps cols us us']: every child of every user outside [cols] is the
    same in [us'] as in [us]. *)
Definition keeps (cols : list string) (us us' : gmap string record) : Prop :=
  ∀ uid k, k ∉ cols → field us' uid k = field us uid k.

(** The next round trip is answered, not rejected. *)
Definition answers (w : world) : Prop :=
  match faults w with
  | Some _ :: _ => False
  | _ => True
  end.

(** Weakest precondition of a handler for a postcondition on its outcome. *)
Definition wp {A} (c : M A) (Q : exn + A → world → Prop) (w : world) : Prop :=
  Q (c w).1 (c w).2.

(** The outcome of the call to [constructEvent] the endpoint makes for a
    request. *)
Definition verified (constructEvent : verifier) (secret : option string)
    (req : request) : exn + Event.t :=
  constructEvent (body req) (or_empty (stripe_signature req)) (or_empty secret).

Definition error_code (res : response) : option string :=
  match json res with
  | error_body _ code _ => Some code
  | received_true => None
  end.

Definition error_message (res : response) : option string :=
  match json res with
  | error_body message _ _ => Some message
  | received_true => None
  end.

(** The [type] values for which the switch of [part_000] has a case. *)
Definition recognized_types : list string :=
  ["customer.subscription.created"; "customer.subscription.updated";
   "customer.subscription.deleted"; "invoice.paid"; "invoice.payment_failed"].

(** The children of a user record an event of each kind may write. *)
Definition mutation_column (event : Event.t) : list string :=
  match event with
  | Event.customer_subscription_created _
  | Event.customer_subscription_updated _
  | Event.customer_subscription_deleted _
  | Event.invoice_payment_failed _ => ["plan"; "subscription"]
  | Event.invoice_paid _ => ["invoices"]
  | Event.other _ => []
  end.

(** The customer an event names, for the five kinds the switch handles. *)
Definition event_customer (event : Event.t) : option string :=
  match event with
  | Event.customer_subscription_created subscription
  | Event.customer_subscription_updated subscription
  | Event.customer_subscription_deleted subscription =>
      Some (Subscription.customer subscription)
  | Event.invoice_paid invoice
  | Event.invoice_payment_failed invoice => Some (Invoice.customer invoice)
  | Event.other _ => None
  end.

Definition is_upsert (event : Event.t) : bool :=
  match event with
  | Event.customer_subscription_created _
  | Event.customer_subscription_updated _ => true
  | _ => false
  end.

Definition is_subscription_event (event : Event.t) : bool :=
  match event with
  | Event.customer_subscription_created _
  | Event.customer_subscription_updated _
  | Event.customer_subscription_deleted _ => true
  | _ => false
  end.

(** The subscription of a created/updated event. *)
Definition upsert_of (event : Event.t) : option Subscription.t :=
  match event with
  | Event.customer_subscription_created subscription
  | Event.customer_subscription_updated subscription => Some subscription
  | _ => None
  end.

(** The customer looked up by the first round trip [part_000] makes for an
    event, if it makes one. *)
Definition lookup_of (event : Event.t) : option string :=
  match event with
  | Event.customer_subscription_created subscription
  | Event.customer_subscription_updated subscription
  | Event.customer_subscription_deleted subscription =>
      Some (Subscription.customer subscription)
  | Event.invoice_paid invoice => Some (Invoice.customer invoice)
  | Event.invoice_payment_failed invoice =>
      if bool_decide (Invoice.billing_reason invoice = Some "subscription_create")
      then Some (Invoice.customer invoice) else None
  | Event.other _ => None
  end.

(** The plan [part_000] derives from a subscription status. *)
Definition derived_plan (status : string) : string :=
  if bool_decide (status = "active") || bool_decide (status = "trialing")
  then "pro" else "free".

Definition in_enum (plan : option node) : Prop :=
  plan = Some (str "free") ∨ plan = Some (str "pro").

(** The record has every child the whitelisting handlers copy. *)
Definition has_profile (r : record) : Prop :=
  Forall (λ k, is_Some (r !! k)) profile_keys.

(** An error the database client rejects a round trip with. *)
Definition store_unavailable : exn :=
  JsError "Error: Client is offline." "Error".

(** [overlays cols r v]: outside [cols], the update [v] names a child only
    to write back the value read from [r]. *)
Definition overlays (cols : list string) (r : record) (v : jsobject) : Prop :=
  ∀ k x, k ∉ cols → v !! k = Some x → x = prop r k.

(** [subscription.items.data[0].price.id] when reading it does not throw. *)
Definition first_price (subscription : Subscription.t) : option string :=
  match Subscription.items subscription with
  | Some items =>
      match ApiList.data items with
      | item :: _ => Some (Price.id (SubscriptionItem.price item))
      | [] => None
      end
  | None => None
  end.

Module Part000_patches.
(** The arguments of the three calls to [update] in [part_000]. *)
Definition upserted (subscription : Subscription.t) (r : record)
  : option jsobject :=
  match first_price subscription with
  | None => None
  | Some priceId =>
      Some (assign ∅ [
        ("uid", prop r "uid");
        ("displayName", prop r "displayName");
        ("email", prop r "email");
        ("createdAt", prop r "createdAt");
        ("lastLoginAt", prop r "lastLoginAt");
        ("summaryCount", prop r "summaryCount");
        ("dailySummaryCount", prop r "dailySummaryCount");
        ("dailySummaryResetTime", prop r "dailySummaryResetTime");
        ("plan", JNode (str
           (if bool_decide (Subscription.status subscription = "active")
               || bool_decide (Subscription.status subscription = "trialing")
            then "pro" else "free")));
        ("stripeCustomerId", JNode (str (Subscription.customer subscription)));
        ("subscription", subscription_literal subscription priceId)
      ])
  end.

Definition deleted (r : record) : option jsobject :=
  Some (assign ∅ [
    ("uid", prop r "uid");
    ("displayName", prop r "displayName");
    ("email", prop r "email");
    ("createdAt", prop r "createdAt");
    ("lastLoginAt", prop r "lastLoginAt");
    ("summaryCount", prop r "summaryCount");
    ("dailySummaryCount", prop r "dailySummaryCount");
    ("dailySummaryResetTime", prop r "dailySummaryResetTime");
    ("plan", JNode (str "free"));
    ("subscription", JNull)
  ]).

Definition payment_failed (r : record) : option jsobject :=
  Some (assign (spread r) [
    ("plan", JNode (str "free"));
    ("subscription", JNull)
  ]).
End Part000_patches.

(** The value written by the [invoice.paid] handler. *)
Definition invoice_data (invoice : Invoice.t) : jsval :=
  literal [
    ("status", nullable (str <$> Invoice.status invoice));
    ("currency", JNode (str (Invoice.currency invoice)));
    ("amountPaid", JNode (num (Invoice.amount_paid invoice)));
    ("hostedInvoiceUrl", Invoice.hosted_invoice_url invoice);
    ("invoicePdf", Invoice.invoice_pdf invoice);
    ("created", JNode (num (Invoice.created invoice)))
  ].

(** Look the customer up, build an update from the record found, apply it.
    [patch] gives no update when building it throws. *)
Definition lookup_update (cid : string) (patch : record → option jsobject)
    (us : gmap string record) : gmap string record :=
  match first_key (matching cid us) with
  | None => us
  | Some uid =>
      match us !! uid with
      | None => us
      | Some r =>
          match patch r with
          | None => us
          | Some v =>
              if has_undefined v then us
              else put_record uid (apply_update v r) us
          end
      end
  end.

(** Look the customer up and set one invoice under the record found. *)
Definition lookup_set (cid id : string) (value : jsval)
    (us : gmap string record) : gmap string record :=
  match first_key (matching cid us) with
  | None => us
  | Some uid =>
      match set_refusal id value with
      | Some _ => us
      | None => put_record uid (set_invoice_in id value (default ∅ (us !! uid))) us
      end
  end.

(** The transition of [users] an event makes through [part_000]'s switch
    when no round trip is rejected. *)
Definition transition (event : Event.t) (us : gmap string record)
  : gmap string record :=
  match event with
  | Event.customer_subscription_created subscription
  | Event.customer_subscription_updated subscription =>
      lookup_update (Subscription.customer subscription)
        (Part000_patches.upserted subscription) us
  | Event.customer_subscription_deleted subscription =>
      lookup_update (Subscription.customer subscription)
        Part000_patches.deleted us
  | Event.invoice_paid invoice =>
      lookup_set (Invoice.customer invoice) (Invoice.id invoice)
        (invoice_data invoice) us
  | Event.invoice_payment_failed invoice =>
      if bool_decide (Invoice.billing_reason invoice = Some "subscription_create")
      then lookup_update (Invoice.customer invoice)
             Part000_patches.payment_failed us
      else us
  | Event.other _ => us
  end.

(** What a delivery does to [users] when no round trip is rejected. *)
Definition delivered (constructEvent : verifier) (secret : option string)
    (req : request) (us : gmap string record) : gmap string record :=
  match verified constructEvent secret req with
  | inr event => transition event us
  | inl _ => us
  end.

(** A patch that, applied to the record it was built from, yields a record
    still filed under the customer and on which rebuilding and reapplying
    the patch changes nothing. *)
Definition settles (cid : string) (patch : record → option jsobject) : Prop :=
  ∀ r v,
    r !! "stripeCustomerId" = Some (str cid) →
    patch r = Some v → has_undefined v = false →
    apply_update v r !! "stripeCustomerId" = Some (str cid) ∧
    ∃ v1, patch (apply_update v r) = Some v1 ∧ has_undefined v1 = false ∧
          apply_update v1 (apply_update v r) = apply_update v r.

(** Either nothing changed or one record was written, with a plan from the
    enumeration. *)
Definition wrote_plan (us us' : gmap string record) : Prop :=
  us' = us ∨ ∃ uid r', us' = put_record uid r' us ∧ in_enum (r' !! "plan").

Definition is_invoice_paid (event : exn + Event.t) : Prop :=
  ∃ invoice, event = inr (Event.invoice_paid invoice).

(** The invoices recorded under a user. *)
Definition invoices_of (us : gmap string record) (uid : string)
  : gmap string node :=
  match field us uid "invoices" with
  | Some (Obj kids) => kids
  | _ => ∅
  end.

(** None of the next [n] round trips is rejected. *)
Definition answers_next (n : nat) (w : world) : Prop :=
  ∀ e, Some e ∉ take n (faults w).


(** The billing provider as the session endpoints use it, with the
    configured price. *)
Record provider := Provider {
  customers_create : CustomerParams.t → exn + Customer.t;
  sessions_create : SessionParams.t → exn + Session.t;
  subscriptions_create : SubscriptionParams.t → exn + CreatedSubscription.t;
  STRIPE_PRO_PLAN_PRICE_ID : option string;
}.

(** The four endpoints that make sure of a customer. *)
Inductive session_endpoint :=
| checkout_part_000
| checkout_index_ts
| checkout_part_001
| payment_intent_part_001.

Definition serve (p : provider) (e : session_endpoint) (req : CheckoutBody.t)
    (w : world) : option (api_response * world) :=
  match e with
  | checkout_part_000 =>
      Part000_api.create_checkout_session (customers_create p)
        (sessions_create p) (STRIPE_PRO_PLAN_PRICE_ID p) req w
  | checkout_index_ts =>
      IndexTs_api.create_checkout_session (customers_create p)
        (sessions_create p) (STRIPE_PRO_PLAN_PRICE_ID p) req w
  | checkout_part_001 =>
      Part001_api.create_checkout_session (customers_create p)
        (sessions_create p) (STRIPE_PRO_PLAN_PRICE_ID p) req w
  | payment_intent_part_001 =>
      Part001_api.create_payment_intent (customers_create p)
        (subscriptions_create p) (STRIPE_PRO_PLAN_PRICE_ID p)
        (CheckoutBody.userId req) w
  end.

(** The same provider with another [customers.create]. *)
Definition with_customers_create (p : provider)
    (create : CustomerParams.t → exn + Customer.t) : provider :=
  Provider create (sessions_create p) (subscriptions_create p)
           (STRIPE_PRO_PLAN_PRICE_ID p).

(** The customer identifier a record holds, if it holds a truthy one. *)
Definition stored_customer (r : record) : option node :=
  match r !! "stripeCustomerId" with
  | Some n => if truthy n then Some n else None
  | None => None
  end.

(** The argument of [customers.create] for a user. *)
Definition customer_params (userId : string) (r : record) : CustomerParams.t :=
  CustomerParams.Build userId (prop r "email") (prop r "displayName").


(** What the [catch] block of each endpoint answers with. *)
Definition failure_body (e : session_endpoint) (error : exn) : api_body :=
  match e with
  | checkout_part_000 | checkout_index_ts => error_thrown error
  | checkout_part_001 => error_text "Failed to create checkout session"
  | payment_intent_part_001 => error_text "Failed to create payment intent"
  end.

(** The world after the read of [users/<userId>]. *)
Definition after_read (userId : string) (w : world) : world :=
  World (users w) (tail (faults w)) (trace w ++ [Read userId]).

(** The world after the read and the write of the customer identifier. *)
Definition after_first_use (userId : string) (r : record) (customerId : string)
    (w : world) : world :=
  World (<[userId := <["stripeCustomerId" := str customerId]> r]> (users w))
        (tail (tail (faults w)))
        ((trace w ++ [Read userId]) ++ [Update userId]).

(** The library verifies the bytes of the body only: handed a parsed
    value, it throws. *)
Definition needs_raw (stripe : library) : Prop :=
  ∀ text header secret, ∃ err, stripe (parsed_value text) header secret = inl err.

(** The entries of the fault schedule that met the round trips made from
    [w] to [w']. *)
Definition met (w w' : world) : list (option exn) :=
  take (length (trace w') - length (trace w)) (faults w).

(** An error response of the webhook endpoint: status 400 under its one
    code. *)
Definition client_error (res : response) : Prop :=
  status res = 400%Z ∧ error_code res = Some "WEBHOOK_SIGNATURE_ERROR".

(** After a handler: a rejected round trip is what the handler threw, with
    nothing written, unless ([swallows]) it is the write the handler
    repeats inside a [try] of its own. *)
Definition surfaced (swallows : bool) (w : world) (res : exn + ()) (w' : world)
  : Prop :=
  ∀ e, Some e ∈ met w w' →
       (res = inl e ∧ users w' = users w)
       ∨ (swallows = true ∧ res = inr () ∧ met w w' = [None; None; Some e]).

(** ** Sample data for the session endpoints *)

(** A user who has not checked out yet. *)
Definition bob : record :=
  list_to_map [
    ("uid", str "u2"); ("displayName", str "Bob"); ("email", str "bob@example.com");
    ("createdAt", num 1695000000); ("lastLoginAt", num 1699500000);
    ("summaryCount", num 0); ("dailySummaryCount", num 0);
    ("dailySummaryResetTime", num 1699900000);
    ("plan", str "free")
  ].

(** A record filed under a customer but without most of the profile. *)
Definition guest : record :=
  list_to_map [
    ("uid", str "u1"); ("email", str "guest@example.com");
    ("stripeCustomerId", str "cus_1")
  ].

Definition sample_store : world :=
  World {[ "u1" := alice; "u2" := bob ]} [] [].

Definition guest_world : world := World {[ "u1" := guest ]} [] [].

Definition sample_provider : provider :=
  Provider
    (λ params, inr (Customer.Build
                      (String.append "cus_" (CustomerParams.metadata_userId params))))
    (λ params, inr (Session.Build "cs_1" (Some "https://checkout.example/cs_1")))
    (λ params, inr (CreatedSubscription.Build "sub_2"
                      (Some (LatestInvoice.Build
                               (Some (PaymentIntent.Build (Some "pi_1_secret")))))))
    (Some "price_pro").

Definition provider_down : exn :=
  JsError "An error occurred with our connection to Stripe." "StripeConnectionError".

Definition sample_checkout : CheckoutBody.t :=
  CheckoutBody.Build "u2" "https://app.example/billing".

(** A verifier that answers every delivery with a subscription created for
    the customer [sample_provider] creates for [u2]. *)
Definition trial_verifier : verifier := fun payload header secret =>
  inr (Event.customer_subscription_created
         (Subscription.Build "sub_2" "cus_u2" "trialing"
            (Some (ApiList.Build [SubscriptionItem.Build (Price.Build "price_pro")]))
            1700000000 false None)).
(** A verifier that answers every delivery with a paid invoice whose
    identifier is empty. *)
Definition nameless_verifier : verifier := fun payload header secret =>
  inr (Event.invoice_paid
         (Invoice.Build "" "cus_1" (Some "paid") "usd" 999
            (JNode (str "https://invoice.example/in_1")) JNull 1699999000
            (Some "subscription_cycle"))).

(** * Reasoning about handlers *)

Section wp_rules.
Context {A B : Type}.
Implicit Types (Q : exn + A → world → Prop) (w : world).

Lemma wp_ret (a : A) Q w : Q (inr a) w → wp (mret a) Q w.
Proof. done. Qed.

Lemma wp_throw e Q w : Q (inl e) w → wp (throw e) Q w.
Proof. done. Qed.

Lemma wp_call (r : exn + A) Q w : Q r w → wp (call r) Q w.
Proof. done. Qed.

Lemma wp_bind (c : M B) (k : B → M A) Q w :
  wp c (λ r w', match r with
                | inr b => wp (k b) Q w'
                | inl e => Q (inl e) w'
                end) w →
  wp (c ≫= k) Q w.
Proof.
  unfold wp, mbind, M_bind. by destruct (c w) as [[e|b] w'].
Qed.

Lemma wp_try_catch (c : M A) (h : exn → M A) Q w :
  wp c (λ r w', match r with
                | inr a => Q (inr a) w'
                | inl e => wp (h e) Q w'
                end) w →
  wp (try_catch c h) Q w.
Proof.
  unfold wp, try_catch. by destruct (c w) as [[e|a] w'].
Qed.

Lemma wp_mono (c : M A) Q Q' w :
  (∀ r w', Q r w' → Q' r w') → wp c Q w → wp c Q' w.
Proof. unfold wp. auto. Qed.
End wp_rules.

Lemma wp_round_trip a (Q : exn + () → world → Prop) w :
  (∀ e fs, faults w = Some e :: fs →
           Q (inl e) (World (users w) fs (trace w ++ [a]))) →
  (answers w → Q (inr ()) (World (users w) (tail (faults w)) (trace w ++ [a]))) →
  wp (round_trip a) Q w.
Proof.
  unfold wp, round_trip, answers. intros Hrej Hans.
  destruct (faults w) as [|[e|] fs] eqn:E; cbn; eauto.
Qed.

Lemma wp_query cid (Q : exn + gmap string record → world → Prop) w :
  (∀ e fs, faults w = Some e :: fs →
           Q (inl e) (World (users w) fs (trace w ++ [Query cid]))) →
  (answers w →
   Q (inr (matching cid (users w)))
     (World (users w) (tail (faults w)) (trace w ++ [Query cid]))) →
  wp (query_customer cid) Q w.
Proof.
  intros Hrej Hans. unfold query_customer. apply wp_bind, wp_round_trip; [done|].
  intros Ha. by apply Hans.
Qed.

Lemma wp_once_value uid (Q : exn + option record → world → Prop) w :
  (∀ e fs, faults w = Some e :: fs →
           Q (inl e) (World (users w) fs (trace w ++ [Read uid]))) →
  (answers w →
   Q (inr (users w !! uid))
     (World (users w) (tail (faults w)) (trace w ++ [Read uid]))) →
  wp (once_value uid) Q w.
Proof.
  intros Hrej Hans. unfold once_value. apply wp_bind, wp_round_trip; [done|].
  intros Ha. by apply Hans.
Qed.

Lemma wp_update uid v (Q : exn + () → world → Prop) w :
  (has_undefined v = true →
   Q (inl (JsError "Reference.update failed: First argument contains undefined" "Error")) w) →
  (∀ e fs, has_undefined v = false → faults w = Some e :: fs →
           Q (inl e) (World (users w) fs (trace w ++ [Update uid]))) →
  (has_undefined v = false → answers w →
   Q (inr ())
     (World (put_record uid (apply_update v (default ∅ (users w !! uid))) (users w))
            (tail (faults w)) (trace w ++ [Update uid]))) →
  wp (update uid v) Q w.
Proof.
  intros Hund Hrej Hans. unfold update.
  destruct (has_undefined v) eqn:E; [by apply wp_throw, Hund|].
  apply wp_bind, wp_round_trip; [by auto|].
  intros Ha. by apply Hans.
Qed.

Lemma wp_set_invoice uid id v (Q : exn + () → world → Prop) w :
  (∀ error, set_refusal id v = Some error → Q (inl error) w) →
  (∀ e fs, set_refusal id v = None → faults w = Some e :: fs →
           Q (inl e) (World (users w) fs (trace w ++ [SetInvoice uid id]))) →
  (set_refusal id v = None → answers w →
   Q (inr ())
     (World (put_record uid (set_invoice_in id v (default ∅ (users w !! uid))) (users w))
            (tail (faults w)) (trace w ++ [SetInvoice uid id]))) →
  wp (set_invoice uid id v) Q w.
Proof.
  intros Href Hrej Hans. unfold set_invoice.
  destruct (set_refusal id v) as [error|] eqn:E; [by apply wp_throw, Href|].
  apply wp_bind, wp_round_trip; [by auto|].
  intros Ha. by apply Hans.
Qed.

(** ** Facts about the store operations *)

Lemma customer_is_true cid (r : record) :
  customer_is cid r = true ↔ r !! "stripeCustomerId" = Some (str cid).
Proof.
  unfold customer_is, str.
  destruct (r !! "stripeCustomerId") as [[[s| |]|]|]; try (split; [done|congruence]).
  rewrite bool_decide_eq_true. split; [by intros ->|congruence].
Qed.

Lemma matching_lookup cid (us : gmap string record) uid r :
  matching cid us !! uid = Some r ↔
  us !! uid = Some r ∧ r !! "stripeCustomerId" = Some (str cid).
Proof.
  unfold matching. rewrite map_lookup_filter_Some. cbn.
  by rewrite customer_is_true.
Qed.

Lemma snapshot_exists_false (m : gmap string record) :
  snapshot_exists m = false ↔ m = ∅.
Proof.
  unfold snapshot_exists. rewrite bool_decide_eq_false.
  split; [apply dec_stable | auto].
Qed.

Lemma first_key_lookup (m : gmap string record) uid :
  first_key m = Some uid → is_Some (m !! uid).
Proof.
  unfold first_key. intros H.
  destruct (map_to_list m !! 0%nat) as [[k r]|] eqn:E; simplify_eq/=.
  exists r. apply elem_of_map_to_list. eapply list_elem_of_lookup_2, E.
Qed.

Lemma first_key_None (m : gmap string record) :
  first_key m = None → m = ∅.
Proof.
  unfold first_key. intros H.
  destruct (map_to_list m) as [|kv l] eqn:E; [by apply map_to_list_empty_iff|done].
Qed.

Lemma first_key_same_keys (m1 m2 : gmap string record) :
  (∀ j, is_Some (m1 !! j) ↔ is_Some (m2 !! j)) → first_key m1 = first_key m2.
Proof.
  intros Hdom.
  assert (∀ (a b : gmap string record) i,
            (∀ j, is_Some (a !! j) ↔ is_Some (b !! j)) →
            first_key a = Some i → first_key b = Some i) as Hone.
  { intros a b i Hab Ha.
    assert (map_first_key a i) as Hfk.
    { unfold map_first_key. unfold first_key in Ha.
      destruct (map_to_list a !! 0%nat) as [[k x]|]; simplify_eq/=. eauto. }
    apply (map_first_key_dom' a b i Hab) in Hfk as [x Hx].
    unfold first_key. by rewrite Hx. }
  destruct (first_key m1) as [i|] eqn:E1.
  - symmetry. by apply (Hone m1 m2).
  - destruct (first_key m2) as [i|] eqn:E2; [|done].
    apply (Hone m2 m1) in E2; [congruence|]. intros j. by rewrite Hdom.
Qed.

Lemma wp_first_user snapshot (Q : exn + string → world → Prop) w :
  (snapshot = ∅ →
   Q (inl (TypeError "Cannot convert undefined or null to object")) w) →
  (∀ uid, first_key snapshot = Some uid → is_Some (snapshot !! uid) → Q (inr uid) w) →
  wp (first_user snapshot) Q w.
Proof.
  intros Hnone Hsome. unfold first_user.
  destruct (first_key snapshot) as [uid|] eqn:E.
  - apply wp_ret, Hsome; [done|]. by apply first_key_lookup.
  - apply wp_throw, Hnone. by apply first_key_None.
Qed.

Lemma wp_first_price_id subscription (Q : exn + string → world → Prop) w :
  (∀ e, first_price subscription = None → Q (inl e) w) →
  (∀ priceId, first_price subscription = Some priceId → Q (inr priceId) w) →
  wp (first_price_id subscription) Q w.
Proof.
  intros Hbad Hok. unfold wp, first_price_id, first_price in *.
  destruct (Subscription.items subscription) as [items|].
  - destruct (ApiList.data items) as [|item rest]; [by apply Hbad|by apply Hok].
  - by apply Hbad.
Qed.

Lemma field_put_record uid r (us : gmap string record) uid' k :
  field (put_record uid r us) uid' k =
  if decide (uid = uid') then r !! k else field us uid' k.
Proof.
  unfold field, put_record. case_decide as Hr; case_decide as Hu; subst.
  - by rewrite lookup_delete_eq, lookup_empty.
  - by rewrite lookup_delete_ne.
  - by rewrite lookup_insert_eq.
  - by rewrite lookup_insert_ne.
Qed.

Lemma lookup_apply_update (v : jsobject) (r : record) k :
  apply_update v r !! k =
  match v !! k with
  | Some (JNode n) => Some n
  | Some JNull => None
  | _ => r !! k
  end.
Proof.
  unfold apply_update. rewrite lookup_merge.
  destruct (v !! k) as [[| |n]|], (r !! k); done.
Qed.

Lemma has_undefined_false (v : jsobject) k x :
  has_undefined v = false → v !! k = Some x → x ≠ JUndefined.
Proof.
  unfold has_undefined. rewrite bool_decide_eq_false.
  intros Hno Hk ->. apply Hno. by exists k, JUndefined.
Qed.

Lemma lookup_assign_Some (o : jsobject) fields k x :
  assign o fields !! k = Some x → (k, x) ∈ fields ∨ o !! k = Some x.
Proof.
  unfold assign. revert o. induction fields as [|[k' x'] fields IH]; intros o; cbn.
  - auto.
  - intros H. apply IH in H as [H|H].
    + left. by apply list_elem_of_further.
    + rewrite lookup_insert in H. case_decide; simplify_eq.
      * left. apply list_elem_of_here.
      * by right.
Qed.

Lemma lookup_assign_notin (o : jsobject) fields k :
  k ∉ fields.*1 → assign o fields !! k = o !! k.
Proof.
  unfold assign. revert o. induction fields as [|[k' x'] fields IH]; intros o; cbn.
  - done.
  - rewrite not_elem_of_cons. intros [Hne Hnotin].
    rewrite IH by done. by rewrite lookup_insert_ne.
Qed.

Lemma lookup_spread (r : record) k : spread r !! k = JNode <$> (r !! k).
Proof. unfold spread. by rewrite lookup_fmap. Qed.

(** ** Partial updates keep what they do not name *)

Lemma keeps_refl cols us : keeps cols us us.
Proof. by intros uid k _. Qed.

Lemma keeps_trans cols us1 us2 us3 :
  keeps cols us1 us2 → keeps cols us2 us3 → keeps cols us1 us3.
Proof. intros H12 H23 uid k Hk. by rewrite H23, H12. Qed.

Lemma field_default (us : gmap string record) uid k :
  default ∅ (us !! uid) !! k = field us uid k.
Proof. unfold field. by destruct (us !! uid). Qed.

Lemma apply_update_keeps cols (r : record) (v : jsobject) k :
  has_undefined v = false → overlays cols r v → k ∉ cols →
  apply_update v r !! k = r !! k.
Proof.
  intros Hdef Hov Hk. rewrite lookup_apply_update.
  destruct (v !! k) as [x|] eqn:E; [|done].
  pose proof (has_undefined_false _ _ _ Hdef E) as Hx.
  rewrite (Hov k x Hk E) in *. unfold prop in *. by destruct (r !! k).
Qed.

Lemma keeps_update cols (us : gmap string record) uid v :
  has_undefined v = false →
  overlays cols (default ∅ (us !! uid)) v →
  keeps cols us (put_record uid (apply_update v (default ∅ (us !! uid))) us).
Proof.
  intros Hdef Hov uid' k Hk. rewrite field_put_record.
  case_decide; [subst uid'|done].
  rewrite (apply_update_keeps cols) by done. apply field_default.
Qed.

Lemma set_invoice_in_other id v (r : record) k :
  k ≠ "invoices" → set_invoice_in id v r !! k = r !! k.
Proof. intros Hk. unfold set_invoice_in. by rewrite lookup_partial_alter_ne. Qed.

Lemma keeps_set_invoice (us : gmap string record) uid id v :
  keeps ["invoices"] us
        (put_record uid (set_invoice_in id v (default ∅ (us !! uid))) us).
Proof.
  intros uid' k Hk. rewrite field_put_record.
  case_decide; [subst uid'|done].
  rewrite set_invoice_in_other by set_solver. apply field_default.
Qed.

Lemma overlays_spread cols (r : record) fields :
  Forall (λ f, f.1 ∈ cols) fields →
  overlays cols r (assign (spread r) fields).
Proof.
  intros Hall k x Hk Hv. apply lookup_assign_Some in Hv as [Hin|Hsp].
  - rewrite list.Forall_forall in Hall. apply Hall in Hin. done.
  - rewrite lookup_spread in Hsp. unfold prop.
    by destruct (r !! k); simplify_eq/=.
Qed.

Lemma overlays_literal cols (r : record) fields :
  Forall (λ f, f.1 ∈ cols ∨ f.2 = prop r f.1) fields →
  overlays cols r (assign ∅ fields).
Proof.
  intros Hall k x Hk Hv. apply lookup_assign_Some in Hv as [Hin|He].
  - rewrite list.Forall_forall in Hall. apply Hall in Hin as [?|?]; done.
  - by rewrite lookup_empty in He.
Qed.

(** Stepping through a handler. *)
Ltac wp_step :=
  lazymatch goal with
  | |- wp (mbind _ _) _ _ => apply wp_bind
  | |- wp (mret _) _ _ => apply wp_ret
  | |- wp (throw _) _ _ => apply wp_throw
  | |- wp (call _) _ _ => apply wp_call
  | |- wp (try_catch _ _) _ _ => apply wp_try_catch
  | |- wp (query_customer _) _ _ =>
      apply wp_query; [intros ? ? ?|intros ?]
  | |- wp (once_value _) _ _ =>
      apply wp_once_value; [intros ? ? ?|intros ?]
  | |- wp (first_user _) _ _ =>
      apply wp_first_user; [intros ?|intros ? ? ?]
  | |- wp (first_price_id _) _ _ =>
      apply wp_first_price_id; [intros ? ?|intros ? ?]
  | |- wp (update _ _) _ _ =>
      apply wp_update; [intros ?|intros ? ? ? ?|intros ? ?]
  | |- wp (set_invoice _ _ _) _ _ =>
      apply wp_set_invoice; [intros ? ?|intros ? ? ? ?|intros ? ?]
  | |- wp (if ?b then _ else _) _ _ => destruct b eqn:?
  | |- wp (match ?o with Some _ => _ | None => _ end) _ _ => destruct o eqn:?
  end; cbv beta iota zeta; cbn [users faults trace tail].

Ltac wp_run := repeat wp_step.

(** The record the lookup selected carries the customer identifier. *)
Lemma selected_customer cid (us : gmap string record) uid r :
  is_Some (matching cid us !! uid) → us !! uid = Some r →
  prop r "stripeCustomerId" = JNode (str cid).
Proof.
  intros [r' Hr'] Hr. apply matching_lookup in Hr' as [Hr'' Hc].
  simplify_eq. unfold prop. by rewrite Hc.
Qed.

Ltac solve_elem_of :=
  solve [repeat first [apply list_elem_of_here | apply list_elem_of_further]].

Ltac solve_overlays :=
  lazymatch goal with
  | |- overlays _ _ (assign (spread _) _) =>
      apply overlays_spread;
      repeat first [apply Forall_nil_2 | apply Forall_cons_2];
      cbn [fst snd]; solve_elem_of
  | |- overlays _ _ (assign ∅ _) =>
      apply overlays_literal;
      repeat first [apply Forall_nil_2 | apply Forall_cons_2];
      cbn [fst snd];
      first [right; reflexivity | left; solve_elem_of
            | right; symmetry; eapply selected_customer; eassumption]
  end.

Ltac solve_keeps :=
  first
    [ apply keeps_refl
    | apply keeps_update; [done|];
      repeat match goal with H : _ !! _ = _ |- _ => rewrite H end;
      cbn [default]; solve_overlays ].

Section frame.
Let cols := ["plan"; "subscription"].

Lemma Part000_upserted_keeps subscription w :
  wp (Part000.subscription_upserted subscription)
     (λ _ w', keeps cols (users w) (users w')) w.
Proof. unfold Part000.subscription_upserted. wp_run; solve_keeps. Qed.

Lemma Part000_deleted_keeps subscription w :
  wp (Part000.subscription_deleted subscription)
     (λ _ w', keeps cols (users w) (users w')) w.
Proof. unfold Part000.subscription_deleted. wp_run; solve_keeps. Qed.

Lemma Part000_payment_failed_keeps invoice w :
  wp (Part000.invoice_payment_failed invoice)
     (λ _ w', keeps cols (users w) (users w')) w.
Proof. unfold Part000.invoice_payment_failed. wp_run; solve_keeps. Qed.

Lemma Part000_paid_keeps invoice w :
  wp (Part000.invoice_paid invoice)
     (λ _ w', keeps ["invoices"] (users w) (users w')) w.
Proof.
  unfold Part000.invoice_paid. wp_run;
    repeat first [apply keeps_refl | apply keeps_set_invoice
                 | eapply keeps_trans; [apply keeps_set_invoice|]].
Qed.

Lemma IndexTs_upserted_keeps subscription w :
  wp (IndexTs.subscription_upserted subscription)
     (λ _ w', keeps cols (users w) (users w')) w.
Proof. unfold IndexTs.subscription_upserted. wp_run; solve_keeps. Qed.

Lemma IndexTs_deleted_keeps subscription w :
  wp (IndexTs.subscription_deleted subscription)
     (λ _ w', keeps cols (users w) (users w')) w.
Proof. unfold IndexTs.subscription_deleted. wp_run; solve_keeps. Qed.

Lemma Part001_upserted_keeps subscription w :
  wp (Part001.subscription_upserted subscription)
     (λ _ w', keeps cols (users w) (users w')) w.
Proof. unfold Part001.subscription_upserted. wp_run; solve_keeps. Qed.

Lemma Part001_deleted_keeps subscription w :
  wp (Part001.subscription_deleted subscription)
     (λ _ w', keeps cols (users w) (users w')) w.
Proof. unfold Part001.subscription_deleted. wp_run; solve_keeps. Qed.
End frame.

(** ** The endpoint as a whole *)

Lemma Part000_webhook_world constructEvent secret req w :
  (Part000.webhook constructEvent secret req w).2 =
  (Part000.webhook_try constructEvent secret req w).2.
Proof.
  unfold Part000.webhook.
  by destruct (Part000.webhook_try constructEvent secret req w) as [[e|res] w'].
Qed.

Lemma IndexTs_webhook_world constructEvent secret req w :
  (IndexTs.webhook constructEvent secret req w).2 =
  (IndexTs.webhook_try constructEvent secret req w).2.
Proof.
  unfold IndexTs.webhook.
  by destruct (IndexTs.webhook_try constructEvent secret req w) as [[e|res] w'].
Qed.

Lemma Part001_webhook_world constructEvent secret req w :
  (Part001.webhook constructEvent secret req w).2 =
  (Part001.webhook_try constructEvent secret req w).2.
Proof.
  unfold Part001.webhook.
  by destruct (Part001.webhook_try constructEvent secret req w) as [[e|res] w'].
Qed.

(** After a handler that ends the [try] block: the acknowledgement. *)
Lemma wp_then_ack (c : M ()) (P : world → Prop) w :
  wp c (λ _ w', P w') w →
  wp (c;; mret (res_json received_true)) (λ _ w', P w') w.
Proof.
  intros H. apply wp_bind. eapply wp_mono, H.
  intros [e|[]] w' HP; [done|]. by apply wp_ret.
Qed.

Lemma Part000_dispatch_keeps event w :
  wp (Part000.dispatch event)
     (λ _ w', keeps (mutation_column event) (users w) (users w')) w.
Proof.
  destruct event; cbn [Part000.dispatch mutation_column].
  - apply Part000_upserted_keeps.
  - apply Part000_upserted_keeps.
  - apply Part000_deleted_keeps.
  - apply Part000_paid_keeps.
  - apply Part000_payment_failed_keeps.
  - apply wp_ret, keeps_refl.
Qed.

Lemma IndexTs_dispatch_keeps event w :
  wp (IndexTs.dispatch event)
     (λ _ w', keeps (mutation_column event) (users w) (users w')) w.
Proof.
  destruct event; cbn [IndexTs.dispatch mutation_column];
    try (apply wp_ret, keeps_refl).
  - apply IndexTs_upserted_keeps.
  - apply IndexTs_upserted_keeps.
  - apply IndexTs_deleted_keeps.
Qed.

Lemma Part001_dispatch_keeps event w :
  wp (Part001.dispatch event)
     (λ _ w', keeps (mutation_column event) (users w) (users w')) w.
Proof.
  destruct event; cbn [Part001.dispatch mutation_column];
    try (apply wp_ret, keeps_refl).
  - apply Part001_upserted_keeps.
  - apply Part001_upserted_keeps.
  - apply Part001_deleted_keeps.
Qed.

(** C2. Whatever event a request verifies to, each revision of the endpoint
    leaves every child of every user record outside the event kind's
    mutation column ([plan] and [subscription], or [invoices]) exactly as it
    was: the write is an overlay on the record, not a replacement of it. *)
Theorem field_preservation constructEvent secret req event w uid k :
  verified constructEvent secret req = inr event →
  k ∉ mutation_column event →
  field (users (Part000.webhook constructEvent secret req w).2) uid k
    = field (users w) uid k
  ∧ field (users (IndexTs.webhook constructEvent secret req w).2) uid k
    = field (users w) uid k
  ∧ field (users (Part001.webhook constructEvent secret req w).2) uid k
    = field (users w) uid k.
Proof.
  unfold verified. intros Hev Hk.
  rewrite Part000_webhook_world, IndexTs_webhook_world, Part001_webhook_world.
  split_and!.
  - unfold Part000.webhook_try. rewrite Hev.
    pose proof (wp_then_ack (Part000.dispatch event)
                  (λ w', keeps (mutation_column event) (users w) (users w')) w
                  (Part000_dispatch_keeps event w)) as H.
    by apply H.
  - unfold IndexTs.webhook_try. rewrite Hev.
    pose proof (wp_then_ack (IndexTs.dispatch event)
                  (λ w', keeps (mutation_column event) (users w) (users w')) w
                  (IndexTs_dispatch_keeps event w)) as H.
    by apply H.
  - unfold Part001.webhook_try. rewrite Hev.
    pose proof (wp_then_ack (Part001.dispatch event)
                  (λ w', keeps (mutation_column event) (users w) (users w')) w
                  (Part001_dispatch_keeps event w)) as H.
    by apply H.
Qed.

(** ** The transition a delivery makes when the database rejects nothing *)

Lemma put_record_nonempty uid (r : record) (us : gmap string record) k n :
  r !! k = Some n → put_record uid r us = <[uid := r]> us.
Proof.
  intros Hk. unfold put_record. case_decide as E; [|done].
  rewrite E, lookup_empty in Hk. done.
Qed.

Lemma matching_insert_keys cid (us : gmap string record) uid r r1 :
  us !! uid = Some r →
  r !! "stripeCustomerId" = Some (str cid) →
  r1 !! "stripeCustomerId" = Some (str cid) →
  first_key (matching cid (<[uid := r1]> us)) = first_key (matching cid us).
Proof.
  intros Hr Hc Hc1. apply first_key_same_keys. intros j.
  destruct (decide (j = uid)) as [->|Hne].
  - split; intros _.
    + exists r. by apply matching_lookup.
    + exists r1. apply matching_lookup. by rewrite lookup_insert_eq.
  - unfold is_Some. setoid_rewrite matching_lookup.
    by rewrite lookup_insert_ne.
Qed.

Lemma first_key_matching cid (us : gmap string record) uid :
  first_key (matching cid us) = Some uid →
  ∃ r, us !! uid = Some r ∧ r !! "stripeCustomerId" = Some (str cid).
Proof.
  intros H. apply first_key_lookup in H as [r Hr].
  exists r. by apply matching_lookup.
Qed.

Lemma lookup_update_idempotent cid patch us :
  settles cid patch →
  lookup_update cid patch (lookup_update cid patch us) = lookup_update cid patch us.
Proof.
  intros Hs. unfold lookup_update at 2.
  destruct (first_key (matching cid us)) as [uid|] eqn:Hfk;
    [|by unfold lookup_update; rewrite Hfk].
  destruct (first_key_matching _ _ _ Hfk) as (r & Hr & Hc). rewrite Hr.
  destruct (patch r) as [v|] eqn:Hp;
    [|by unfold lookup_update; rewrite Hfk, Hr, Hp].
  destruct (has_undefined v) eqn:Hu;
    [by unfold lookup_update; rewrite Hfk, Hr, Hp, Hu|].
  destruct (Hs r v Hc Hp Hu) as (Hc1 & v1 & Hp1 & Hu1 & Hfix).
  rewrite (put_record_nonempty _ _ _ _ _ Hc1).
  unfold lookup_update.
  rewrite (matching_insert_keys cid us uid r _ Hr Hc Hc1), Hfk.
  rewrite lookup_insert_eq, Hp1, Hu1, Hfix.
  rewrite Hr, Hp, Hu, !(put_record_nonempty _ _ _ _ _ Hc1).
  by rewrite insert_insert_eq.
Qed.

Lemma apply_update_idempotent (v : jsobject) (r : record) :
  apply_update v (apply_update v r) = apply_update v r.
Proof.
  apply map_eq. intros k. rewrite !lookup_apply_update.
  by destruct (v !! k) as [[| |n]|].
Qed.

Lemma prop_apply_update (v : jsobject) (r : record) k :
  has_undefined v = false → v !! k = Some (prop r k) →
  prop (apply_update v r) k = prop r k.
Proof.
  intros Hu Hk. pose proof (has_undefined_false _ _ _ Hu Hk) as Hd.
  unfold prop in *. rewrite lookup_apply_update, Hk.
  by destruct (r !! k).
Qed.

Lemma lookup_assign_nodup (o : jsobject) fields k x :
  NoDup fields.*1 → (k, x) ∈ fields → assign o fields !! k = Some x.
Proof.
  unfold assign. revert o. induction fields as [|[k' x'] fields IH]; intros o.
  - by intros _ ?%elem_of_nil.
  - cbn. intros [Hnotin Hnd]%list.NoDup_cons [Heq|Hin]%elem_of_cons.
    + simplify_eq. fold (assign (<[k':=x']> o) fields).
      rewrite lookup_assign_notin by done. by rewrite lookup_insert_eq.
    + by apply IH.
Qed.

Lemma first_key_empty : first_key (∅ : gmap string record) = None.
Proof. unfold first_key. by rewrite map_to_list_empty. Qed.

Lemma lookup_update_no_match cid patch (us : gmap string record) :
  matching cid us = ∅ → lookup_update cid patch us = us.
Proof. intros H. unfold lookup_update. by rewrite H, first_key_empty. Qed.

Lemma snapshot_exists_negb_true (m : gmap string record) :
  negb (snapshot_exists m) = true → m = ∅.
Proof. rewrite negb_true_iff. apply snapshot_exists_false. Qed.

Lemma lookup_matching_users cid (us : gmap string record) uid :
  is_Some (matching cid us !! uid) → us !! uid = None → False.
Proof. intros [r [Hr _]%matching_lookup] ?. congruence. Qed.

(** Closing the branches of a run in which nothing is rejected. *)
Ltac quiet_branch :=
  try match goal with
      | H : faults (World _ [] _) = _ :: _ |- _ => by inversion H
      end;
  try (exfalso; eapply lookup_matching_users; eassumption);
  try (split; [|reflexivity]);
  try (symmetry; apply lookup_update_no_match;
       first [assumption
             | apply snapshot_exists_negb_true; assumption
             | apply snapshot_exists_false; assumption]).

Lemma matched_record cid (us : gmap string record) uid :
  is_Some (matching cid us !! uid) → ∃ r, us !! uid = Some r.
Proof. intros [r [Hr _]%matching_lookup]. eauto. Qed.

(** Name the record the lookup selected when the handler did not branch on
    what it read. *)
Ltac name_selected :=
  try match goal with
    | H : is_Some (matching _ ?us !! ?uid) |- _ =>
        lazymatch goal with
        | _ : us !! uid = _ |- _ => fail
        | _ => let r := fresh "r" in
               let Hr := fresh "Hr" in
               destruct (matched_record _ _ _ H) as [r Hr];
               rewrite Hr in *; cbn [default id] in *
        end
    end.

Ltac quiet_close patch :=
  quiet_branch; name_selected;
  unfold lookup_update, patch;
  repeat match goal with
    | H : first_key _ = _ |- _ => rewrite H
    | H : _ !! _ = _ |- _ => rewrite H
    | H : first_price _ = _ |- _ => rewrite H
    | H : has_undefined _ = _ |- _ => rewrite H
    end;
  cbn [default id]; try reflexivity.

Lemma default_put_record uid (r : record) (us : gmap string record) :
  default ∅ (put_record uid r us !! uid) = r.
Proof.
  unfold put_record. case_decide as E.
  - by rewrite lookup_delete_eq, E.
  - by rewrite lookup_insert_eq.
Qed.

Lemma put_record_twice uid (r : record) (us : gmap string record) :
  put_record uid r (put_record uid r us) = put_record uid r us.
Proof.
  unfold put_record. case_decide.
  - by rewrite delete_delete_eq.
  - by rewrite insert_insert_eq.
Qed.

Lemma kids_of_obj_of (kids : gmap string node) : kids_of (obj_of kids) = kids.
Proof. unfold obj_of. by case_decide. Qed.

Lemma set_at_idempotent path value old :
  set_at path value (set_at path value old) = set_at path value old.
Proof.
  revert old. induction path as [|k path IH]; intros old; [done|].
  cbn [set_at]. rewrite kids_of_obj_of, partial_alter_partial_alter_eq. f_equal.
  apply partial_alter_ext. intros o _. apply IH.
Qed.

Lemma set_invoice_in_idempotent id v (r : record) :
  set_invoice_in id v (set_invoice_in id v r) = set_invoice_in id v r.
Proof.
  unfold set_invoice_in. rewrite partial_alter_partial_alter_eq.
  apply partial_alter_ext. intros o _. apply set_at_idempotent.
Qed.

Lemma lookup_set_idempotent cid iid v us :
  lookup_set cid iid v (lookup_set cid iid v us) = lookup_set cid iid v us.
Proof.
  unfold lookup_set at 2.
  destruct (first_key (matching cid us)) as [uid|] eqn:Hfk;
    [|by unfold lookup_set; rewrite Hfk].
  destruct (set_refusal iid v) as [error|] eqn:Hu;
    [by unfold lookup_set; rewrite Hfk, Hu|].
  destruct (first_key_matching _ _ _ Hfk) as (r & Hr & Hc).
  rewrite Hr. cbn [default id].
  assert (set_invoice_in iid v r !! "stripeCustomerId" = Some (str cid)) as Hc1.
  { by rewrite set_invoice_in_other. }
  unfold lookup_set. rewrite (put_record_nonempty _ _ _ _ _ Hc1).
  rewrite (matching_insert_keys cid us uid r _ Hr Hc Hc1), Hfk, Hu.
  rewrite lookup_insert_eq. cbn [default id].
  rewrite set_invoice_in_idempotent, (put_record_nonempty _ _ _ _ _ Hc1).
  rewrite Hr. cbn [default id]. rewrite (put_record_nonempty _ _ _ _ _ Hc1).
  by rewrite insert_insert_eq.
Qed.

Section Part000_quiet.
Import Part000.

Lemma upserted_quiet subscription w :
  faults w = [] →
  wp (subscription_upserted subscription)
     (λ _ w', users w' = lookup_update (Subscription.customer subscription)
                           (Part000_patches.upserted subscription) (users w)
              ∧ faults w' = []) w.
Proof.
  destruct w as [us fs tr]. cbn [faults users]. intros ->.
  unfold subscription_upserted. wp_run; quiet_close Part000_patches.upserted.
Qed.

Lemma deleted_quiet subscription w :
  faults w = [] →
  wp (subscription_deleted subscription)
     (λ _ w', users w' = lookup_update (Subscription.customer subscription)
                           Part000_patches.deleted (users w)
              ∧ faults w' = []) w.
Proof.
  destruct w as [us fs tr]. cbn [faults users]. intros ->.
  unfold subscription_deleted. wp_run; quiet_close Part000_patches.deleted.
Qed.

Lemma payment_failed_quiet invoice w :
  faults w = [] →
  wp (invoice_payment_failed invoice)
     (λ _ w', users w' =
                (if bool_decide (Invoice.billing_reason invoice
                                 = Some "subscription_create")
                 then lookup_update (Invoice.customer invoice)
                        Part000_patches.payment_failed (users w)
                 else users w)
              ∧ faults w' = []) w.
Proof.
  destruct w as [us fs tr]. cbn [faults users]. intros ->.
  unfold invoice_payment_failed. wp_run;
    quiet_close Part000_patches.payment_failed.
Qed.

Lemma paid_quiet invoice w :
  faults w = [] →
  wp (invoice_paid invoice)
     (λ _ w', users w' = lookup_set (Invoice.customer invoice)
                           (Invoice.id invoice) (invoice_data invoice) (users w)
              ∧ faults w' = []) w.
Proof.
  destruct w as [us fs tr]. cbn [faults users]. intros ->.
  unfold invoice_paid. fold (invoice_data invoice). wp_run; quiet_branch.
  all: try congruence.
  all: rewrite ?default_put_record, ?set_invoice_in_idempotent,
         ?put_record_twice.
  all: unfold lookup_set.
  all: repeat match goal with
         | H : negb (snapshot_exists _) = true |- _ =>
             apply snapshot_exists_negb_true in H; rewrite H, first_key_empty
         | H : matching _ _ = ∅ |- _ => rewrite H, first_key_empty
         | H : first_key _ = _ |- _ => rewrite H
         | H : set_refusal _ _ = _ |- _ => rewrite H
         end; reflexivity.
Qed.
End Part000_quiet.

Lemma dispatch_quiet event w :
  faults w = [] →
  wp (Part000.dispatch event)
     (λ _ w', users w' = transition event (users w) ∧ faults w' = []) w.
Proof.
  intros Hq. destruct event; cbn [Part000.dispatch transition].
  - by apply upserted_quiet.
  - by apply upserted_quiet.
  - by apply deleted_quiet.
  - by apply paid_quiet.
  - by apply payment_failed_quiet.
  - by apply wp_ret.
Qed.

(** ** Redelivery *)

(** Decidable facts about literal key lists: [NoDup], non-membership. *)
Ltac by_computation := refine (bool_decide_unpack _ _); vm_compute; exact I.
Ltac solve_NoDup := by_computation.

Lemma has_undefined_spread (r : record) fields :
  Forall (λ f, is_undefined f.2 = false) fields →
  has_undefined (assign (spread r) fields) = false.
Proof.
  intros Hall. unfold has_undefined. apply bool_decide_eq_false.
  intros (k & x & Hk & Hx). apply lookup_assign_Some in Hk as [Hin|Hsp].
  - rewrite list.Forall_forall in Hall. apply Hall in Hin. cbn in Hin. congruence.
  - rewrite lookup_spread in Hsp. destruct (r !! k); simplify_eq/=.
Qed.

Lemma spread_reapplied (r : record) fields :
  NoDup fields.*1 →
  Forall (λ f, is_undefined f.2 = false) fields →
  apply_update (assign (spread (apply_update (assign (spread r) fields) r)) fields)
               (apply_update (assign (spread r) fields) r)
  = apply_update (assign (spread r) fields) r.
Proof.
  intros Hnd Hdef. apply map_eq. intros k.
  rewrite lookup_apply_update. destruct (decide (k ∈ fields.*1)) as [Hin|Hnotin].
  - apply list_elem_of_fmap in Hin as ([k' x] & -> & Hin). cbn [fst].
    rewrite (lookup_assign_nodup _ _ _ _ Hnd Hin).
    rewrite lookup_apply_update, (lookup_assign_nodup _ _ _ _ Hnd Hin).
    rewrite list.Forall_forall in Hdef. apply Hdef in Hin. cbn in Hin.
    by destruct x.
  - rewrite lookup_assign_notin, lookup_spread by done.
    by destruct (apply_update _ r !! k).
Qed.

Lemma payment_failed_settles cid : settles cid Part000_patches.payment_failed.
Proof.
  intros r v Hc Hp Hu. unfold Part000_patches.payment_failed in *.
  simplify_eq. split.
  - rewrite lookup_apply_update, lookup_assign_notin, lookup_spread, Hc;
      [done|solve_NoDup].
  - eexists. split; [done|]. split.
    + apply has_undefined_spread.
      repeat first [apply Forall_nil_2 | apply Forall_cons_2]; done.
    + apply spread_reapplied; [solve_NoDup|].
      repeat first [apply Forall_nil_2 | apply Forall_cons_2]; done.
Qed.

(** A literal that writes back what was read is rebuilt unchanged from the
    record it produced. *)
Ltac same_literal v Hu :=
  repeat match goal with
    | |- context [prop (apply_update v ?r) ?k] =>
        rewrite (prop_apply_update v r k Hu)
          by (subst v; apply lookup_assign_nodup; [solve_NoDup|solve_elem_of])
    end.

Lemma upserted_settles subscription :
  settles (Subscription.customer subscription)
          (Part000_patches.upserted subscription).
Proof.
  intros r v0 Hc Hp Hu. unfold Part000_patches.upserted in *.
  destruct (first_price subscription) as [priceId|]; [|done].
  apply (inj Some) in Hp. subst v0.
  match goal with |- context [apply_update ?t r] => set (v := t) in * end. split.
  - rewrite lookup_apply_update.
    assert (v !! "stripeCustomerId"
            = Some (JNode (str (Subscription.customer subscription)))) as ->; [|done].
    subst v. apply lookup_assign_nodup; [solve_NoDup|solve_elem_of].
  - exists v. split; [|split; [done|apply apply_update_idempotent]].
    same_literal v Hu. done.
Qed.

Lemma deleted_settles cid : settles cid Part000_patches.deleted.
Proof.
  intros r v0 Hc Hp Hu. unfold Part000_patches.deleted in *.
  apply (inj Some) in Hp. subst v0.
  match goal with |- context [apply_update ?t r] => set (v := t) in * end. split.
  - rewrite lookup_apply_update. subst v.
    rewrite lookup_assign_notin, lookup_empty; [done|solve_NoDup].
  - exists v. split; [|split; [done|apply apply_update_idempotent]].
    same_literal v Hu. done.
Qed.

Lemma transition_idempotent event us :
  transition event (transition event us) = transition event us.
Proof.
  destruct event; cbn [transition].
  - apply lookup_update_idempotent, upserted_settles.
  - apply lookup_update_idempotent, upserted_settles.
  - apply lookup_update_idempotent, deleted_settles.
  - apply lookup_set_idempotent.
  - case_bool_decide; [|done].
    apply lookup_update_idempotent, payment_failed_settles.
  - done.
Qed.

Lemma webhook_quiet constructEvent secret req w :
  faults w = [] →
  users (Part000.webhook constructEvent secret req w).2
    = delivered constructEvent secret req (users w)
  ∧ faults (Part000.webhook constructEvent secret req w).2 = [].
Proof.
  intros Hq. rewrite Part000_webhook_world.
  unfold Part000.webhook_try, delivered, verified.
  destruct (constructEvent _ _ _) as [err|event]; [done|].
  exact (wp_then_ack (Part000.dispatch event)
           (λ w', users w' = transition event (users w) ∧ faults w' = []) w
           (dispatch_quiet event w Hq)).
Qed.

(** C3. With a database that rejects nothing, delivering a request a second
    time leaves [users] exactly as the first delivery left it, whatever
    event the request verifies to (and so in particular the [plan] and
    [subscription] children written by a subscription upsert). *)
Theorem redelivery_idempotent constructEvent secret req w :
  faults w = [] →
  users (Part000.webhook constructEvent secret req
           (Part000.webhook constructEvent secret req w).2).2
  = users (Part000.webhook constructEvent secret req w).2.
Proof.
  intros Hq.
  destruct (webhook_quiet constructEvent secret req w Hq) as [Hu1 Hq1].
  destruct (webhook_quiet constructEvent secret req _ Hq1) as [Hu2 _].
  rewrite Hu2, Hu1. unfold delivered.
  destruct (verified constructEvent secret req); [done|].
  apply transition_idempotent.
Qed.

(** ** Failed verification and unknown events *)

Lemma Part000_on_error_shape err :
  status (Part000.on_error err) = 400%Z ∧
  error_code (Part000.on_error err) = Some "WEBHOOK_SIGNATURE_ERROR".
Proof. by destruct err. Qed.

(** C7. When [constructEvent] throws, the endpoint answers with its error
    response (status 400, code [WEBHOOK_SIGNATURE_ERROR]) and the world is
    exactly as before: no round trip to the database was made (the trace and
    the fault schedule are untouched) and no user record changed. *)
Theorem signature_failure_short_circuits constructEvent secret req w err :
  verified constructEvent secret req = inl err →
  Part000.webhook constructEvent secret req w = (Part000.on_error err, w)
  ∧ status (Part000.on_error err) = 400%Z
  ∧ error_code (Part000.on_error err) = Some "WEBHOOK_SIGNATURE_ERROR".
Proof.
  unfold verified. intros Hv. split; [|apply Part000_on_error_shape].
  unfold Part000.webhook, Part000.webhook_try.
  unfold mbind, M_bind, call. by rewrite Hv.
Qed.

(** C9. An event whose [type] is none of the five the switch knows makes no
    round trip to the database, changes nothing, and is acknowledged with
    status 200 and [{received: true}]. *)
Theorem unknown_event_passthrough constructEvent secret req w event :
  verified constructEvent secret req = inr event →
  Event.type event ∉ recognized_types →
  Part000.webhook constructEvent secret req w = (Response 200 received_true, w).
Proof.
  unfold verified. intros Hv Hty.
  unfold Part000.webhook, Part000.webhook_try.
  unfold mbind, M_bind, call. rewrite Hv.
  destruct event; cbn [Event.type] in Hty;
    try (exfalso; apply Hty; unfold recognized_types; solve_elem_of).
  reflexivity.
Qed.

(** ** A lookup without match, and a rejected lookup *)

Lemma snapshot_exists_empty : snapshot_exists (∅ : gmap string record) = false.
Proof. by apply snapshot_exists_false. Qed.

Lemma answers_not_rejected w e fs : answers w → faults w = Some e :: fs → False.
Proof. unfold answers. intros Ha Hf. by rewrite Hf in Ha. Qed.

(** Closing the branches a run cannot take once the lookup is known to be
    answered with no match. *)
Ltac no_match_branch Hempty :=
  try (exfalso; eapply answers_not_rejected; eassumption);
  try match goal with
    | H : context [snapshot_exists (matching _ _)] |- _ =>
        rewrite Hempty, snapshot_exists_empty in H; by inversion H
    end.

Section Part000_no_match.
Import Part000.
Context (w : world) (cid : string).
Hypothesis Hans : answers w.
Hypothesis Hempty : matching cid (users w) = ∅.

Lemma upserted_no_match subscription :
  Subscription.customer subscription = cid →
  wp (subscription_upserted subscription)
     (λ r w', r = inl (JsError "No user found for customer" "Error")
              ∧ users w' = users w) w.
Proof.
  intros <-. unfold subscription_upserted. wp_run; no_match_branch Hempty; done.
Qed.

Lemma deleted_no_match subscription :
  Subscription.customer subscription = cid →
  wp (subscription_deleted subscription)
     (λ r w', r = inr () ∧ users w' = users w) w.
Proof.
  intros <-. unfold subscription_deleted. wp_run; no_match_branch Hempty; done.
Qed.

Lemma paid_no_match invoice :
  Invoice.customer invoice = cid →
  wp (invoice_paid invoice) (λ r w', r = inr () ∧ users w' = users w) w.
Proof.
  intros <-. unfold invoice_paid. wp_run; no_match_branch Hempty; done.
Qed.

Lemma payment_failed_no_match invoice :
  Invoice.customer invoice = cid →
  wp (invoice_payment_failed invoice)
     (λ r w', r = inr () ∧ users w' = users w) w.
Proof.
  intros <-. unfold invoice_payment_failed. wp_run; no_match_branch Hempty; done.
Qed.
End Part000_no_match.

(** The endpoint's answer when the [try] block ends with the given outcome
    of the switch. *)
Lemma Part000_webhook_of_dispatch constructEvent secret req event w :
  verified constructEvent secret req = inr event →
  Part000.webhook constructEvent secret req w =
  (match (Part000.dispatch event w).1 with
   | inr _ => Response 200 received_true
   | inl err => Part000.on_error err
   end, (Part000.dispatch event w).2).
Proof.
  unfold verified. intros Hv. unfold Part000.webhook, Part000.webhook_try.
  unfold mbind, M_bind, call. rewrite Hv.
  by destruct (Part000.dispatch event w) as [[err|[]] w'].
Qed.

(** C4, as amended.  When the lookup is answered and finds no user, a
    subscription created/updated event is answered with status 400, code
    [WEBHOOK_SIGNATURE_ERROR] and message "No user found for customer", and
    the other three kinds are acknowledged with status 200 and
    [{received: true}]; in both cases no user record changes. *)
Theorem unmatched_customer constructEvent secret req w event cid :
  verified constructEvent secret req = inr event →
  event_customer event = Some cid →
  answers w →
  matching cid (users w) = ∅ →
  let res := (Part000.webhook constructEvent secret req w).1 in
  users (Part000.webhook constructEvent secret req w).2 = users w
  ∧ if is_upsert event
    then status res = 400%Z
         ∧ error_code res = Some "WEBHOOK_SIGNATURE_ERROR"
         ∧ error_message res = Some "No user found for customer"
    else res = Response 200 received_true.
Proof.
  intros Hv Hc Hans Hempty.
  rewrite (Part000_webhook_of_dispatch _ _ _ _ _ Hv). cbn [fst snd].
  destruct event; cbn [event_customer] in Hc; simplify_eq;
    cbn [Part000.dispatch is_upsert].
  - destruct (upserted_no_match w _ Hans Hempty object eq_refl) as [-> ->]. done.
  - destruct (upserted_no_match w _ Hans Hempty object eq_refl) as [-> ->]. done.
  - destruct (deleted_no_match w _ Hans Hempty object eq_refl) as [-> ->]. done.
  - destruct (paid_no_match w _ Hans Hempty object eq_refl) as [-> ->]. done.
  - destruct (payment_failed_no_match w _ Hans Hempty object eq_refl) as [-> ->].
    done.
Qed.

(** C4, as stated, fails on the code: for a subscription update that names
    an unknown customer the response carries the endpoint's one error code,
    not a code of its own. *)
Lemma unmatched_upsert_code :
  let res := (Part000.webhook sample_verifier (Some "whsec") (signed "orphan")
                sample_world).1 in
  matching "cus_404" (users sample_world) = ∅
  ∧ status res = 400%Z
  ∧ error_code res = Some "WEBHOOK_SIGNATURE_ERROR"
  ∧ error_code res ≠ Some "UserNotFound".
Proof. vm_compute. split_and!; [reflexivity..|discriminate]. Qed.

Lemma IndexTs_webhook_of_dispatch constructEvent secret req event w :
  verified constructEvent secret req = inr event →
  IndexTs.webhook constructEvent secret req w =
  (match (IndexTs.dispatch event w).1 with
   | inr _ => Response 200 received_true
   | inl err => IndexTs.on_error err
   end, (IndexTs.dispatch event w).2).
Proof.
  unfold verified. intros Hv. unfold IndexTs.webhook, IndexTs.webhook_try.
  unfold mbind, M_bind, call. rewrite Hv.
  by destruct (IndexTs.dispatch event w) as [[err|[]] w'].
Qed.

(** C6, as stated, fails on the code: with the database unavailable the
    response status is 400, not a 5xx status. *)
Lemma store_failure_status :
  let res := (Part000.webhook sample_verifier (Some "whsec") (signed "active")
                (World sample_users [Some store_unavailable] [])).1 in
  status res = 400%Z ∧ ¬ (500 ≤ status res ≤ 599)%Z.
Proof. vm_compute. split; [reflexivity|]. intros [H _]. by apply H. Qed.

(** ** A subscription upsert that goes through *)

Lemma has_profile_prop (r : record) k :
  has_profile r → k ∈ profile_keys → is_undefined (prop r k) = false.
Proof.
  unfold has_profile. rewrite list.Forall_forall. intros Hall Hk.
  destruct (Hall k Hk) as [n Hn]. unfold prop. by rewrite Hn.
Qed.

Lemma has_undefined_literal fields :
  Forall (λ f, is_undefined f.2 = false) fields →
  has_undefined (assign ∅ fields) = false.
Proof.
  intros Hall. unfold has_undefined. apply bool_decide_eq_false.
  intros (k & x & Hk & Hx). apply lookup_assign_Some in Hk as [Hin|He].
  - rewrite list.Forall_forall in Hall. apply Hall in Hin. cbn in Hin. congruence.
  - by rewrite lookup_empty in He.
Qed.

Lemma literal_stored fields :
  existsb (λ f, is_undefined f.2) fields = false →
  NoDup fields.*1 →
  ∀ k n, (k, JNode n) ∈ fields →
    ∃ kids, literal fields = JNode (Obj kids) ∧
            ∀ k' x, (k', x) ∈ fields →
                    kids !! k' = match x with JNode n' => Some n' | _ => None end.
Proof.
  intros Hdef Hnd k n Hin. unfold literal. rewrite Hdef.
  assert (∀ k' x, (k', x) ∈ fields →
            stored_kids (assign ∅ fields) !! k'
            = match x with JNode n' => Some n' | _ => None end) as Hkids.
  { intros k' x Hin'. unfold stored_kids.
    by rewrite lookup_omap, (lookup_assign_nodup _ _ _ _ Hnd Hin'). }
  case_decide as E.
  - specialize (Hkids k _ Hin). by rewrite E, lookup_empty in Hkids.
  - eauto.
Qed.

(** What the upsert handlers store under [subscription]. *)
Lemma subscription_literal_stored subscription priceId :
  ∃ kids, subscription_literal subscription priceId = JNode (Obj kids)
          ∧ kids !! "subscriptionId" = Some (str (Subscription.id subscription))
          ∧ kids !! "priceId" = Some (str priceId)
          ∧ kids !! "status" = Some (str (Subscription.status subscription)).
Proof.
  unfold subscription_literal.
  match goal with |- context [literal ?l] =>
    destruct (literal_stored l) with (k := "priceId") (n := str priceId)
      as (kids & Hlit & Hkids)
  end.
  - by destruct (Subscription.trial_end subscription).
  - solve_NoDup.
  - solve_elem_of.
  - exists kids. split; [done|].
    split_and!.
    + by rewrite (Hkids _ (JNode (str (Subscription.id subscription))))
        by solve_elem_of.
    + by rewrite (Hkids _ (JNode (str priceId))) by solve_elem_of.
    + by rewrite (Hkids _ (JNode (str (Subscription.status subscription))))
        by solve_elem_of.
Qed.

Lemma subscription_literal_defined subscription priceId :
  is_undefined (subscription_literal subscription priceId) = false.
Proof.
  destruct (subscription_literal_stored subscription priceId) as (kids & -> & _).
  done.
Qed.

Lemma upserted_patch_defined subscription (r : record) v :
  has_profile r →
  Part000_patches.upserted subscription r = Some v →
  has_undefined v = false.
Proof.
  intros Hr. unfold Part000_patches.upserted.
  destruct (first_price subscription) as [priceId|]; [|done].
  intros Hv. apply (inj Some) in Hv. subst v.
  apply has_undefined_literal.
  repeat first [apply Forall_nil_2 | apply Forall_cons_2]; cbn [fst snd];
    first [ apply has_profile_prop; [assumption|unfold profile_keys; solve_elem_of]
          | apply subscription_literal_defined
          | reflexivity ].
Qed.

Lemma first_key_not_empty (m : gmap string record) uid :
  first_key m = Some uid → snapshot_exists m = true.
Proof.
  intros H. destruct (snapshot_exists m) eqn:E; [done|].
  apply snapshot_exists_false in E. subst m. by rewrite first_key_empty in H.
Qed.

Ltac applied_branch :=
  try match goal with
    | H : faults (World _ [] _) = _ :: _ |- _ => solve [inversion H]
    end;
  try match goal with
    | H1 : first_key ?m = Some _, H2 : context [snapshot_exists ?m] |- _ =>
        rewrite (first_key_not_empty _ _ H1) in H2; solve [inversion H2]
    end;
  try match goal with
    | H1 : ?m = ∅, H2 : first_key ?m = Some _ |- _ =>
        rewrite H1, first_key_empty in H2; solve [inversion H2]
    end;
  try (exfalso; congruence);
  repeat match goal with
    | H1 : first_key ?m = Some ?a, H2 : first_key ?m = Some ?b |- _ =>
        assert (b = a) as -> by congruence; clear H2
    | H1 : ?m !! ?k = Some ?a, H2 : ?m !! ?k = Some ?b |- _ =>
        assert (b = a) as -> by congruence; clear H2
    | H1 : first_price ?s = Some ?a, H2 : first_price ?s = Some ?b |- _ =>
        assert (b = a) as -> by congruence; clear H2
    end;
  repeat match goal with
    | H : ?m !! ?k = Some _ |- context [?m !! ?k] => rewrite H
    end;
  cbn [default id].

Lemma Part000_upserted_applied subscription w uid r v :
  faults w = [] →
  first_key (matching (Subscription.customer subscription) (users w)) = Some uid →
  users w !! uid = Some r →
  Part000_patches.upserted subscription r = Some v →
  has_undefined v = false →
  wp (Part000.subscription_upserted subscription)
     (λ res w', res = inr () ∧
                users w' = put_record uid (apply_update v r) (users w)) w.
Proof.
  destruct w as [us fs tr]. cbn [faults users]. intros -> Hfk Hr Hv Hu.
  unfold Part000_patches.upserted in Hv.
  destruct (first_price subscription) as [priceId|] eqn:Hp; [|done].
  apply (inj Some) in Hv. subst v.
  unfold Part000.subscription_upserted. wp_run; applied_branch.
  split; reflexivity.
Qed.

(** In [part_000], an upsert that finds a user with a complete profile and a
    subscription with a first item is acknowledged, and stores the derived
    plan and the subscription built from the event. *)
Lemma Part000_upsert_stored constructEvent secret req w event subscription
    uid r priceId :
  verified constructEvent secret req = inr event →
  upsert_of event = Some subscription →
  faults w = [] →
  first_key (matching (Subscription.customer subscription) (users w)) = Some uid →
  users w !! uid = Some r →
  has_profile r →
  first_price subscription = Some priceId →
  let out := Part000.webhook constructEvent secret req w in
  out.1 = Response 200 received_true
  ∧ field (users out.2) uid "plan"
    = Some (str (derived_plan (Subscription.status subscription)))
  ∧ ∃ kids, field (users out.2) uid "subscription" = Some (Obj kids)
            ∧ kids !! "priceId" = Some (str priceId)
            ∧ kids !! "status" = Some (str (Subscription.status subscription)).
Proof.
  intros Hv Hup Hq Hfk Hr Hprof Hp out. subst out.
  rewrite (Part000_webhook_of_dispatch _ _ _ _ _ Hv). cbn [fst snd].
  assert (Part000.dispatch event = Part000.subscription_upserted subscription)
    as -> by (destruct event; by simplify_eq/=).
  destruct (Part000_patches.upserted subscription r) as [v|] eqn:Hv';
    [|by unfold Part000_patches.upserted in Hv'; rewrite Hp in Hv'].
  pose proof (upserted_patch_defined _ _ _ Hprof Hv') as Hu.
  destruct (Part000_upserted_applied subscription w uid r v Hq Hfk Hr Hv' Hu)
    as [-> ->].
  split; [done|].
  rewrite !field_put_record, !decide_True by done.
  rewrite !lookup_apply_update.
  unfold Part000_patches.upserted in Hv'. rewrite Hp in Hv'.
  apply (inj Some) in Hv'. clear Hu. subst v.
  match goal with |- context [assign ∅ ?l !! "plan"] =>
    rewrite (lookup_assign_nodup ∅ l "plan"
               (JNode (str (derived_plan (Subscription.status subscription)))))
      by (solve_NoDup || solve_elem_of);
    rewrite (lookup_assign_nodup ∅ l "subscription"
               (subscription_literal subscription priceId))
      by (solve_NoDup || solve_elem_of)
  end.
  split; [done|].
  destruct (subscription_literal_stored subscription priceId)
    as (kids & -> & _ & Hprice & Hstatus).
  eauto.
Qed.

(** ** A subscription without a first item *)

Lemma Part000_upserted_no_price subscription w :
  first_price subscription = None →
  wp (Part000.subscription_upserted subscription)
     (λ res w', (∃ err, res = inl err) ∧ users w' = users w) w.
Proof.
  intros Hp. unfold Part000.subscription_upserted. wp_run;
    try (split; [eexists; reflexivity|reflexivity]).
  exfalso. congruence.
Qed.

Lemma first_price_None subscription :
  first_price subscription = None ↔
  Subscription.items subscription = None
  ∨ ∃ items, Subscription.items subscription = Some items
             ∧ ApiList.data items = [].
Proof.
  unfold first_price. destruct (Subscription.items subscription) as [items|].
  - destruct (ApiList.data items) as [|item rest] eqn:E; split.
    + eauto.
    + done.
    + done.
    + intros [?|(items' & ? & E')]; [done|]. simplify_eq. congruence.
  - split; auto.
Qed.

(** C8, as amended.  For a subscription created/updated event, [part_000]
    takes [priceId] from the first item of the subscription's item list.
    When the list is absent or empty, the handler throws
    before any write: the endpoint answers with its error response, status
    400 under its one code [WEBHOOK_SIGNATURE_ERROR], and no user record
    changes, so no part of the subscription is written.  When the list has
    a first item, the lookup selects a user with a complete profile and no
    round trip is rejected, the delivery is acknowledged and the stored
    subscription's [priceId] is that item's price identifier. *)
Theorem price_from_first_item constructEvent secret req w event subscription :
  verified constructEvent secret req = inr event →
  upsert_of event = Some subscription →
  let out := Part000.webhook constructEvent secret req w in
  ((Subscription.items subscription = None
    ∨ ∃ items, Subscription.items subscription = Some items
               ∧ ApiList.data items = []) →
   status out.1 = 400%Z
   ∧ error_code out.1 = Some "WEBHOOK_SIGNATURE_ERROR"
   ∧ users out.2 = users w)
  ∧ (∀ items item rest uid r,
       Subscription.items subscription = Some items →
       ApiList.data items = item :: rest →
       faults w = [] →
       first_key (matching (Subscription.customer subscription) (users w))
         = Some uid →
       users w !! uid = Some r →
       has_profile r →
       out.1 = Response 200 received_true
       ∧ ∃ kids, field (users out.2) uid "subscription" = Some (Obj kids)
                 ∧ kids !! "priceId"
                   = Some (str (Price.id (SubscriptionItem.price item)))).
Proof.
  intros Hv Hup out. subst out. split.
  - intros Hbad%first_price_None.
    rewrite (Part000_webhook_of_dispatch _ _ _ _ _ Hv). cbn [fst snd].
    assert (Part000.dispatch event = Part000.subscription_upserted subscription)
      as -> by (destruct event; by simplify_eq/=).
    destruct (Part000_upserted_no_price subscription w Hbad) as [[err ->] ->].
    split_and!; [apply Part000_on_error_shape..|done].
  - intros items item rest uid r Hitems Hdata Hq Hfk Hr Hprof.
    assert (first_price subscription
            = Some (Price.id (SubscriptionItem.price item))) as Hp.
    { unfold first_price. by rewrite Hitems, Hdata. }
    destruct (Part000_upsert_stored constructEvent secret req w event
                subscription uid r _ Hv Hup Hq Hfk Hr Hprof Hp)
      as (Hres & _ & kids & Hsub & Hprice & _).
    eauto.
Qed.

(** C8, as stated, fails on the code: a subscription without items is
    answered under the endpoint's one error code; the response carries no
    [MalformedEvent]. *)
Lemma missing_item_code :
  let out := Part000.webhook sample_verifier (Some "whsec") (signed "no_items")
               sample_world in
  status out.1 = 400%Z
  ∧ error_code out.1 = Some "WEBHOOK_SIGNATURE_ERROR"
  ∧ error_code out.1 ≠ Some "MalformedEvent"
  ∧ error_message out.1
    = Some "Cannot read properties of undefined (reading 'price')".
Proof. vm_compute. split_and!; [reflexivity..|discriminate|reflexivity]. Qed.

(** ** A failed first payment *)

Ltac rewrite_selected :=
  repeat match goal with
    | H : ?m !! ?k = Some _, H' : context [?m !! ?k] |- _ =>
        lazymatch H' with
        | H => fail
        | _ => rewrite H in H'
        end
    end;
  cbn [default id] in *.

Lemma Part000_payment_failed_applied invoice w uid r :
  Invoice.billing_reason invoice = Some "subscription_create" →
  faults w = [] →
  first_key (matching (Invoice.customer invoice) (users w)) = Some uid →
  users w !! uid = Some r →
  wp (Part000.invoice_payment_failed invoice)
     (λ res w', res = inr () ∧
        users w' = put_record uid
                     (apply_update
                        (assign (spread r)
                           [("plan", JNode (str "free")); ("subscription", JNull)])
                        r)
                     (users w)) w.
Proof.
  destruct w as [us fs tr]. cbn [faults users]. intros Hreason -> Hfk Hr.
  assert (has_undefined
            (assign (spread r)
               [("plan", JNode (str "free")); ("subscription", JNull)]) = false)
    as Hu.
  { apply has_undefined_spread.
    repeat first [apply Forall_nil_2 | apply Forall_cons_2]; reflexivity. }
  unfold Part000.invoice_payment_failed. wp_run;
    try (rewrite bool_decide_eq_false in *; contradiction);
    applied_branch; rewrite_selected; applied_branch.
  split; reflexivity.
Qed.

(** C5. An [invoice.payment_failed] event whose [billing_reason] is
    [subscription_create], for a customer the lookup finds and with no round
    trip rejected, is acknowledged and leaves the selected user with [plan]
    equal to [free] and no [subscription] child.  With any other
    [billing_reason] the event is acknowledged and nothing is read or
    written. *)
Theorem payment_failed_downgrades constructEvent secret req w invoice :
  verified constructEvent secret req = inr (Event.invoice_payment_failed invoice) →
  let out := Part000.webhook constructEvent secret req w in
  (∀ uid,
     Invoice.billing_reason invoice = Some "subscription_create" →
     faults w = [] →
     first_key (matching (Invoice.customer invoice) (users w)) = Some uid →
     out.1 = Response 200 received_true
     ∧ field (users out.2) uid "plan" = Some (str "free")
     ∧ field (users out.2) uid "subscription" = None)
  ∧ (Invoice.billing_reason invoice ≠ Some "subscription_create" →
     out = (Response 200 received_true, w)).
Proof.
  intros Hv out. subst out.
  rewrite (Part000_webhook_of_dispatch _ _ _ _ _ Hv). cbn [Part000.dispatch].
  split.
  - intros uid Hreason Hq Hfk.
    destruct (first_key_matching _ _ _ Hfk) as (r & Hr & _).
    cbn [fst snd].
    destruct (Part000_payment_failed_applied invoice w uid r Hreason Hq Hfk Hr)
      as [-> ->].
    split; [done|].
    rewrite !field_put_record, !decide_True by done.
    rewrite !lookup_apply_update.
    rewrite (lookup_assign_nodup _ _ "plan" (JNode (str "free")))
      by (solve_NoDup || solve_elem_of).
    rewrite (lookup_assign_nodup _ _ "subscription" JNull)
      by (solve_NoDup || solve_elem_of).
    done.
  - intros Hreason. unfold Part000.invoice_payment_failed.
    by rewrite bool_decide_false.
Qed.

(** ** The stored plan *)

Ltac plan_branch :=
  first
    [ left; reflexivity
    | right; eexists _, _; split; [reflexivity|];
      rewrite lookup_apply_update;
      match goal with
      | |- context [assign ?o ?l !! "plan"] =>
          first
            [ rewrite (lookup_assign_nodup o l "plan" (JNode (str "free")))
                by (solve_NoDup || solve_elem_of);
              left; reflexivity
            | erewrite (lookup_assign_nodup o l "plan")
                by (solve_NoDup || solve_elem_of);
              match goal with
              | |- context [if ?b then _ else _] =>
                  destruct b; [right|left]; reflexivity
              end ]
      end ].

Lemma Part000_upserted_plan subscription w :
  wp (Part000.subscription_upserted subscription)
     (λ _ w', wrote_plan (users w) (users w')) w.
Proof. unfold Part000.subscription_upserted. wp_run; plan_branch. Qed.

Lemma Part000_deleted_plan subscription w :
  wp (Part000.subscription_deleted subscription)
     (λ _ w', wrote_plan (users w) (users w')) w.
Proof. unfold Part000.subscription_deleted. wp_run; plan_branch. Qed.

Lemma Part000_payment_failed_plan invoice w :
  wp (Part000.invoice_payment_failed invoice)
     (λ _ w', wrote_plan (users w) (users w')) w.
Proof. unfold Part000.invoice_payment_failed. wp_run; plan_branch. Qed.

Lemma wrote_plan_field (us us' : gmap string record) uid :
  wrote_plan us us' → us' !! uid ≠ us !! uid → in_enum (field us' uid "plan").
Proof.
  intros [->|(uid' & r' & -> & Henum)] Hne; [done|].
  rewrite field_put_record. case_decide as E; [done|].
  exfalso. apply Hne. unfold put_record.
  case_decide; by rewrite ?lookup_delete_ne, ?lookup_insert_ne.
Qed.

(** C10, as amended.  Whenever a delivery of a subscription created,
    updated or deleted event or of a failed payment changes a user record,
    the [plan] child of that record afterwards is [free] or [pro]: every
    call to [update] writes one of the two.  A paid invoice also changes a
    record, below [invoices] only: it leaves [plan] as stored, whatever
    that was. *)
Theorem plan_within_enum constructEvent secret req w uid :
  let us := users w in
  let us' := users (Part000.webhook constructEvent secret req w).2 in
  let paid := is_invoice_paid (verified constructEvent secret req) in
  us' !! uid ≠ us !! uid →
  (¬ paid ∧ in_enum (field us' uid "plan"))
  ∨ (paid ∧ field us' uid "plan" = field us uid "plan").
Proof.
  intros us us' paid. subst us us' paid. rewrite Part000_webhook_world.
  unfold Part000.webhook_try, is_invoice_paid, verified.
  destruct (constructEvent _ _ _) as [err|event]; [done|].
  intros Hne.
  assert (∀ P : world → Prop,
            wp (Part000.dispatch event) (λ _ w', P w') w →
            P ((call (inr event) ≫=
                  (λ event, Part000.dispatch event;;
                            mret (res_json received_true))) w).2)
    as Hack.
  { intros P HP. exact (wp_then_ack (Part000.dispatch event) P w HP). }
  assert (∀ other, (∀ invoice, other ≠ Event.invoice_paid invoice) →
            ¬ ∃ invoice, inr other = @inr exn _ (Event.invoice_paid invoice))
    as Hnot.
  { intros other Ho [invoice [= ->]]. by eapply Ho. }
  destruct event; cbn [Part000.dispatch] in *.
  - left. split; [by apply Hnot|].
    apply (wrote_plan_field (users w)); [|done].
    apply (Hack (λ w', wrote_plan (users w) (users w'))), Part000_upserted_plan.
  - left. split; [by apply Hnot|].
    apply (wrote_plan_field (users w)); [|done].
    apply (Hack (λ w', wrote_plan (users w) (users w'))), Part000_upserted_plan.
  - left. split; [by apply Hnot|].
    apply (wrote_plan_field (users w)); [|done].
    apply (Hack (λ w', wrote_plan (users w) (users w'))), Part000_deleted_plan.
  - right. split; [by eexists|].
    assert (keeps ["invoices"] (users w)
              (users ((call (inr (Event.invoice_paid object)) ≫=
                         (λ event, Part000.dispatch event;;
                                   mret (res_json received_true))) w).2))
      as Hkeeps.
    { apply (Hack (λ w', keeps ["invoices"] (users w) (users w'))),
        Part000_paid_keeps. }
    apply (Hkeeps uid "plan"). by_computation.
  - left. split; [by apply Hnot|].
    apply (wrote_plan_field (users w)); [|done].
    apply (Hack (λ w', wrote_plan (users w) (users w'))),
      Part000_payment_failed_plan.
  - done.
Qed.

(** C10, as stated, fails on the code: a paid invoice changes the record of
    a user whose plan is neither [free] nor [pro], and the plan stays what
    it was. *)
Lemma paid_invoice_keeps_foreign_plan :
  let out := Part000.webhook sample_verifier (Some "whsec") (signed "paid")
               gold_world in
  users out.2 !! "u1" ≠ users gold_world !! "u1"
  ∧ field (users out.2) "u1" "plan" = Some (str "gold")
  ∧ ¬ in_enum (field (users out.2) "u1" "plan").
Proof.
  intros out.
  assert (field (users out.2) "u1" "plan" = Some (str "gold")) as Hplan
    by (vm_compute; reflexivity).
  split_and!.
  - intros H. apply (f_equal (λ o, o ≫= (.!! "invoices"))) in H.
    vm_compute in H. discriminate H.
  - exact Hplan.
  - rewrite Hplan. intros [H|H]; discriminate H.
Qed.

(** * Beyond the transitions: what every delivery keeps *)

Lemma matching_is_Some cid (us : gmap string record) uid :
  is_Some (matching cid us !! uid)
  ↔ field us uid "stripeCustomerId" = Some (str cid).
Proof.
  unfold is_Some, field. setoid_rewrite matching_lookup.
  destruct (us !! uid) as [r|]; cbn.
  - split; [by intros (r' & [= <-] & ?)|eauto].
  - split; [by intros (r' & ? & ?)|done].
Qed.

Lemma matching_same_customers cid (us us' : gmap string record) :
  (∀ uid, field us' uid "stripeCustomerId" = field us uid "stripeCustomerId") →
  dom (matching cid us') = dom (matching cid us)
  ∧ first_key (matching cid us') = first_key (matching cid us).
Proof.
  intros Hsame.
  assert (∀ j, is_Some (matching cid us' !! j) ↔ is_Some (matching cid us !! j))
    as Hkeys.
  { intros j. by rewrite !matching_is_Some, Hsame. }
  split; [|by apply first_key_same_keys].
  apply set_eq. intros j. by rewrite !elem_of_dom.
Qed.

Lemma column_spares_customer event : "stripeCustomerId" ∉ mutation_column event.
Proof. destruct event; by_computation. Qed.

(** The world after the [try] block that starts with a verified event. *)
Lemma Part000_world_of_dispatch constructEvent secret req event w :
  verified constructEvent secret req = inr event →
  (Part000.webhook constructEvent secret req w).2 = (Part000.dispatch event w).2.
Proof.
  intros Hv. by rewrite (Part000_webhook_of_dispatch _ _ _ _ _ Hv).
Qed.

Lemma IndexTs_world_of_dispatch constructEvent secret req event w :
  verified constructEvent secret req = inr event →
  (IndexTs.webhook constructEvent secret req w).2 = (IndexTs.dispatch event w).2.
Proof.
  intros Hv. by rewrite (IndexTs_webhook_of_dispatch _ _ _ _ _ Hv).
Qed.

Lemma Part001_world_of_dispatch constructEvent secret req w :
  (Part001.webhook constructEvent secret req w).2 =
  match verified constructEvent secret req with
  | inr event => (Part001.dispatch event w).2
  | inl _ => w
  end.
Proof.
  rewrite Part001_webhook_world. unfold Part001.webhook_try, verified.
  unfold mbind, M_bind, call.
  destruct (constructEvent _ _ _) as [err|event]; [done|].
  by destruct (Part001.dispatch event w) as [[err|[]] w'].
Qed.

Lemma world_of_failed_verification constructEvent secret req err w :
  verified constructEvent secret req = inl err →
  (Part000.webhook constructEvent secret req w).2 = w
  ∧ (IndexTs.webhook constructEvent secret req w).2 = w.
Proof.
  unfold verified. intros Hv.
  unfold Part000.webhook, Part000.webhook_try, IndexTs.webhook,
    IndexTs.webhook_try, mbind, M_bind, call.
  by rewrite Hv.
Qed.

Lemma signature_failure_shape constructEvent secret req w err :
  verified constructEvent secret req = inl err →
  Part000.webhook constructEvent secret req w = (Part000.on_error err, w)
  ∧ IndexTs.webhook constructEvent secret req w = (IndexTs.on_error err, w).
Proof.
  unfold verified. intros Hv.
  unfold Part000.webhook, Part000.webhook_try, IndexTs.webhook,
    IndexTs.webhook_try, mbind, M_bind, call.
  by rewrite Hv.
Qed.

(** Every delivery keeps every child outside the three the handlers write,
    in each revision. *)
Lemma webhook_keeps constructEvent secret req w :
  let cols := ["plan"; "subscription"; "invoices"] in
  keeps cols (users w) (users (Part000.webhook constructEvent secret req w).2)
  ∧ keeps cols (users w) (users (IndexTs.webhook constructEvent secret req w).2)
  ∧ keeps cols (users w) (users (Part001.webhook constructEvent secret req w).2).
Proof.
  intros cols.
  assert (∀ event us us', keeps (mutation_column event) us us' → keeps cols us us')
    as Hwiden.
  { intros event us us' Hk uid k Hnotin. apply Hk. intros Hin. apply Hnotin.
    subst cols. revert Hin.
    destruct event; cbn; rewrite !elem_of_cons, !elem_of_nil; tauto. }
  rewrite Part001_world_of_dispatch.
  destruct (verified constructEvent secret req) as [err|event] eqn:Hv.
  - destruct (world_of_failed_verification _ _ _ _ w Hv) as [-> ->].
    split_and!; apply keeps_refl.
  - rewrite (Part000_world_of_dispatch _ _ _ _ _ Hv),
      (IndexTs_world_of_dispatch _ _ _ _ _ Hv).
    split_and!; apply (Hwiden event).
    + apply Part000_dispatch_keeps.
    + apply IndexTs_dispatch_keeps.
    + apply Part001_dispatch_keeps.
Qed.

(** X1. No delivery refiles a user: for every customer identifier, the users
    filed under it, and the one the lookup selects, are the same after a
    delivery as before, in each revision. *)
Theorem lookup_stable constructEvent secret req w cid :
  let same us' :=
    dom (matching cid us') = dom (matching cid (users w))
    ∧ first_key (matching cid us') = first_key (matching cid (users w)) in
  same (users (Part000.webhook constructEvent secret req w).2)
  ∧ same (users (IndexTs.webhook constructEvent secret req w).2)
  ∧ same (users (Part001.webhook constructEvent secret req w).2).
Proof.
  intros same. subst same.
  destruct (webhook_keeps constructEvent secret req w) as (H0 & H1 & H2).
  split; [|split]; apply matching_same_customers; intros uid;
    [apply H0|apply H1|apply H2]; by_computation.
Qed.

Lemma dom_put_record uid (r r' : record) (us : gmap string record) k n :
  us !! uid = Some r → r' !! k = Some n →
  dom (put_record uid r' us) = dom us.
Proof.
  intros Hr Hk. rewrite (put_record_nonempty _ _ _ _ _ Hk).
  rewrite dom_insert_L. apply elem_of_dom_2 in Hr.
  apply set_eq. intros j. rewrite elem_of_union, elem_of_singleton.
  split; [by intros [->|]|auto].
Qed.

Lemma apply_update_plan (v : jsobject) (r : record) n :
  v !! "plan" = Some (JNode n) → apply_update v r !! "plan" = Some n.
Proof. intros Hv. by rewrite lookup_apply_update, Hv. Qed.

(** Closing the branches of a run for a postcondition on the set of user
    identifiers. *)
Ltac same_sides := lazymatch goal with |- ?x = ?x => reflexivity end.

Ltac dom_branch :=
  first
    [ same_sides
    | name_selected;
      match goal with
      | H : ?us !! ?uid = Some ?r |- dom (put_record ?uid _ ?us) = dom ?us =>
          rewrite ?H; cbn [default id];
          first
            [ eapply (dom_put_record uid r _ us "plan"); [exact H|];
              apply apply_update_plan;
              apply lookup_assign_nodup; [solve_NoDup|solve_elem_of]
            | eapply (dom_put_record uid r _ us "stripeCustomerId"); [exact H|];
              rewrite set_invoice_in_other by by_computation;
              match goal with
              | Hs : is_Some (matching _ us !! uid) |- _ =>
                  destruct Hs as [r0 [Hr0 Hc]%matching_lookup];
                  rewrite H in Hr0; apply (inj Some) in Hr0; subst r0; exact Hc
              end ]
      end ].

Section users_kept.
Let same_users (w : world) (res : exn + ()) (w' : world) : Prop :=
  dom (users w') = dom (users w).

Lemma Part000_upserted_dom subscription w :
  wp (Part000.subscription_upserted subscription) (same_users w) w.
Proof.
  subst same_users. unfold Part000.subscription_upserted. wp_run; dom_branch.
Qed.

Lemma Part000_deleted_dom subscription w :
  wp (Part000.subscription_deleted subscription) (same_users w) w.
Proof.
  subst same_users. unfold Part000.subscription_deleted. wp_run; dom_branch.
Qed.

Lemma Part000_payment_failed_dom invoice w :
  wp (Part000.invoice_payment_failed invoice) (same_users w) w.
Proof.
  subst same_users. unfold Part000.invoice_payment_failed. wp_run; dom_branch.
Qed.

Lemma set_invoice_keeps_customer uid iid v (us : gmap string record) cid :
  is_Some (matching cid us !! uid) →
  let us' := put_record uid (set_invoice_in iid v (default ∅ (us !! uid))) us in
  dom us' = dom us ∧ is_Some (matching cid us' !! uid).
Proof.
  intros [r [Hr Hc]%matching_lookup] us'. subst us'. rewrite Hr. cbn [default id].
  assert (set_invoice_in iid v r !! "stripeCustomerId" = Some (str cid)) as Hc'.
  { by rewrite set_invoice_in_other. }
  split; [by eapply dom_put_record|].
  rewrite (put_record_nonempty _ _ _ _ _ Hc').
  exists (set_invoice_in iid v r). apply matching_lookup.
  by rewrite lookup_insert_eq.
Qed.

Lemma Part000_paid_dom invoice w :
  wp (Part000.invoice_paid invoice) (same_users w) w.
Proof.
  subst same_users. unfold Part000.invoice_paid. fold (invoice_data invoice).
  wp_run; try same_sides.
  all: rewrite ?default_put_record, ?set_invoice_in_idempotent, ?put_record_twice.
  all: match goal with
       | H : is_Some (matching ?cid ?us !! ?uid) |- _ =>
           apply (set_invoice_keeps_customer uid _ _ us cid H)
       end.
Qed.

Lemma IndexTs_upserted_dom subscription w :
  wp (IndexTs.subscription_upserted subscription) (same_users w) w.
Proof.
  subst same_users. unfold IndexTs.subscription_upserted. wp_run; dom_branch.
Qed.

Lemma IndexTs_deleted_dom subscription w :
  wp (IndexTs.subscription_deleted subscription) (same_users w) w.
Proof.
  subst same_users. unfold IndexTs.subscription_deleted. wp_run; dom_branch.
Qed.

Lemma Part001_upserted_dom subscription w :
  wp (Part001.subscription_upserted subscription) (same_users w) w.
Proof.
  subst same_users. unfold Part001.subscription_upserted. wp_run; dom_branch.
Qed.

Lemma Part001_deleted_dom subscription w :
  wp (Part001.subscription_deleted subscription) (same_users w) w.
Proof.
  subst same_users. unfold Part001.subscription_deleted. wp_run; dom_branch.
Qed.
End users_kept.

Lemma Part000_dispatch_dom event w :
  dom (users (Part000.dispatch event w).2) = dom (users w).
Proof.
  destruct event; cbn [Part000.dispatch].
  - apply Part000_upserted_dom.
  - apply Part000_upserted_dom.
  - apply Part000_deleted_dom.
  - apply Part000_paid_dom.
  - apply Part000_payment_failed_dom.
  - exact eq_refl.
Qed.

Lemma IndexTs_dispatch_dom event w :
  dom (users (IndexTs.dispatch event w).2) = dom (users w).
Proof.
  destruct event; cbn [IndexTs.dispatch].
  - apply IndexTs_upserted_dom.
  - apply IndexTs_upserted_dom.
  - apply IndexTs_deleted_dom.
  - exact eq_refl.
  - exact eq_refl.
  - exact eq_refl.
Qed.

Lemma Part001_dispatch_dom event w :
  dom (users (Part001.dispatch event w).2) = dom (users w).
Proof.
  destruct event; cbn [Part001.dispatch].
  - apply Part001_upserted_dom.
  - apply Part001_upserted_dom.
  - apply Part001_deleted_dom.
  - exact eq_refl.
  - exact eq_refl.
  - exact eq_refl.
Qed.

(** X2. No delivery creates or removes a user record: the set of user
    identifiers under [users] is the same after a delivery as before, in
    each revision and whatever the database rejects. *)
Theorem users_neither_created_nor_removed constructEvent secret req w :
  dom (users (Part000.webhook constructEvent secret req w).2) = dom (users w)
  ∧ dom (users (IndexTs.webhook constructEvent secret req w).2) = dom (users w)
  ∧ dom (users (Part001.webhook constructEvent secret req w).2) = dom (users w).
Proof.
  rewrite Part001_world_of_dispatch.
  destruct (verified constructEvent secret req) as [err|event] eqn:Hv.
  - by destruct (world_of_failed_verification _ _ _ _ w Hv) as [-> ->].
  - rewrite (Part000_world_of_dispatch _ _ _ _ _ Hv),
      (IndexTs_world_of_dispatch _ _ _ _ _ Hv).
    split; [|split].
    + apply Part000_dispatch_dom.
    + apply IndexTs_dispatch_dom.
    + apply Part001_dispatch_dom.
Qed.

(** * Acknowledged or untouched *)

Section settled.
(** After a handler: the transition is made when it returns, and nothing is
    changed when it throws. *)
Let settled (T : gmap string record → gmap string record) (w : world)
    (res : exn + ()) (w' : world) : Prop :=
  match res with
  | inr _ => users w' = T (users w)
  | inl _ => users w' = users w
  end.

Lemma Part000_upserted_settled subscription w :
  wp (Part000.subscription_upserted subscription)
     (settled (lookup_update (Subscription.customer subscription)
                 (Part000_patches.upserted subscription)) w) w.
Proof.
  subst settled. unfold Part000.subscription_upserted.
  wp_run; try same_sides; quiet_close Part000_patches.upserted.
Qed.

Lemma Part000_deleted_settled subscription w :
  wp (Part000.subscription_deleted subscription)
     (settled (lookup_update (Subscription.customer subscription)
                 Part000_patches.deleted) w) w.
Proof.
  subst settled. unfold Part000.subscription_deleted.
  wp_run; try same_sides; quiet_close Part000_patches.deleted.
Qed.

Lemma Part000_payment_failed_settled invoice w :
  wp (Part000.invoice_payment_failed invoice)
     (settled (transition (Event.invoice_payment_failed invoice)) w) w.
Proof.
  subst settled. unfold Part000.invoice_payment_failed. cbn [transition].
  wp_run; try same_sides; quiet_close Part000_patches.payment_failed.
Qed.

Lemma Part000_paid_settled invoice w :
  wp (Part000.invoice_paid invoice)
     (settled (lookup_set (Invoice.customer invoice) (Invoice.id invoice)
                 (invoice_data invoice)) w) w.
Proof.
  subst settled. unfold Part000.invoice_paid. fold (invoice_data invoice).
  wp_run; try same_sides.
  all: try congruence.
  all: rewrite ?default_put_record, ?set_invoice_in_idempotent,
         ?put_record_twice.
  all: unfold lookup_set.
  all: repeat match goal with
         | H : negb (snapshot_exists _) = true |- _ =>
             apply snapshot_exists_negb_true in H; rewrite H, first_key_empty
         | H : first_key _ = _ |- _ => rewrite H
         | H : set_refusal _ _ = _ |- _ => rewrite H
         end; same_sides.
Qed.

Lemma Part000_dispatch_settled event w :
  wp (Part000.dispatch event) (settled (transition event) w) w.
Proof.
  destruct event; cbn [Part000.dispatch].
  - apply Part000_upserted_settled.
  - apply Part000_upserted_settled.
  - apply Part000_deleted_settled.
  - apply Part000_paid_settled.
  - apply Part000_payment_failed_settled.
  - exact eq_refl.
Qed.
End settled.

(** X3. A delivery through [part_000] is all or nothing, whatever the
    database rejects: either it is acknowledged with status 200 and
    [users] has made exactly the transition of a delivery in which nothing
    is rejected, or it is answered with status 400 and [users] is as
    before. *)
Theorem acknowledged_or_untouched constructEvent secret req w :
  let out := Part000.webhook constructEvent secret req w in
  (out.1 = Response 200 received_true
   ∧ users out.2 = delivered constructEvent secret req (users w))
  ∨ (status out.1 = 400%Z
     ∧ error_code out.1 = Some "WEBHOOK_SIGNATURE_ERROR"
     ∧ users out.2 = users w).
Proof.
  intros out. subst out. unfold delivered.
  destruct (verified constructEvent secret req) as [err|event] eqn:Hv.
  - right.
    destruct (signature_failure_shape constructEvent secret req w err Hv)
      as [-> ?].
    cbn [fst snd]. by destruct (Part000_on_error_shape err).
  - rewrite (Part000_webhook_of_dispatch _ _ _ _ _ Hv). cbn [fst snd].
    pose proof (Part000_dispatch_settled event w) as Hs. unfold wp in Hs.
    destruct (Part000.dispatch event w).1 as [err|[]].
    + right. by destruct (Part000_on_error_shape err).
    + by left.
Qed.

(** * Rejected round trips *)

Lemma met_same w : met w w = [].
Proof. unfold met. by rewrite Nat.sub_diag. Qed.

Lemma met_after us fs tr us' fs' (l : list access) :
  met (World us fs tr) (World us' fs' (tr ++ l)) = take (length l) fs.
Proof. unfold met. cbn [trace faults]. rewrite length_app. f_equal. lia. Qed.

Ltac met_branch :=
  rewrite <-?app_assoc; cbn [app];
  rewrite ?met_after, ?met_same; cbn [length];
  unfold answers in *; cbn [faults tail] in *;
  repeat match goal with
    | H : _ :: _ = _ :: _ |- _ => inversion H; clear H; subst
    | H : [] = _ :: _ |- _ => solve [inversion H]
    | H : False |- _ => destruct H
    end;
  cbn [take]; (let e' := fresh "e" in let He := fresh "He" in intros e' He);
  repeat match goal with
    | H : Some _ ∈ _ :: _ |- _ => apply elem_of_cons in H as [H|H]
    | H : Some _ ∈ [] |- _ => apply elem_of_nil in H; destruct H
    | H : Some _ ∈ take 0 _ |- _ => rewrite take_0 in H
    | H : Some _ = None |- _ => solve [inversion H]
    | H : Some _ = Some _ |- _ => inversion H; clear H; subst
    end;
  first [ left; split; [reflexivity|cbn [users]; same_sides]
        | right; rewrite ?take_0; split_and!; reflexivity ].

Ltac met_run :=
  wp_run;
  match goal with
  | |- surfaced _ (World _ ?fs _) _ _ =>
      unfold surfaced;
      destruct fs as [|[?|] [|[?|] [|[?|] ?]]]; met_branch
  end.

Lemma Part000_upserted_met subscription w :
  wp (Part000.subscription_upserted subscription) (surfaced false w) w.
Proof.
  destruct w as [us fs tr]. unfold Part000.subscription_upserted. met_run.
Qed.

Lemma Part000_deleted_met subscription w :
  wp (Part000.subscription_deleted subscription) (surfaced false w) w.
Proof.
  destruct w as [us fs tr]. unfold Part000.subscription_deleted. met_run.
Qed.

Lemma Part000_payment_failed_met invoice w :
  wp (Part000.invoice_payment_failed invoice) (surfaced false w) w.
Proof.
  destruct w as [us fs tr]. unfold Part000.invoice_payment_failed. met_run.
Qed.

Lemma Part000_paid_met invoice w :
  wp (Part000.invoice_paid invoice) (surfaced true w) w.
Proof.
  destruct w as [us fs tr]. unfold Part000.invoice_paid. met_run.
Qed.

Lemma IndexTs_upserted_met subscription w :
  wp (IndexTs.subscription_upserted subscription) (surfaced false w) w.
Proof.
  destruct w as [us fs tr]. unfold IndexTs.subscription_upserted. met_run.
Qed.

Lemma IndexTs_deleted_met subscription w :
  wp (IndexTs.subscription_deleted subscription) (surfaced false w) w.
Proof.
  destruct w as [us fs tr]. unfold IndexTs.subscription_deleted. met_run.
Qed.


Lemma Part000_dispatch_met event w :
  wp (Part000.dispatch event)
     (surfaced (match event with Event.invoice_paid _ => true | _ => false end) w)
     w.
Proof.
  destruct event; cbn [Part000.dispatch].
  - apply Part000_upserted_met.
  - apply Part000_upserted_met.
  - apply Part000_deleted_met.
  - apply Part000_paid_met.
  - apply Part000_payment_failed_met.
  - intros e He. unfold mret, M_ret in He. cbn [snd] in He.
    rewrite met_same in He. by apply elem_of_nil in He.
Qed.

Lemma IndexTs_dispatch_met event w :
  wp (IndexTs.dispatch event) (surfaced false w) w.
Proof.
  destruct event; cbn [IndexTs.dispatch];
    try (intros e He; unfold mret, M_ret in He; cbn [snd] in He;
         rewrite met_same in He; by apply elem_of_nil in He).
  - apply IndexTs_upserted_met.
  - apply IndexTs_upserted_met.
  - apply IndexTs_deleted_met.
Qed.

Lemma IndexTs_on_error_shape err : client_error (IndexTs.on_error err).
Proof. done. Qed.

(** C6, as amended.  The webhook endpoint of [part_000] and of
    [src/index.ts] has no 5xx response: every answer is the acknowledgement
    or status 400 under the code [WEBHOOK_SIGNATURE_ERROR].  A failed
    signature check is answered so, and so is a round trip the database
    rejects (the lookup, the read, the update, the first invoice write):
    the response is what the [catch] block makes of the store's error and
    no user record changes.  The one exception is the second write of a
    paid invoice in [part_000], which is rejected inside a [try] of its
    own and acknowledged with 200. *)
Theorem store_failure_is_client_error constructEvent secret req w :
  let out := Part000.webhook constructEvent secret req w in
  let out1 := IndexTs.webhook constructEvent secret req w in
  ((out.1 = Response 200 received_true ∨ client_error out.1)
   ∧ (out1.1 = Response 200 received_true ∨ client_error out1.1))
  ∧ (∀ err, verified constructEvent secret req = inl err →
            client_error out.1 ∧ client_error out1.1)
  ∧ (∀ e, Some e ∈ met w out.2 →
          (out.1 = Part000.on_error e ∧ client_error out.1
           ∧ users out.2 = users w)
          ∨ (∃ invoice,
               verified constructEvent secret req
                 = inr (Event.invoice_paid invoice)
               ∧ out.1 = Response 200 received_true
               ∧ met w out.2 = [None; None; Some e]))
  ∧ (∀ e, Some e ∈ met w out1.2 →
          out1.1 = IndexTs.on_error e ∧ client_error out1.1
          ∧ users out1.2 = users w).
Proof.
  intros out out1. subst out out1.
  destruct (verified constructEvent secret req) as [err|event] eqn:Hv.
  - destruct (signature_failure_shape constructEvent secret req w err Hv)
      as [-> ->]. cbn [fst snd].
    pose proof (Part000_on_error_shape err) as Hshape.
    split_and!.
    + by right.
    + by right.
    + intros err' _. split; [done|apply IndexTs_on_error_shape].
    + intros e He. rewrite met_same in He. by apply elem_of_nil in He.
    + intros e He. rewrite met_same in He. by apply elem_of_nil in He.
  - rewrite (Part000_webhook_of_dispatch _ _ _ _ _ Hv),
      (IndexTs_webhook_of_dispatch _ _ _ _ _ Hv). cbn [fst snd].
    pose proof (Part000_dispatch_met event w) as H0.
    pose proof (IndexTs_dispatch_met event w) as H1.
    unfold wp, surfaced in H0, H1.
    split_and!.
    + destruct (Part000.dispatch event w).1 as [err0|[]]; [right|by left].
      apply Part000_on_error_shape.
    + destruct (IndexTs.dispatch event w).1 as [err1|[]]; [right|by left].
      apply IndexTs_on_error_shape.
    + intros err [=].
    + intros e He. destruct (H0 e He) as [[Hres Hus]|(Hsw & Hres & Hmet)].
      * left. rewrite Hres. split_and!; [done|apply Part000_on_error_shape|done].
      * right. destruct event; try solve [inversion Hsw].
        rewrite Hres. eauto.
    + intros e He. destruct (H1 e He) as [[Hres Hus]|(Hsw & _)];
        [|solve [inversion Hsw]].
      rewrite Hres. split_and!; [done|apply IndexTs_on_error_shape|done].
Qed.

(** * A paid invoice *)

Lemma answers_next_first n w e fs :
  answers_next (S n) w → faults w = Some e :: fs → False.
Proof.
  intros Ha Hf. apply (Ha e). rewrite Hf. cbn. apply list_elem_of_here.
Qed.

Lemma answers_next_second n w e fs :
  answers_next (S (S n)) w → tail (faults w) = Some e :: fs → False.
Proof.
  intros Ha Hf. apply (Ha e). destruct (faults w) as [|f fs']; [done|].
  cbn in Hf. subst fs'. cbn. apply list_elem_of_further, list_elem_of_here.
Qed.

Lemma invoice_data_stored invoice :
  is_undefined (Invoice.hosted_invoice_url invoice) = false →
  is_undefined (Invoice.invoice_pdf invoice) = false →
  ∃ kids, invoice_data invoice = JNode (Obj kids)
    ∧ kids !! "status" = str <$> Invoice.status invoice
    ∧ kids !! "currency" = Some (str (Invoice.currency invoice))
    ∧ kids !! "amountPaid" = Some (num (Invoice.amount_paid invoice))
    ∧ kids !! "created" = Some (num (Invoice.created invoice)).
Proof.
  intros Hurl Hpdf. unfold invoice_data.
  match goal with |- context [literal ?l] =>
    destruct (literal_stored l) with (k := "currency")
                                     (n := str (Invoice.currency invoice))
      as (kids & Hlit & Hkids)
  end.
  - cbn [existsb snd]. rewrite Hurl, Hpdf.
    by destruct (Invoice.status invoice).
  - solve_NoDup.
  - solve_elem_of.
  - exists kids. split; [done|]. split_and!.
    + rewrite (Hkids _ (nullable (str <$> Invoice.status invoice)))
        by solve_elem_of.
      by destruct (Invoice.status invoice).
    + by rewrite (Hkids _ (JNode (str (Invoice.currency invoice))))
        by solve_elem_of.
    + by rewrite (Hkids _ (JNode (num (Invoice.amount_paid invoice))))
        by solve_elem_of.
    + by rewrite (Hkids _ (JNode (num (Invoice.created invoice))))
        by solve_elem_of.
Qed.

Lemma key_char_allowed c :
  forbidden_in_key c = false → is_slash c = false ∧ forbidden_in_path c = false.
Proof.
  unfold forbidden_in_key, forbidden_in_path, is_slash. cbn [existsb String.list_ascii_of_string].
  intros H.
  repeat match goal with
         | H : _ || _ = false |- _ => apply orb_false_elim in H as [? ?]
         end.
  split; repeat apply orb_false_intro; first [assumption|reflexivity].
Qed.

Lemma split_slash_key (s : string) :
  all_chars (λ c, negb (forbidden_in_key c)) s = true → split_slash s = [s].
Proof.
  induction s as [|c s IH]; [done|]. cbn [all_chars split_slash].
  rewrite andb_true_iff, negb_true_iff. intros [Hc Hs].
  apply key_char_allowed in Hc as [-> _]. by rewrite (IH Hs).
Qed.

Lemma all_chars_path (s : string) :
  all_chars (λ c, negb (forbidden_in_key c)) s = true →
  all_chars (λ c, negb (forbidden_in_path c)) s = true.
Proof.
  induction s as [|c s IH]; [done|]. cbn [all_chars].
  rewrite !andb_true_iff, !negb_true_iff. intros [Hc Hs].
  apply key_char_allowed in Hc as [_ ->]. auto.
Qed.

(** A key is a path of one segment, itself. *)
Lemma is_key_path (s : string) :
  is_key s = true → is_path s = true ∧ segments s = [s].
Proof.
  unfold is_key, is_path, segments. rewrite !andb_true_iff, negb_true_iff.
  intros [Hne Hs]. split.
  - by rewrite Hne, all_chars_path.
  - rewrite (split_slash_key _ Hs). apply String.eqb_neq in Hne.
    cbn. by rewrite decide_True.
Qed.

Lemma set_refusal_key iid v :
  is_key iid = true → is_undefined v = false → set_refusal iid v = None.
Proof.
  intros [Hp _]%is_key_path Hu. unfold set_refusal. by rewrite Hp, Hu.
Qed.

Lemma set_invoice_in_invoices iid n (r : record) :
  is_key iid = true →
  set_invoice_in iid (JNode n) r !! "invoices"
  = Some (Obj (<[iid := n]> match r !! "invoices" with
                            | Some (Obj kids) => kids
                            | _ => ∅
                            end)).
Proof.
  intros [_ Hseg]%is_key_path. unfold set_invoice_in.
  rewrite lookup_partial_alter_eq, Hseg. cbn [set_at]. unfold obj_of.
  change (partial_alter (λ _ : option node, Some n) iid
            (kids_of (r !! "invoices")))
    with (<[iid := n]> (kids_of (r !! "invoices"))).
  by rewrite decide_False by apply insert_non_empty.
Qed.

Lemma Part000_paid_applied invoice w uid :
  answers_next 2 w →
  first_key (matching (Invoice.customer invoice) (users w)) = Some uid →
  set_refusal (Invoice.id invoice) (invoice_data invoice) = None →
  wp (Part000.invoice_paid invoice)
     (λ res w', res = inr () ∧
        users w' = put_record uid
                     (set_invoice_in (Invoice.id invoice) (invoice_data invoice)
                        (default ∅ (users w !! uid)))
                     (users w)) w.
Proof.
  intros Ha Hfk Hu. unfold Part000.invoice_paid. fold (invoice_data invoice).
  wp_run.
  all: try (exfalso; eapply answers_next_first; eassumption).
  all: try (exfalso; eapply answers_next_second; eassumption).
  all: applied_branch.
  all: rewrite ?default_put_record, ?set_invoice_in_idempotent,
         ?put_record_twice.
  all: split; same_sides.
Qed.

(** X4. A paid invoice whose identifier is a single database key and whose
    [hosted_invoice_url] and [invoice_pdf] are present or null (not
    missing), for a customer the lookup finds, is recorded and acknowledged
    once the lookup and the first write are answered, even if the database
    rejects the second write: afterwards the invoices of the selected user
    are those stored before with the entry for this invoice's identifier
    set to the invoice's data. *)
Theorem invoice_recorded constructEvent secret req w invoice uid :
  verified constructEvent secret req = inr (Event.invoice_paid invoice) →
  answers_next 2 w →
  first_key (matching (Invoice.customer invoice) (users w)) = Some uid →
  is_key (Invoice.id invoice) = true →
  is_undefined (Invoice.hosted_invoice_url invoice) = false →
  is_undefined (Invoice.invoice_pdf invoice) = false →
  let out := Part000.webhook constructEvent secret req w in
  out.1 = Response 200 received_true
  ∧ ∃ data, invoice_data invoice = JNode (Obj data)
      ∧ invoices_of (users out.2) uid
        = <[Invoice.id invoice := Obj data]> (invoices_of (users w) uid)
      ∧ data !! "status" = str <$> Invoice.status invoice
      ∧ data !! "currency" = Some (str (Invoice.currency invoice))
      ∧ data !! "amountPaid" = Some (num (Invoice.amount_paid invoice))
      ∧ data !! "created" = Some (num (Invoice.created invoice)).
Proof.
  intros Hv Ha Hfk Hkey Hurl Hpdf out. subst out.
  rewrite (Part000_webhook_of_dispatch _ _ _ _ _ Hv).
  cbn [fst snd Part000.dispatch].
  destruct (invoice_data_stored invoice Hurl Hpdf)
    as (data & Hdata & Hstatus & Hcur & Hamount & Hcreated).
  assert (set_refusal (Invoice.id invoice) (invoice_data invoice) = None) as Hu
    by (apply set_refusal_key; [done|by rewrite Hdata]).
  destruct (Part000_paid_applied invoice w uid Ha Hfk Hu) as [-> ->].
  split; [done|]. exists data. split_and!; try done.
  unfold invoices_of. rewrite field_put_record, decide_True by done.
  rewrite Hdata, set_invoice_in_invoices, <-field_default by done.
  done.
Qed.

Lemma Part000_paid_refused invoice w uid error :
  answers w →
  first_key (matching (Invoice.customer invoice) (users w)) = Some uid →
  set_refusal (Invoice.id invoice) (invoice_data invoice) = Some error →
  wp (Part000.invoice_paid invoice)
     (λ res w', res = inl error
                ∧ w' = World (users w) (tail (faults w))
                         (trace w ++ [Query (Invoice.customer invoice)])) w.
Proof.
  intros Ha Hfk Href. unfold Part000.invoice_paid. fold (invoice_data invoice).
  wp_run.
  all: try (exfalso; eapply answers_not_rejected; eassumption).
  all: applied_branch.
  all: try (split; congruence).
Qed.

(** X24. A paid invoice whose identifier is not a path the database client
    accepts (it is empty, or holds one of [. # $ [ ]] or a control
    character) is not recorded: for a customer the lookup finds, with the
    lookup answered, [child(invoice.id)] throws before anything is sent,
    the answer is status 400 and the world is as the lookup left it. *)
Theorem invalid_invoice_id_refused constructEvent secret req w invoice uid :
  verified constructEvent secret req = inr (Event.invoice_paid invoice) →
  answers w →
  first_key (matching (Invoice.customer invoice) (users w)) = Some uid →
  is_path (Invoice.id invoice) = false →
  let out := Part000.webhook constructEvent secret req w in
  client_error out.1
  ∧ out.2 = World (users w) (tail (faults w))
              (trace w ++ [Query (Invoice.customer invoice)]).
Proof.
  intros Hv Ha Hfk Hpath out. subst out.
  rewrite (Part000_webhook_of_dispatch _ _ _ _ _ Hv).
  cbn [fst snd Part000.dispatch].
  assert (∃ error, set_refusal (Invoice.id invoice) (invoice_data invoice)
                   = Some error) as [error Href].
  { unfold set_refusal. rewrite Hpath. by eexists. }
  destruct (Part000_paid_refused invoice w uid error Ha Hfk Href) as [-> ->].
  split; [apply Part000_on_error_shape|done].
Qed.

(** * Records without a complete profile *)

Lemma missing_profile_key (r : record) :
  ¬ has_profile r → ∃ k, k ∈ profile_keys ∧ prop r k = JUndefined.
Proof.
  unfold has_profile. intros Hno.
  apply not_Forall_Exists in Hno; [|apply _].
  apply list.Exists_exists in Hno as (k & Hk & Hnone). exists k. split; [done|].
  unfold prop. cbn in Hnone. destruct (r !! k); [|done].
  exfalso. apply Hnone. eauto.
Qed.

Lemma has_undefined_true (v : jsobject) k :
  v !! k = Some JUndefined → has_undefined v = true.
Proof.
  intros Hk. unfold has_undefined. apply bool_decide_eq_true.
  by exists k, JUndefined.
Qed.

(** An argument of [update] that copies every profile child of a record
    without a complete profile holds [undefined]. *)
Ltac copies_missing_key Hno :=
  let k := fresh "k" in
  let Hk := fresh "Hk" in
  let Hund := fresh "Hund" in
  destruct (missing_profile_key _ Hno) as (k & Hk & Hund);
  apply (has_undefined_true _ k);
  apply lookup_assign_nodup; [solve_NoDup|];
  unfold profile_keys in Hk; rewrite !elem_of_cons, elem_of_nil in Hk;
  rewrite <-Hund;
  repeat (destruct Hk as [->|Hk]; [solve_elem_of|]); destruct Hk.

Lemma upserted_patch_undefined subscription (r : record) v :
  ¬ has_profile r →
  Part000_patches.upserted subscription r = Some v → has_undefined v = true.
Proof.
  intros Hno. unfold Part000_patches.upserted.
  destruct (first_price subscription) as [priceId|]; [|done].
  intros Hv. apply (inj Some) in Hv. subst v. copies_missing_key Hno.
Qed.

Lemma deleted_patch_undefined (r : record) v :
  ¬ has_profile r →
  Part000_patches.deleted r = Some v → has_undefined v = true.
Proof.
  intros Hno. unfold Part000_patches.deleted.
  intros Hv. apply (inj Some) in Hv. subst v. copies_missing_key Hno.
Qed.

Ltac refused_branch Hno :=
  try (exfalso; eapply answers_next_first; eassumption);
  try (exfalso; eapply answers_next_second; eassumption);
  applied_branch;
  try match goal with
    | H : has_undefined ?v = false |- _ =>
        exfalso;
        assert (has_undefined v = true) by (copies_missing_key Hno);
        congruence
    end;
  try (split; [eexists; reflexivity|same_sides]).

Section refused.
Context (w : world) (uid : string) (r : record).
Hypothesis Hans : answers_next 2 w.
Hypothesis Hr : users w !! uid = Some r.
Hypothesis Hno : ¬ has_profile r.

(** The handler throws after the lookup and the read, before any write. *)
Let refused (cid : string) (res : exn + ()) (w' : world) : Prop :=
  (∃ err, res = inl err)
  ∧ w' = World (users w) (tail (tail (faults w)))
               ((trace w ++ [Query cid]) ++ [Read uid]).

Lemma Part000_upserted_refused subscription :
  first_key (matching (Subscription.customer subscription) (users w)) = Some uid →
  wp (Part000.subscription_upserted subscription)
     (refused (Subscription.customer subscription)) w.
Proof.
  intros Hfk. subst refused. unfold Part000.subscription_upserted.
  wp_run; refused_branch Hno.
Qed.

Lemma Part000_deleted_refused subscription :
  first_key (matching (Subscription.customer subscription) (users w)) = Some uid →
  wp (Part000.subscription_deleted subscription)
     (refused (Subscription.customer subscription)) w.
Proof.
  intros Hfk. subst refused. unfold Part000.subscription_deleted.
  wp_run; refused_branch Hno.
Qed.

Lemma IndexTs_upserted_refused subscription :
  first_key (matching (Subscription.customer subscription) (users w)) = Some uid →
  wp (IndexTs.subscription_upserted subscription)
     (refused (Subscription.customer subscription)) w.
Proof.
  intros Hfk. subst refused. unfold IndexTs.subscription_upserted.
  wp_run; refused_branch Hno.
Qed.

Lemma IndexTs_deleted_refused subscription :
  first_key (matching (Subscription.customer subscription) (users w)) = Some uid →
  wp (IndexTs.subscription_deleted subscription)
     (refused (Subscription.customer subscription)) w.
Proof.
  intros Hfk. subst refused. unfold IndexTs.subscription_deleted.
  wp_run; refused_branch Hno.
Qed.
End refused.

(** X5. In [part_000] and [src/index.ts] a subscription created, updated or
    deleted event for a user whose record lacks one of the eight profile
    children the handler copies is not applied: building the update yields
    an [undefined] value, which the database client refuses, so after the
    lookup and the read nothing is written and the answer is status 400. *)
Theorem incomplete_profile_refused constructEvent secret req w event cid uid r :
  verified constructEvent secret req = inr event →
  is_subscription_event event = true →
  event_customer event = Some cid →
  answers_next 2 w →
  first_key (matching cid (users w)) = Some uid →
  users w !! uid = Some r →
  ¬ has_profile r →
  let after := World (users w) (tail (tail (faults w)))
                     ((trace w ++ [Query cid]) ++ [Read uid]) in
  let out0 := Part000.webhook constructEvent secret req w in
  let out1 := IndexTs.webhook constructEvent secret req w in
  (status out0.1 = 400%Z ∧ out0.2 = after)
  ∧ (status out1.1 = 400%Z ∧ out1.2 = after).
Proof.
  intros Hv Hs Hc Ha Hfk Hr Hno after out0 out1. subst after out0 out1.
  rewrite (Part000_webhook_of_dispatch _ _ _ _ _ Hv),
    (IndexTs_webhook_of_dispatch _ _ _ _ _ Hv). cbn [fst snd].
  destruct event; cbn [is_subscription_event event_customer] in Hs, Hc;
    simplify_eq; cbn [Part000.dispatch IndexTs.dispatch].
  - destruct (Part000_upserted_refused w uid r Ha Hr Hno object Hfk)
      as [[e0 ->] ->].
    destruct (IndexTs_upserted_refused w uid r Ha Hr Hno object Hfk)
      as [[e1 ->] ->].
    split; (split; [|done]); [by destruct (Part000_on_error_shape e0)|done].
  - destruct (Part000_upserted_refused w uid r Ha Hr Hno object Hfk)
      as [[e0 ->] ->].
    destruct (IndexTs_upserted_refused w uid r Ha Hr Hno object Hfk)
      as [[e1 ->] ->].
    split; (split; [|done]); [by destruct (Part000_on_error_shape e0)|done].
  - destruct (Part000_deleted_refused w uid r Ha Hr Hno object Hfk)
      as [[e0 ->] ->].
    destruct (IndexTs_deleted_refused w uid r Ha Hr Hno object Hfk)
      as [[e1 ->] ->].
    split; (split; [|done]); [by destruct (Part000_on_error_shape e0)|done].
Qed.

Lemma Part001_upserted_applied subscription w uid r priceId :
  faults w = [] →
  first_key (matching (Subscription.customer subscription) (users w)) = Some uid →
  users w !! uid = Some r →
  first_price subscription = Some priceId →
  wp (Part001.subscription_upserted subscription)
     (λ res w', res = inr () ∧
        users w' = put_record uid
                     (apply_update
                        (assign (spread r) [
                           ("plan", JNode (str
                              (if bool_decide (Subscription.status subscription
                                               = "active")
                               then "pro" else "free")));
                           ("subscription",
                            subscription_literal subscription priceId)])
                        r)
                     (users w)) w.
Proof.
  destruct w as [us fs tr]. cbn [faults users]. intros -> Hfk Hr Hp.
  assert (has_undefined
            (assign (spread r) [
               ("plan", JNode (str
                  (if bool_decide (Subscription.status subscription = "active")
                   then "pro" else "free")));
               ("subscription", subscription_literal subscription priceId)])
          = false) as Hu.
  { apply has_undefined_spread.
    repeat first [apply Forall_nil_2 | apply Forall_cons_2]; cbn [snd];
      [reflexivity|apply subscription_literal_defined]. }
  unfold Part001.subscription_upserted. wp_run;
    applied_branch; rewrite_selected; applied_branch.
  split; same_sides.
Qed.

(** X6. [part_001] spreads the record it read instead of copying named
    children, so its upsert needs no profile: for any user the lookup
    selects and any subscription with a first item, with no round trip
    rejected, the event is acknowledged, the stored plan is [pro] exactly
    for status [active] (and [free] otherwise, [trialing] included), and the
    stored subscription carries the event's price and status. *)
Theorem spread_upsert_stored constructEvent secret req w event subscription
    uid priceId :
  verified constructEvent secret req = inr event →
  upsert_of event = Some subscription →
  faults w = [] →
  first_key (matching (Subscription.customer subscription) (users w)) = Some uid →
  first_price subscription = Some priceId →
  let out := Part001.webhook constructEvent secret req w in
  out.1 = Response 200 received_true
  ∧ field (users out.2) uid "plan"
    = Some (str (if bool_decide (Subscription.status subscription = "active")
                 then "pro" else "free"))
  ∧ ∃ kids, field (users out.2) uid "subscription" = Some (Obj kids)
            ∧ kids !! "priceId" = Some (str priceId)
            ∧ kids !! "status" = Some (str (Subscription.status subscription)).
Proof.
  intros Hv Hup Hq Hfk Hp out. subst out.
  destruct (first_key_matching _ _ _ Hfk) as (r & Hr & _).
  pose proof (Part001_upserted_applied subscription w uid r priceId Hq Hfk Hr Hp)
    as Happ.
  unfold wp in Happ. destruct Happ as [Hres Hus].
  assert (Part001.webhook constructEvent secret req w
          = (Response 200 received_true,
             (Part001.subscription_upserted subscription w).2)) as ->.
  { unfold Part001.webhook, Part001.webhook_try. unfold verified in Hv.
    unfold mbind, M_bind, call. rewrite Hv.
    assert (Part001.dispatch event = Part001.subscription_upserted subscription)
      as -> by (destruct event; by simplify_eq/=).
    destruct (Part001.subscription_upserted subscription w) as [[err|[]] w'];
      [done|done]. }
  cbn [fst snd]. rewrite Hus. split; [done|].
  rewrite !field_put_record, !decide_True by done.
  rewrite !lookup_apply_update.
  match goal with |- context [assign ?o ?l !! "plan"] =>
    rewrite (lookup_assign_nodup o l "plan"
               (JNode (str (if bool_decide (Subscription.status subscription
                                            = "active")
                            then "pro" else "free"))))
      by (solve_NoDup || solve_elem_of);
    rewrite (lookup_assign_nodup o l "subscription"
               (subscription_literal subscription priceId))
      by (solve_NoDup || solve_elem_of)
  end.
  split; [done|].
  destruct (subscription_literal_stored subscription priceId)
    as (kids & -> & _ & Hprice & Hstatus).
  eauto.
Qed.

(** * What an upsert and a deletion store *)





Lemma deleted_patch_defined (r : record) v :
  has_profile r → Part000_patches.deleted r = Some v → has_undefined v = false.
Proof.
  intros Hr. unfold Part000_patches.deleted.
  intros Hv. apply (inj Some) in Hv. subst v.
  apply has_undefined_literal.
  repeat first [apply Forall_nil_2 | apply Forall_cons_2]; cbn [fst snd];
    first [ apply has_profile_prop; [assumption|unfold profile_keys; solve_elem_of]
          | reflexivity ].
Qed.

Section deleted_applied.
Context (subscription : Subscription.t) (w : world) (uid : string)
        (r : record) (v : jsobject).
Hypothesis Hq : faults w = [].
Hypothesis Hfk :
  first_key (matching (Subscription.customer subscription) (users w)) = Some uid.
Hypothesis Hr : users w !! uid = Some r.
Hypothesis Hv : Part000_patches.deleted r = Some v.
Hypothesis Hu : has_undefined v = false.

Let applied (res : exn + ()) (w' : world) : Prop :=
  res = inr () ∧ users w' = put_record uid (apply_update v r) (users w).

Lemma Part000_deleted_applied :
  wp (Part000.subscription_deleted subscription) applied w.
Proof.
  subst applied. destruct w as [us fs tr]. cbn [faults users] in *. subst fs.
  unfold Part000_patches.deleted in Hv. apply (inj Some) in Hv. subst v.
  unfold Part000.subscription_deleted. wp_run; applied_branch.
  split; same_sides.
Qed.

Lemma IndexTs_deleted_applied :
  wp (IndexTs.subscription_deleted subscription) applied w.
Proof.
  subst applied. destruct w as [us fs tr]. cbn [faults users] in *. subst fs.
  unfold Part000_patches.deleted in Hv. apply (inj Some) in Hv. subst v.
  unfold IndexTs.subscription_deleted. wp_run; applied_branch.
  split; same_sides.
Qed.
End deleted_applied.

(** X8. A subscription deleted event for a user the lookup selects and
    whose profile is complete, with no round trip rejected, is acknowledged
    by [part_000] and by [src/index.ts] and leaves that user with [plan]
    equal to [free] and no [subscription] child. *)
Theorem deletion_downgrades constructEvent secret req w subscription uid r :
  verified constructEvent secret req
    = inr (Event.customer_subscription_deleted subscription) →
  faults w = [] →
  first_key (matching (Subscription.customer subscription) (users w)) = Some uid →
  users w !! uid = Some r →
  has_profile r →
  let downgraded (out : response * world) :=
    out.1 = Response 200 received_true
    ∧ field (users out.2) uid "plan" = Some (str "free")
    ∧ field (users out.2) uid "subscription" = None in
  downgraded (Part000.webhook constructEvent secret req w)
  ∧ downgraded (IndexTs.webhook constructEvent secret req w).
Proof.
  intros Hv Hq Hfk Hr Hprof downgraded. subst downgraded.
  rewrite (Part000_webhook_of_dispatch _ _ _ _ _ Hv),
    (IndexTs_webhook_of_dispatch _ _ _ _ _ Hv).
  cbn [fst snd Part000.dispatch IndexTs.dispatch].
  destruct (Part000_patches.deleted r) as [v|] eqn:Hv'; [|done].
  pose proof (deleted_patch_defined _ _ Hprof Hv') as Hu.
  destruct (Part000_deleted_applied subscription w uid r v Hq Hfk Hr Hv' Hu)
    as [-> ->].
  destruct (IndexTs_deleted_applied subscription w uid r v Hq Hfk Hr Hv' Hu)
    as [-> ->].
  unfold Part000_patches.deleted in Hv'. apply (inj Some) in Hv'.
  clear Hu. subst v.
  rewrite !field_put_record, !decide_True by done.
  rewrite !lookup_apply_update.
  match goal with |- context [assign ∅ ?l !! "plan"] =>
    rewrite !(lookup_assign_nodup ∅ l "plan" (JNode (str "free")))
      by (solve_NoDup || solve_elem_of);
    rewrite !(lookup_assign_nodup ∅ l "subscription" JNull)
      by (solve_NoDup || solve_elem_of)
  end.
  done.
Qed.

(** * The plan an upsert stores, revision by revision *)

Lemma IndexTs_upserted_applied subscription w uid r priceId :
  faults w = [] →
  first_key (matching (Subscription.customer subscription) (users w)) = Some uid →
  users w !! uid = Some r →
  has_profile r →
  first_price subscription = Some priceId →
  wp (IndexTs.subscription_upserted subscription)
     (λ res w', res = inr () ∧
        field (users w') uid "plan"
        = Some (str (if bool_decide (Subscription.status subscription = "active")
                     then "pro" else "free"))) w.
Proof.
  destruct w as [us fs tr]. cbn [faults users]. intros -> Hfk Hr Hprof Hp.
  assert (has_undefined
            (assign ∅ [
               ("uid", prop r "uid");
               ("displayName", prop r "displayName");
               ("email", prop r "email");
               ("createdAt", prop r "createdAt");
               ("lastLoginAt", prop r "lastLoginAt");
               ("summaryCount", prop r "summaryCount");
               ("dailySummaryCount", prop r "dailySummaryCount");
               ("dailySummaryResetTime", prop r "dailySummaryResetTime");
               ("plan", JNode (str
                  (if bool_decide (Subscription.status subscription = "active")
                   then "pro" else "free")));
               ("stripeCustomerId",
                JNode (str (Subscription.customer subscription)));
               ("subscription", subscription_literal subscription priceId)])
          = false) as Hu.
  { apply has_undefined_literal.
    repeat first [apply Forall_nil_2 | apply Forall_cons_2]; cbn [fst snd];
      first [ apply has_profile_prop; [assumption|unfold profile_keys; solve_elem_of]
            | apply subscription_literal_defined
            | reflexivity ]. }
  unfold IndexTs.subscription_upserted. wp_run;
    applied_branch; rewrite_selected; applied_branch.
  split; [reflexivity|].
  rewrite field_put_record, decide_True by reflexivity.
  rewrite lookup_apply_update.
  match goal with |- context [assign ?o ?l !! "plan"] =>
    rewrite (lookup_assign_nodup o l "plan"
               (JNode (str (if bool_decide (Subscription.status subscription
                                            = "active")
                            then "pro" else "free"))))
      by (solve_NoDup || solve_elem_of)
  end.
  reflexivity.
Qed.

Lemma Part001_webhook_of_dispatch constructEvent secret req event w :
  verified constructEvent secret req = inr event →
  Part001.webhook constructEvent secret req w =
  (match (Part001.dispatch event w).1 with
   | inr _ => Response 200 received_true
   | inl err => Part001.on_error err
   end, (Part001.dispatch event w).2).
Proof.
  unfold verified. intros Hv. unfold Part001.webhook, Part001.webhook_try.
  unfold mbind, M_bind, call. rewrite Hv.
  by destruct (Part001.dispatch event w) as [[err|[]] w'].
Qed.

(** Lines 98 of [src/index.ts] and 87 of [part_001]: the plan a verified
    upsert stores is [pro] for status [active] only. *)
Lemma active_only_plan constructEvent secret req w event subscription uid r
    priceId :
  verified constructEvent secret req = inr event →
  upsert_of event = Some subscription →
  faults w = [] →
  first_key (matching (Subscription.customer subscription) (users w)) = Some uid →
  users w !! uid = Some r →
  has_profile r →
  first_price subscription = Some priceId →
  let stored := Some (str (if bool_decide (Subscription.status subscription
                                           = "active")
                           then "pro" else "free")) in
  field (users (IndexTs.webhook constructEvent secret req w).2) uid "plan"
    = stored
  ∧ field (users (Part001.webhook constructEvent secret req w).2) uid "plan"
    = stored.
Proof.
  intros Hv Hup Hq Hfk Hr Hprof Hp stored. subst stored.
  rewrite (IndexTs_webhook_of_dispatch _ _ _ _ _ Hv),
    (Part001_webhook_of_dispatch _ _ _ _ _ Hv). cbn [fst snd].
  assert (IndexTs.dispatch event = IndexTs.subscription_upserted subscription)
    as -> by (destruct event; by simplify_eq/=).
  assert (Part001.dispatch event = Part001.subscription_upserted subscription)
    as -> by (destruct event; by simplify_eq/=).
  split.
  - by destruct (IndexTs_upserted_applied subscription w uid r priceId
                   Hq Hfk Hr Hprof Hp) as [_ ->].
  - destruct (Part001_upserted_applied subscription w uid r priceId Hq Hfk Hr Hp)
      as [_ ->].
    rewrite field_put_record, decide_True by reflexivity.
    rewrite lookup_apply_update.
    match goal with |- context [assign ?o ?l !! "plan"] =>
      rewrite (lookup_assign_nodup o l "plan"
                 (JNode (str (if bool_decide (Subscription.status subscription
                                              = "active")
                              then "pro" else "free"))))
        by (solve_NoDup || solve_elem_of)
    end.
    reflexivity.
Qed.

(** Handed a parsed body, the library throws and the handlers of
    [src/index.ts] and [part_001] answer with their one error response,
    the world untouched. *)
Lemma parsed_body_refused parses stripe secret d w :
  needs_raw stripe →
  parses (body_text d) = true →
  let fixed := Response 400 (error_body "Webhook signature verification failed"
                                        "WEBHOOK_SIGNATURE_ERROR" None) in
  IndexTs_route parses stripe secret d w = Some (fixed, w)
  ∧ Part001_route parses stripe secret d w = Some (fixed, w).
Proof.
  intros Hraw Hp fixed. unfold IndexTs_route, Part001_route. rewrite Hp.
  destruct (Hraw (body_text d) (or_empty (signature d)) (or_empty secret))
    as [err Herr].
  unfold IndexTs.webhook, IndexTs.webhook_try, Part001.webhook,
    Part001.webhook_try, mbind, M_bind, call, received.
  cbn [body stripe_signature]. by rewrite Herr.
Qed.

(** C1 against the three revisions.  Take a delivery whose bytes the
    library verifies as a subscription created/updated event, for a
    customer the lookup selects, with a complete profile, a first item and
    no round trip rejected.  [part_000] hands the library the bytes and
    stores the plan the claim states: [pro] exactly for [active] and
    [trialing].  [src/index.ts] and [part_001] hand it the parsed body: the
    library throws, the answer is the 400 error response and the plan is
    not written at all.  Had their handlers been handed the bytes, lines 98
    and 87 would store [pro] for [active] only. *)
Theorem plan_by_revision parses stripe secret d w event subscription uid r
    priceId :
  needs_raw stripe →
  parses (body_text d) = true →
  stripe (raw_bytes (body_text d)) (or_empty (signature d)) (or_empty secret)
    = inr event →
  upsert_of event = Some subscription →
  faults w = [] →
  first_key (matching (Subscription.customer subscription) (users w)) = Some uid →
  users w !! uid = Some r →
  has_profile r →
  first_price subscription = Some priceId →
  let fixed := Response 400 (error_body "Webhook signature verification failed"
                                        "WEBHOOK_SIGNATURE_ERROR" None) in
  let handed_bytes := λ text, stripe (raw_bytes text) in
  let active_only := Some (str (if bool_decide (Subscription.status subscription
                                                = "active")
                                then "pro" else "free")) in
  field (users (Part000_route stripe secret d w).2) uid "plan"
    = Some (str (derived_plan (Subscription.status subscription)))
  ∧ IndexTs_route parses stripe secret d w = Some (fixed, w)
  ∧ Part001_route parses stripe secret d w = Some (fixed, w)
  ∧ field (users (IndexTs.webhook handed_bytes secret (received d) w).2)
      uid "plan" = active_only
  ∧ field (users (Part001.webhook handed_bytes secret (received d) w).2)
      uid "plan" = active_only.
Proof.
  intros Hraw Hparses Hv Hup Hq Hfk Hr Hprof Hp fixed handed_bytes active_only.
  assert (verified handed_bytes secret (received d) = inr event) as Hv'
    by exact Hv.
  destruct (parsed_body_refused parses stripe secret d w Hraw Hparses)
    as [Hix H001].
  destruct (active_only_plan handed_bytes secret (received d) w event
              subscription uid r priceId Hv' Hup Hq Hfk Hr Hprof Hp)
    as [Hix' H001'].
  destruct (Part000_upsert_stored handed_bytes secret (received d) w event
              subscription uid r priceId Hv' Hup Hq Hfk Hr Hprof Hp)
    as (_ & Hplan & _).
  split_and!; assumption.
Qed.

(** * One delivery after another *)




(** * The session endpoints *)

Lemma round_trip_answered a w :
  answers w →
  round_trip a w = (inr (), World (users w) (tail (faults w)) (trace w ++ [a])).
Proof.
  unfold answers, round_trip. by destruct (faults w) as [|[e|] fs].
Qed.

Lemma round_trip_rejected a w e fs :
  faults w = Some e :: fs →
  round_trip a w = (inl e, World (users w) (tail (faults w)) (trace w ++ [a])).
Proof. unfold round_trip. by intros ->. Qed.

Lemma once_value_run uid w :
  once_value uid w
  = (match faults w with
     | Some e :: _ => inl e
     | _ => inr (users w !! uid)
     end, World (users w) (tail (faults w)) (trace w ++ [Read uid])).
Proof.
  unfold once_value, mbind, M_bind, round_trip, read_users.
  by destruct (faults w) as [|[e|] fs].
Qed.

Lemma update_run uid v w :
  has_undefined v = false →
  update uid v w
  = match faults w with
    | Some e :: _ =>
        (inl e, World (users w) (tail (faults w)) (trace w ++ [Update uid]))
    | _ =>
        (inr (),
         World (put_record uid (apply_update v (default ∅ (users w !! uid)))
                  (users w))
               (tail (faults w)) (trace w ++ [Update uid]))
    end.
Proof.
  intros Hu. unfold update. rewrite Hu.
  unfold mbind, M_bind, round_trip, write_users.
  by destruct (faults w) as [|[e|] fs].
Qed.

Lemma customer_patch_defined cid :
  has_undefined (assign ∅ [("stripeCustomerId", JNode (str cid))]) = false.
Proof.
  apply has_undefined_literal.
  repeat first [apply Forall_nil_2 | apply Forall_cons_2]. reflexivity.
Qed.

Lemma customer_patch_applied cid (r : record) :
  apply_update (assign ∅ [("stripeCustomerId", JNode (str cid))]) r
  = <["stripeCustomerId" := str cid]> r.
Proof.
  apply map_eq. intros k. rewrite lookup_apply_update.
  destruct (decide (k = "stripeCustomerId")) as [->|Hne].
  - rewrite (lookup_assign_nodup _ _ _ (JNode (str cid)))
      by (solve_NoDup || solve_elem_of).
    by rewrite lookup_insert_eq.
  - rewrite lookup_assign_notin, lookup_empty, lookup_insert_ne; [done..|].
    cbn. rewrite elem_of_cons, elem_of_nil. tauto.
Qed.

Lemma stored_customer_Some (r : record) n :
  stored_customer r = Some n →
  prop r "stripeCustomerId" = JNode n ∧ truthy n = true ∧ r ≠ ∅.
Proof.
  unfold stored_customer, prop. destruct (r !! "stripeCustomerId") as [n'|] eqn:E;
    [|done].
  destruct (truthy n') eqn:Ht; [|done]. intros [= ->].
  split_and!; [done..|]. intros ->. by rewrite lookup_empty in E.
Qed.

(** [ensure_customer] with a stored customer: no call, no round trip. *)
Lemma ensure_customer_stored create uid (r : record) n w :
  stored_customer r = Some n →
  ensure_customer create uid r w = (inr n, w).
Proof.
  intros (Hp & Ht & _)%stored_customer_Some. unfold ensure_customer.
  by rewrite Hp, Ht.
Qed.

(** [ensure_customer] without one: the customer is created and written. *)
Lemma ensure_customer_created create uid (r : record) w :
  stored_customer r = None →
  ensure_customer create uid r w
  = match create (customer_params uid r) with
    | inl err => (inl err, w)
    | inr customer =>
        match faults w with
        | Some e :: _ =>
            (inl e, World (users w) (tail (faults w)) (trace w ++ [Update uid]))
        | _ =>
            (inr (str (Customer.id customer)),
             World (put_record uid
                      (<["stripeCustomerId" := str (Customer.id customer)]>
                         (default ∅ (users w !! uid)))
                      (users w))
                   (tail (faults w)) (trace w ++ [Update uid]))
        end
    end.
Proof.
  intros Hnone. unfold ensure_customer, customer_params.
  assert (∀ (create' : M node),
            match prop r "stripeCustomerId" with
            | JNode customerId => if truthy customerId then mret customerId
                                  else create'
            | _ => create'
            end = create') as ->.
  { intros create'. unfold stored_customer, prop in *.
    destruct (r !! "stripeCustomerId") as [n|]; [|done].
    by destruct (truthy n). }
  unfold mbind at 1. unfold M_bind at 1. unfold call at 1.
  destruct (create _) as [err|customer]; [done|].
  unfold mbind, M_bind.
  rewrite (update_run _ _ _ (customer_patch_defined _)).
  rewrite customer_patch_applied.
  by destruct (faults w) as [|[e|] fs].
Qed.

Lemma with_customer_run create uid (k : node → M api_response) w :
  with_customer create uid k w
  = match faults w with
    | Some e :: _ => (inl e, after_read uid w)
    | _ =>
        if snapshot_present (users w !! uid) then
          match ensure_customer create uid (default ∅ (users w !! uid))
                  (after_read uid w) with
          | (inr n, w2) => k n w2
          | (inl e, w2) => (inl e, w2)
          end
        else (inr (ApiResponse 404 (error_text "User not found")),
              after_read uid w)
    end.
Proof.
  unfold with_customer. unfold mbind at 1. unfold M_bind at 1.
  rewrite once_value_run. fold (after_read uid w).
  destruct (faults w) as [|[e|] fs]; try done;
    destruct (snapshot_present (users w !! uid)); done.
Qed.

(** The whole run of [with_customer] when what follows leaves the world
    alone. *)
Lemma with_customer_explicit create uid (k : node → M api_response) w :
  (∀ n w0, (k n w0).2 = w0) →
  with_customer create uid k w
  = match faults w with
    | Some e :: _ => (inl e, after_read uid w)
    | _ =>
        match users w !! uid with
        | Some r =>
            if bool_decide (r ≠ ∅) then
              match stored_customer r with
              | Some n => ((k n (after_read uid w)).1, after_read uid w)
              | None =>
                  match create (customer_params uid r) with
                  | inl err => (inl err, after_read uid w)
                  | inr c =>
                      match tail (faults w) with
                      | Some e :: _ =>
                          (inl e, World (users w) (tail (tail (faults w)))
                                    ((trace w ++ [Read uid]) ++ [Update uid]))
                      | _ =>
                          ((k (str (Customer.id c))
                              (after_first_use uid r (Customer.id c) w)).1,
                           after_first_use uid r (Customer.id c) w)
                      end
                  end
              end
            else (inr (ApiResponse 404 (error_text "User not found")),
                  after_read uid w)
        | None => (inr (ApiResponse 404 (error_text "User not found")),
                   after_read uid w)
        end
    end.
Proof.
  intros Hk. rewrite with_customer_run.
  destruct (faults w) as [|[e|] fs] eqn:Hf; [|done|];
    (destruct (users w !! uid) as [r|] eqn:Hr; cbn [snapshot_present default];
       [|done]);
    (case_bool_decide as Hne; [|done]);
    (destruct (stored_customer r) as [n|] eqn:Hs;
       [rewrite (ensure_customer_stored _ _ _ _ _ Hs);
        rewrite (surjective_pairing (k n _)) at 1; by rewrite Hk|]);
    rewrite (ensure_customer_created _ _ _ _ Hs);
    (destruct (create (customer_params uid r)) as [err|c]; [done|]);
    cbn [after_read users faults trace];
    rewrite Hr; cbn [default];
    unfold put_record; rewrite decide_False by apply insert_non_empty;
    unfold after_first_use; rewrite Hf; cbn [tail];
    try (destruct fs as [|[e'|] fs']; cbn [tail]; try done);
    rewrite (surjective_pairing (k _ _)) at 1; by rewrite Hk.
Qed.

Lemma endpoint_run uid body on_err w :
  is_key uid = true →
  endpoint uid body on_err w
  = Some (match (body w).1 with inr res => res | inl e => on_err e end,
          (body w).2).
Proof. unfold endpoint. intros ->. by destruct (body w) as [[e|res] w']. Qed.

Lemma provider_eta p : with_customers_create p (customers_create p) = p.
Proof. by destruct p. Qed.

(** Each of the four endpoints is [with_customer] followed by one call to
    the provider that leaves the world alone and is answered with 200, and
    a [catch] block answering 500. *)
Lemma serve_shape p e req :
  ∃ k : node → M api_response,
    (∀ n w0, (k n w0).2 = w0)
    ∧ (∀ n w0 res, (k n w0).1 = inr res → api_status res = 200%Z)
    ∧ ∀ create w,
        serve (with_customers_create p create) e req w
        = endpoint (CheckoutBody.userId req)
            (with_customer create (CheckoutBody.userId req) k)
            (λ error, ApiResponse 500 (failure_body e error)) w.
Proof.
  destruct e; cbn [serve with_customers_create customers_create sessions_create
                     subscriptions_create STRIPE_PRO_PLAN_PRICE_ID];
    unfold Part000_api.create_checkout_session,
      IndexTs_api.create_checkout_session, Part001_api.create_checkout_session,
      Part001_api.create_payment_intent;
    eexists; (split_and!; [| |intros create w; reflexivity]);
    intros n w0; unfold mbind, M_bind, call;
    match goal with |- context [match ?c with _ => _ end] => destruct c end;
    cbn; intros; by simplify_eq.
Qed.

(** The run of an endpoint on a key, for the provider as given. *)
Lemma serve_run p e req :
  ∃ k : node → M api_response,
    (∀ n w0, (k n w0).2 = w0)
    ∧ (∀ n w0 res, (k n w0).1 = inr res → api_status res = 200%Z)
    ∧ ∀ create w,
        is_key (CheckoutBody.userId req) = true →
        let out := with_customer create (CheckoutBody.userId req) k w in
        serve (with_customers_create p create) e req w
        = Some (match out.1 with
                | inr res => res
                | inl error => ApiResponse 500 (failure_body e error)
                end, out.2).
Proof.
  destruct (serve_shape p e req) as (k & Hk & H200 & Hs).
  exists k. split_and!; [done..|]. intros create w Hkey out.
  by rewrite Hs, endpoint_run.
Qed.

(** The users after [with_customer]: as before, or with the new customer
    written to the user read. *)
Lemma with_customer_users create uid (k : node → M api_response) w :
  (∀ n w0, (k n w0).2 = w0) →
  users (with_customer create uid k w).2 = users w
  ∨ ∃ r c, users w !! uid = Some r
           ∧ r ≠ ∅
           ∧ stored_customer r = None
           ∧ create (customer_params uid r) = inr c
           ∧ (with_customer create uid k w).2
             = after_first_use uid r (Customer.id c) w.
Proof.
  intros Hk. rewrite (with_customer_explicit _ _ _ _ Hk).
  destruct (faults w) as [|[e|] fs]; [|by left|];
    (destruct (users w !! uid) as [r|]; [|by left]);
    (case_bool_decide as Hne; [|by left]);
    (destruct (stored_customer r) as [n|] eqn:Hs; [by left|]);
    (destruct (create (customer_params uid r)) as [err|c] eqn:Hc; [by left|]);
    cbn [tail]; try (destruct fs as [|[e'|] fs']; try by left);
    right; by exists r, c.
Qed.

Lemma field_after_first_use uid (r : record) cid us uid' k :
  us !! uid = Some r →
  uid' ≠ uid ∨ k ≠ "stripeCustomerId" →
  field (<[uid := <["stripeCustomerId" := str cid]> r]> us) uid' k
  = field us uid' k.
Proof.
  intros Hr Hne. unfold field.
  destruct (decide (uid' = uid)) as [->|Hu].
  - rewrite lookup_insert_eq, Hr. cbn.
    destruct Hne as [?|Hk]; [done|]. by rewrite lookup_insert_ne.
  - by rewrite lookup_insert_ne.
Qed.

Lemma dom_after_first_use uid (r r' : record) (us : gmap string record) :
  us !! uid = Some r → dom (<[uid := r']> us) = dom us.
Proof.
  intros Hr. rewrite dom_insert_L.
  assert (uid ∈ dom us) by (apply elem_of_dom; eauto).
  apply set_eq. intros x. rewrite elem_of_union, elem_of_singleton.
  split; [intros [->|?]; done|by right].
Qed.

(** With a customer on record the exchange asks [customers.create]
    nothing and writes nothing. *)
Lemma serve_stored p create e req w r n :
  let userId := CheckoutBody.userId req in
  is_key userId = true →
  users w !! userId = Some r →
  stored_customer r = Some n →
  serve (with_customers_create p create) e req w = serve p e req w
  ∧ ∃ res, serve p e req w = Some (res, after_read userId w).
Proof.
  intros uid Hkey Hr Hn.
  destruct (serve_run p e req) as (k & Hk & _ & Hs).
  pose proof (Hs (customers_create p) w Hkey) as Hp. rewrite provider_eta in Hp.
  rewrite Hp, (Hs create w Hkey), !(with_customer_explicit _ _ _ _ Hk).
  fold uid. rewrite Hr, Hn.
  rewrite bool_decide_true by by apply stored_customer_Some in Hn as (_ & _ & ?).
  split; [done|].
  destruct (faults w) as [|[err|] fs]; cbn [fst snd]; eauto.
Qed.

(** Without one, and with the provider and the database answering, the
    identifier is written whatever the provider says to the next call. *)
Lemma serve_first_use p e req w r c :
  let userId := CheckoutBody.userId req in
  is_key userId = true →
  answers_next 2 w →
  users w !! userId = Some r →
  r ≠ ∅ →
  stored_customer r = None →
  customers_create p (customer_params userId r) = inr c →
  ∃ res, serve p e req w
         = Some (res, after_first_use userId r (Customer.id c) w)
         ∧ (api_status res = 200%Z ∨ api_status res = 500%Z).
Proof.
  intros uid Hkey Ha Hr Hne Hn Hc.
  destruct (serve_run p e req) as (k & Hk & H200 & Hs).
  specialize (Hs (customers_create p) w Hkey). rewrite provider_eta in Hs.
  rewrite Hs, (with_customer_explicit _ _ _ _ Hk). fold uid.
  rewrite Hr, Hn, Hc, bool_decide_true by done.
  assert (∃ res, (match (k (str (Customer.id c))
                            (after_first_use uid r (Customer.id c) w)).1 with
                  | inr res => res
                  | inl error => ApiResponse 500 (failure_body e error)
                  end) = res
                 ∧ (api_status res = 200%Z ∨ api_status res = 500%Z))
    as (res & Hres & Hst).
  { destruct (k _ _).1 as [err|res] eqn:Hk1; eexists; (split; [done|]).
    - by right.
    - left. by eapply H200. }
  exists res. split; [|done].
  pose proof (λ err fs, answers_next_first 1 w err fs Ha) as H1.
  pose proof (λ err fs, answers_next_second 0 w err fs Ha) as H2.
  destruct (faults w) as [|[err|] fs]; [|by destruct (H1 err fs)|];
    cbn [tail fst snd] in *; [by rewrite Hres|].
  destruct fs as [|[err|] fs]; [|by destruct (H2 err fs)|];
    cbn [fst snd]; by rewrite Hres.
Qed.

(** X10. A checkout for a user the database does not hold is answered 404
    "User not found" on every one of the four endpoints, after one read and
    nothing else: the answer does not depend on the provider. *)
Theorem unknown_user_not_found p e req w :
  let userId := CheckoutBody.userId req in
  is_key userId = true →
  answers w →
  snapshot_present (users w !! userId) = false →
  serve p e req w
  = Some (ApiResponse 404 (error_text "User not found"), after_read userId w).
Proof.
  intros uid Hkey Ha Hp.
  destruct (serve_run p e req) as (k & Hk & _ & Hs).
  specialize (Hs (customers_create p) w Hkey). rewrite provider_eta in Hs.
  rewrite Hs, (with_customer_explicit _ _ _ _ Hk). fold uid.
  unfold answers in Ha.
  destruct (faults w) as [|[err|] fs]; [|done|];
    (destruct (users w !! uid) as [r|]; [|done]);
    cbn [snapshot_present] in Hp; by rewrite Hp.
Qed.

(** X11. A user who has a customer identifier on record is never given a
    second one: on every endpoint the exchange is the same whatever
    [customers.create] would answer, and it ends in the world after one
    read, with no write. *)
Theorem stored_customer_reused p create e req w r n :
  let userId := CheckoutBody.userId req in
  is_key userId = true →
  users w !! userId = Some r →
  stored_customer r = Some n →
  serve (with_customers_create p create) e req w = serve p e req w
  ∧ ∃ res, serve p e req w = Some (res, after_read userId w).
Proof. apply serve_stored. Qed.

(** X12. First use.  A user without a customer identifier gets the
    identifier [customers.create] answers written to the record, and the
    write stays whether or not the session that follows can be created: the
    answer is 200 or 500, the world is the same. *)
Theorem first_use_saves_customer p e req w r c :
  let userId := CheckoutBody.userId req in
  is_key userId = true →
  answers_next 2 w →
  users w !! userId = Some r →
  r ≠ ∅ →
  stored_customer r = None →
  customers_create p (customer_params userId r) = inr c →
  ∃ res, serve p e req w
         = Some (res, after_first_use userId r (Customer.id c) w)
         ∧ (api_status res = 200%Z ∨ api_status res = 500%Z).
Proof. apply serve_first_use. Qed.

(** X13. When [customers.create] fails for a user without a customer
    identifier, the endpoint answers 500 with the body of its [catch] block
    and has written nothing. *)
Theorem customer_creation_failure p e req w r err :
  let userId := CheckoutBody.userId req in
  is_key userId = true →
  answers w →
  users w !! userId = Some r →
  r ≠ ∅ →
  stored_customer r = None →
  customers_create p (customer_params userId r) = inl err →
  serve p e req w
  = Some (ApiResponse 500 (failure_body e err), after_read userId w).
Proof.
  intros uid Hkey Ha Hr Hne Hn Hc.
  destruct (serve_run p e req) as (k & Hk & _ & Hs).
  specialize (Hs (customers_create p) w Hkey). rewrite provider_eta in Hs.
  rewrite Hs, (with_customer_explicit _ _ _ _ Hk). fold uid.
  rewrite Hr, Hn, Hc, bool_decide_true by done.
  unfold answers in Ha. by destruct (faults w) as [|[err'|] fs].
Qed.

(** X14. When the read of the user is rejected, the endpoint answers 500
    with the body of its [catch] block; nothing is written and the answer
    does not depend on the provider. *)
Theorem read_failure_is_server_error p e req w err fs :
  let userId := CheckoutBody.userId req in
  is_key userId = true →
  faults w = Some err :: fs →
  serve p e req w
  = Some (ApiResponse 500 (failure_body e err), after_read userId w).
Proof.
  intros uid Hkey Hf.
  destruct (serve_run p e req) as (k & Hk & _ & Hs).
  specialize (Hs (customers_create p) w Hkey). rewrite provider_eta in Hs.
  rewrite Hs, (with_customer_explicit _ _ _ _ Hk). fold uid.
  by rewrite Hf.
Qed.

(** X15. When the customer is created but the write of its identifier is
    rejected, the endpoint answers 500 and the record is as it was: the
    customer just created is on record nowhere. *)
Theorem unsaved_customer p e req w r c err fs :
  let userId := CheckoutBody.userId req in
  is_key userId = true →
  faults w = None :: Some err :: fs →
  users w !! userId = Some r →
  r ≠ ∅ →
  stored_customer r = None →
  customers_create p (customer_params userId r) = inr c →
  serve p e req w
  = Some (ApiResponse 500 (failure_body e err),
          World (users w) fs ((trace w ++ [Read userId]) ++ [Update userId])).
Proof.
  intros uid Hkey Hf Hr Hne Hn Hc.
  destruct (serve_run p e req) as (k & Hk & _ & Hs).
  specialize (Hs (customers_create p) w Hkey). rewrite provider_eta in Hs.
  rewrite Hs, (with_customer_explicit _ _ _ _ Hk). fold uid.
  by rewrite Hr, Hn, Hc, bool_decide_true, Hf by done.
Qed.

(** What an exchange that the model describes leaves alone. *)
Lemma serve_frame p e req w res w' :
  let userId := CheckoutBody.userId req in
  serve p e req w = Some (res, w') →
  dom (users w') = dom (users w)
  ∧ ∀ uid k, uid ≠ userId ∨ k ≠ "stripeCustomerId" →
             field (users w') uid k = field (users w) uid k.
Proof.
  intros uid Hrun.
  destruct (is_key uid) eqn:Hkey.
  2:{ destruct (serve_shape p e req) as (k & _ & _ & Hs).
      specialize (Hs (customers_create p) w). rewrite provider_eta in Hs.
      rewrite Hs in Hrun. unfold endpoint in Hrun. fold uid in Hrun.
      by rewrite Hkey in Hrun. }
  destruct (serve_run p e req) as (k & Hk & _ & Hs).
  specialize (Hs (customers_create p) w Hkey). rewrite provider_eta in Hs.
  rewrite Hs in Hrun. apply (inj Some) in Hrun.
  apply (f_equal snd) in Hrun. cbn [snd] in Hrun. subst w'. fold uid.
  destruct (with_customer_users (customers_create p) uid k w Hk)
    as [->|(r & c & Hr & _ & _ & _ & ->)]; [done|].
  unfold after_first_use. cbn [users]. split.
  - by eapply dom_after_first_use.
  - intros uid' k' Hne. by apply field_after_first_use.
Qed.

(** On a key the model describes the exchange. *)
Lemma serve_on_key p e req w :
  is_key (CheckoutBody.userId req) = true →
  ∃ res w', serve p e req w = Some (res, w').
Proof.
  intros Hkey. destruct (serve_run p e req) as (k & _ & _ & Hs).
  specialize (Hs (customers_create p) w Hkey). rewrite provider_eta in Hs.
  eauto.
Qed.

(** X16. Frame.  For a [userId] that is a single database key (not empty,
    without [/ . # $ [ ]] and control characters), whatever the provider
    and the database do, an exchange neither adds nor removes a user, and
    changes no child of any user other than [stripeCustomerId] of the user
    named in the request.  (Another [userId] names a location that is not a
    child of [users]; the model does not describe that exchange.) *)
Theorem only_customer_id_written p e req w :
  let userId := CheckoutBody.userId req in
  is_key userId = true →
  ∃ res w',
    serve p e req w = Some (res, w')
    ∧ dom (users w') = dom (users w)
    ∧ ∀ uid k, uid ≠ userId ∨ k ≠ "stripeCustomerId" →
               field (users w') uid k = field (users w) uid k.
Proof.
  intros userId Hkey.
  destruct (serve_on_key p e req w Hkey) as (res & w' & Hrun).
  exists res, w'. split; [done|]. by eapply serve_frame.
Qed.

(** X17. The effect on the store is the same on all four endpoints: they
    differ in what they ask of the provider and in what they answer, never
    in what they read or write. *)
Theorem store_effect_shared p e e' req w :
  snd <$> serve p e req w = snd <$> serve p e' req w.
Proof.
  destruct (serve_shape p e req) as (k & Hk & _ & Hs).
  destruct (serve_shape p e' req) as (k' & Hk' & _ & Hs').
  specialize (Hs (customers_create p) w). rewrite provider_eta in Hs.
  specialize (Hs' (customers_create p) w). rewrite provider_eta in Hs'.
  rewrite Hs, Hs'. unfold endpoint.
  destruct (is_key (CheckoutBody.userId req)); [|done]. cbn. f_equal.
  transitivity (with_customer (customers_create p) (CheckoutBody.userId req) k w).2;
    [by destruct (with_customer _ _ k w) as [[?|?] ?]|].
  transitivity (with_customer (customers_create p) (CheckoutBody.userId req) k' w).2;
    [|by destruct (with_customer _ _ k' w) as [[?|?] ?]].
  rewrite !with_customer_explicit by done.
  destruct (faults w) as [|[err|] fs]; [|done|];
    (destruct (users w !! _) as [r|]; [|done]);
    (case_bool_decide; [|done]);
    (destruct (stored_customer r); [done|]);
    (destruct (customers_create p _); [done|]);
    cbn [tail]; try done; by destruct fs as [|[err|] fs'].
Qed.

(** The answers of an exchange that the model describes. *)
Lemma serve_statuses p e req w res w' :
  let userId := CheckoutBody.userId req in
  serve p e req w = Some (res, w') →
  (api_status res = 200%Z
   ∧ ∃ r, users w' !! userId = Some r ∧ is_Some (r !! "stripeCustomerId"))
  ∨ (api_status res = 404%Z
     ∧ users w' = users w
     ∧ snapshot_present (users w !! userId) = false)
  ∨ api_status res = 500%Z.
Proof.
  intros uid Hrun.
  destruct (is_key uid) eqn:Hkey.
  2:{ destruct (serve_shape p e req) as (k & _ & _ & Hs).
      specialize (Hs (customers_create p) w). rewrite provider_eta in Hs.
      rewrite Hs in Hrun. unfold endpoint in Hrun. fold uid in Hrun.
      by rewrite Hkey in Hrun. }
  destruct (serve_run p e req) as (k & Hk & H200 & Hs).
  specialize (Hs (customers_create p) w Hkey). rewrite provider_eta in Hs.
  rewrite Hs, (with_customer_explicit _ _ _ _ Hk) in Hrun.
  apply (inj Some) in Hrun. fold uid in Hrun.
  assert (∀ n w0 res0,
            match (k n w0).1 with
            | inr res => res
            | inl error => ApiResponse 500 (failure_body e error)
            end = res0 →
            api_status res0 = 200%Z ∨ api_status res0 = 500%Z) as Hst.
  { intros n w0 res0 <-. destruct (k n w0).1 eqn:Hk1; [by right|].
    left. by eapply H200. }
  destruct (faults w) as [|[err|] fs];
    [|injection Hrun as <- <-; by right; right|];
    (destruct (users w !! uid) as [r|] eqn:Hr;
       [|injection Hrun as <- <-; by right; left]);
    (case_bool_decide as Hne;
       [|injection Hrun as <- <-; right; left; split_and!; [done..|];
         cbn [snapshot_present]; apply bool_decide_eq_false; tauto]);
    (destruct (stored_customer r) as [n|] eqn:Hn;
       [cbn [fst snd] in Hrun; injection Hrun as Hres <-;
        destruct (Hst _ _ _ Hres) as [?|?];
          [left; split; [done|]; exists r; split; [done|];
           unfold stored_customer in Hn;
           destruct (r !! "stripeCustomerId"); [by eexists|done]
          |by right; right]|]);
    (destruct (customers_create p _) as [err|c];
       [injection Hrun as <- <-; by right; right|]);
    cbn [tail] in Hrun;
    try (destruct fs as [|[err|] fs'];
         [|injection Hrun as <- <-; by right; right|]);
    (cbn [fst snd] in Hrun; injection Hrun as Hres <-;
     destruct (Hst _ _ _ Hres) as [?|?];
       [left; split; [done|]; unfold after_first_use; cbn [users];
        rewrite lookup_insert_eq; eexists; split; [done|];
        rewrite lookup_insert_eq; by eexists
       |by right; right]).
Qed.

(** X18. The answers of an exchange for a [userId] that is a single
    database key.  The status is 200, 404 or 500; after 200 the user named
    in the request has a customer identifier on record; after 404 nothing
    was written and the user read held no value. *)
Theorem answer_statuses p e req w :
  let userId := CheckoutBody.userId req in
  is_key userId = true →
  ∃ res w',
    serve p e req w = Some (res, w')
    ∧ ((api_status res = 200%Z
        ∧ ∃ r, users w' !! userId = Some r ∧ is_Some (r !! "stripeCustomerId"))
       ∨ (api_status res = 404%Z
          ∧ users w' = users w
          ∧ snapshot_present (users w !! userId) = false)
       ∨ api_status res = 500%Z).
Proof.
  intros userId Hkey.
  destruct (serve_on_key p e req w Hkey) as (res & w' & Hrun).
  exists res, w'. split; [done|]. by eapply serve_statuses.
Qed.

Lemma stored_customer_after_first_use (r : record) cid :
  cid ≠ "" →
  stored_customer (<["stripeCustomerId" := str cid]> r) = Some (str cid).
Proof.
  intros Hne. unfold stored_customer. rewrite lookup_insert_eq. cbn.
  destruct (String.eqb cid "") eqn:E; [|done].
  by apply String.eqb_eq in E.
Qed.

(** X19. The second exchange reuses what the first one wrote.  After a
    first use that wrote a non-empty customer identifier, any of the four
    endpoints, with any provider, serves the same user without asking
    [customers.create] and without writing. *)
Theorem second_exchange_reuses p e req w r c :
  let userId := CheckoutBody.userId req in
  let w' := after_first_use userId r (Customer.id c) w in
  is_key userId = true →
  answers_next 2 w →
  users w !! userId = Some r →
  r ≠ ∅ →
  stored_customer r = None →
  customers_create p (customer_params userId r) = inr c →
  Customer.id c ≠ "" →
  (∃ res, serve p e req w = Some (res, w'))
  ∧ ∀ p2 create e2 req2,
      CheckoutBody.userId req2 = userId →
      serve (with_customers_create p2 create) e2 req2 w' = serve p2 e2 req2 w'
      ∧ ∃ res2, serve p2 e2 req2 w' = Some (res2, after_read userId w').
Proof.
  intros uid w' Hkey Ha Hr Hne Hn Hc Hid. split.
  - destruct (serve_first_use p e req w r c Hkey Ha Hr Hne Hn Hc)
      as (res & Hres & _).
    by exists res.
  - intros p2 create e2 req2 Hreq.
    assert (users w' !! CheckoutBody.userId req2
            = Some (<["stripeCustomerId" := str (Customer.id c)]> r)) as Hr'.
    { rewrite Hreq. unfold w', after_first_use. cbn [users].
      by rewrite lookup_insert_eq. }
    assert (is_key (CheckoutBody.userId req2) = true) as Hkey'
      by by rewrite Hreq.
    pose proof (serve_stored p2 create e2 req2 w' _ _ Hkey' Hr'
                  (stored_customer_after_first_use r _ Hid)) as Hs.
    cbn zeta in Hs. by rewrite Hreq in Hs.
Qed.

Lemma first_key_singleton uid (r : record) :
  first_key ({[uid := r]} : gmap string record) = Some uid.
Proof. unfold first_key. by rewrite map_to_list_singleton. Qed.

Lemma matching_after_first_use cid uid (r : record) (us : gmap string record) :
  matching cid us = ∅ →
  first_key (matching cid (<[uid := <["stripeCustomerId" := str cid]> r]> us))
  = Some uid.
Proof.
  intros Hm. unfold matching in *.
  rewrite map_filter_insert_True.
  - rewrite Hm, insert_empty. apply first_key_singleton.
  - cbn [snd]. apply customer_is_true. by rewrite lookup_insert_eq.
Qed.

Lemma has_profile_after_first_use (r : record) cid :
  has_profile r → has_profile (<["stripeCustomerId" := str cid]> r).
Proof.
  unfold has_profile. rewrite !list.Forall_forall. intros Hp k Hin.
  destruct (decide (k = "stripeCustomerId")) as [->|Hne].
  - rewrite lookup_insert_eq. by eexists.
  - rewrite lookup_insert_ne by done. by apply Hp.
Qed.

Lemma has_profile_nonempty (r : record) : has_profile r → r ≠ ∅.
Proof.
  unfold has_profile, profile_keys. intros Hp ->.
  apply Forall_cons_1 in Hp as [[x Hx] _]. by rewrite lookup_empty in Hx.
Qed.

(** X20. Checkout, then the webhook.  The identifier the first use writes
    is the one the webhook of [part_000] looks the user up by.  Let a user
    with a complete profile and no customer identifier check out on a key
    [userId] with no round trip rejected, and let no user be filed under
    the identifier the provider answers.  Then a subscription
    created/updated event for that customer, with a first item, delivered
    next, selects the user who checked out, is acknowledged and stores the
    plan derived from the status. *)
Theorem checkout_then_upsert p e req w r c
    constructEvent secret delivery event subscription priceId :
  let userId := CheckoutBody.userId req in
  let w' := after_first_use userId r (Customer.id c) w in
  is_key userId = true →
  faults w = [] →
  users w !! userId = Some r →
  has_profile r →
  stored_customer r = None →
  customers_create p (customer_params userId r) = inr c →
  matching (Customer.id c) (users w) = ∅ →
  verified constructEvent secret delivery = inr event →
  upsert_of event = Some subscription →
  Subscription.customer subscription = Customer.id c →
  first_price subscription = Some priceId →
  (∃ res, serve p e req w = Some (res, w'))
  ∧ let out := Part000.webhook constructEvent secret delivery w' in
    out.1 = Response 200 received_true
    ∧ field (users out.2) userId "plan"
      = Some (str (derived_plan (Subscription.status subscription))).
Proof.
  intros uid w' Hkey Hf Hr Hp Hn Hc Hm Hv Hup Hcus Hprice. split.
  - assert (answers_next 2 w) as Ha.
    { intros err. rewrite Hf. cbn. apply not_elem_of_nil. }
    destruct (serve_first_use p e req w r c Hkey Ha Hr
                (has_profile_nonempty _ Hp) Hn Hc) as (res & Hres & _).
    by exists res.
  - intros out.
    assert (faults w' = []) as Hf' by (unfold w', after_first_use; cbn; by rewrite Hf).
    assert (first_key (matching (Subscription.customer subscription) (users w'))
            = Some uid) as Hfk.
    { rewrite Hcus. unfold w', after_first_use. cbn [users].
      by apply matching_after_first_use. }
    assert (users w' !! uid
            = Some (<["stripeCustomerId" := str (Customer.id c)]> r)) as Hr'.
    { unfold w', after_first_use. cbn [users]. by rewrite lookup_insert_eq. }
    destruct (Part000_upsert_stored constructEvent secret delivery w' event
                subscription uid _ priceId Hv Hup Hf' Hfk Hr'
                (has_profile_after_first_use _ _ Hp) Hprice)
      as (Hres & Hplan & _).
    by split.
Qed.

(** X21. The checkout of [src/index.ts] and the checkout of [part_001]
    are the same exchange except in the body of a 500 answer. *)
Theorem checkout_revisions_agree p req w res w' :
  api_status res ≠ 500%Z →
  serve p checkout_index_ts req w = Some (res, w')
  ↔ serve p checkout_part_001 req w = Some (res, w').
Proof.
  intros Hst. cbn [serve].
  unfold IndexTs_api.create_checkout_session,
    Part001_api.create_checkout_session, endpoint.
  destruct (is_key (CheckoutBody.userId req)); [|done].
  match goal with
  | |- context [match ?c with _ => _ end] => destruct c as [[err|res0] w0]
  end; [|done].
  split; intros [= <- <-]; by destruct Hst.
Qed.

(** X22. The webhook of [src/index.ts] and of [part_001] has no case for
    the invoice events: every verified event that is not a subscription
    event is acknowledged with nothing read and nothing written. *)
Theorem later_revisions_skip_invoices constructEvent secret req w event :
  verified constructEvent secret req = inr event →
  is_subscription_event event = false →
  IndexTs.webhook constructEvent secret req w = (Response 200 received_true, w)
  ∧ Part001.webhook constructEvent secret req w
    = (Response 200 received_true, w).
Proof.
  unfold verified. intros Hv Hev.
  unfold IndexTs.webhook, IndexTs.webhook_try, Part001.webhook,
    Part001.webhook_try, mbind, M_bind, call.
  rewrite Hv. by destruct event.
Qed.

(** X23. The webhook of [src/index.ts] and of [part_001] has two answers
    only: the acknowledgement, and one fixed error body that carries
    neither the message nor the stack of what was thrown. *)
Theorem later_revisions_two_answers constructEvent secret req w :
  let failure := Response 400 (error_body "Webhook signature verification failed"
                                          "WEBHOOK_SIGNATURE_ERROR" None) in
  (IndexTs.webhook constructEvent secret req w).1
    ∈ [Response 200 received_true; failure]
  ∧ (Part001.webhook constructEvent secret req w).1
    ∈ [Response 200 received_true; failure].
Proof.
  intros failure.
  unfold IndexTs.webhook, IndexTs.webhook_try, Part001.webhook,
    Part001.webhook_try, mbind, M_bind, call.
  destruct (constructEvent _ _ _) as [err|event]; cbn [fst snd].
  - split; apply list_elem_of_further, list_elem_of_here.
  - split.
    + destruct (IndexTs.dispatch event w) as [[err|[]] w']; cbn [fst];
        [apply list_elem_of_further|]; apply list_elem_of_here.
    + destruct (Part001.dispatch event w) as [[err|[]] w']; cbn [fst];
        [apply list_elem_of_further|]; apply list_elem_of_here.
Qed.
(** * The theorems at concrete deliveries *)

Lemma plan_by_revision_witness :
  let d := sample_delivery "trialing" in
  let subscription := sample_subscription "trialing" in
  let event := Event.customer_subscription_updated subscription in
  let fixed := Response 400 (error_body "Webhook signature verification failed"
                                        "WEBHOOK_SIGNATURE_ERROR" None) in
  let handed_bytes := λ text, sample_stripe (raw_bytes text) in
  let plan_after (out : response * world) := field (users out.2) "u1" "plan" in
  (needs_raw sample_stripe
   ∧ sample_parses (body_text d) = true
   ∧ sample_stripe (raw_bytes (body_text d)) (or_empty (signature d))
       (or_empty (Some "whsec")) = inr event
   ∧ upsert_of event = Some subscription
   ∧ first_price subscription = Some "price_pro")
  ∧ (faults sample_world = []
     ∧ first_key (matching (Subscription.customer subscription)
                    (users sample_world)) = Some "u1"
     ∧ users sample_world !! "u1" = Some alice
     ∧ has_profile alice
     ∧ alice !! "plan" = Some (str "free")
     ∧ plan_after (Part000_route sample_stripe (Some "whsec") d sample_world)
       = Some (str "pro")
     ∧ IndexTs_route sample_parses sample_stripe (Some "whsec") d sample_world
       = Some (fixed, sample_world)
     ∧ Part001_route sample_parses sample_stripe (Some "whsec") d sample_world
       = Some (fixed, sample_world))
  ∧ (faults subscriber_world = []
     ∧ first_key (matching (Subscription.customer subscription)
                    (users subscriber_world)) = Some "u1"
     ∧ users subscriber_world !! "u1" = Some subscriber
     ∧ has_profile subscriber
     ∧ subscriber !! "plan" = Some (str "pro")
     ∧ plan_after (IndexTs.webhook handed_bytes (Some "whsec") (received d)
                     subscriber_world) = Some (str "free")
     ∧ plan_after (Part001.webhook handed_bytes (Some "whsec") (received d)
                     subscriber_world) = Some (str "free")).
Proof.
  intros d subscription event fixed handed_bytes plan_after.
  assert (needs_raw sample_stripe) as Hraw
    by (intros text header secret; eexists; reflexivity).
  assert (sample_stripe (raw_bytes (body_text d)) (or_empty (signature d))
            (or_empty (Some "whsec")) = inr event) as Hv by reflexivity.
  assert (first_key (matching (Subscription.customer subscription)
                       (users sample_world)) = Some "u1") as Hfk
    by (vm_compute; reflexivity).
  assert (users sample_world !! "u1" = Some alice) as Hr
    by exact (lookup_singleton_eq _ _).
  assert (has_profile alice) as Hp by by_computation.
  assert (alice !! "plan" = Some (str "free")) as Hfree
    by (vm_compute; reflexivity).
  assert (first_key (matching (Subscription.customer subscription)
                       (users subscriber_world)) = Some "u1") as Hfk'
    by (vm_compute; reflexivity).
  assert (users subscriber_world !! "u1" = Some subscriber) as Hr'
    by exact (lookup_singleton_eq _ _).
  assert (has_profile subscriber) as Hp' by by_computation.
  assert (subscriber !! "plan" = Some (str "pro")) as Hpro
    by exact (lookup_insert_eq _ _ _).
  destruct (plan_by_revision sample_parses sample_stripe (Some "whsec") d
              sample_world event subscription "u1" alice "price_pro"
              Hraw eq_refl Hv eq_refl eq_refl Hfk Hr Hp eq_refl)
    as (H0 & Hix & H001 & _ & _).
  destruct (plan_by_revision sample_parses sample_stripe (Some "whsec") d
              subscriber_world event subscription "u1" subscriber "price_pro"
              Hraw eq_refl Hv eq_refl eq_refl Hfk' Hr' Hp' eq_refl)
    as (_ & _ & _ & Hix' & H001').
  exact (conj (conj Hraw (conj eq_refl (conj Hv (conj eq_refl eq_refl))))
           (conj (conj eq_refl (conj Hfk (conj Hr (conj Hp (conj Hfree
                    (conj H0 (conj Hix H001)))))))
                 (conj eq_refl (conj Hfk' (conj Hr' (conj Hp' (conj Hpro
                    (conj Hix' H001')))))))).
Defined.

Lemma field_preservation_witness :
  let event := Event.customer_subscription_updated (sample_subscription "trialing") in
  verified sample_verifier (Some "whsec") (signed "trialing") = inr event
  ∧ ("email" ∉ mutation_column event)
  ∧ field (users (Part000.webhook sample_verifier (Some "whsec")
                    (signed "trialing") sample_world).2) "u1" "email"
    = field (users sample_world) "u1" "email"
  ∧ field (users (IndexTs.webhook sample_verifier (Some "whsec")
                    (signed "trialing") sample_world).2) "u1" "email"
    = field (users sample_world) "u1" "email"
  ∧ field (users (Part001.webhook sample_verifier (Some "whsec")
                    (signed "trialing") sample_world).2) "u1" "email"
    = field (users sample_world) "u1" "email".
Proof.
  intros event.
  assert (verified sample_verifier (Some "whsec") (signed "trialing") = inr event)
    as Hv by reflexivity.
  assert ("email" ∉ mutation_column event) as Hk by by_computation.
  exact (conj Hv (conj Hk
           (field_preservation sample_verifier (Some "whsec") (signed "trialing")
              event sample_world "u1" "email" Hv Hk))).
Defined.

Lemma redelivery_idempotent_witness :
  faults sample_world = []
  ∧ users (Part000.webhook sample_verifier (Some "whsec") (signed "trialing")
             (Part000.webhook sample_verifier (Some "whsec") (signed "trialing")
                sample_world).2).2
    = users (Part000.webhook sample_verifier (Some "whsec") (signed "trialing")
               sample_world).2.
Proof.
  split; [reflexivity|].
  apply (redelivery_idempotent sample_verifier (Some "whsec") (signed "trialing")
           sample_world).
  reflexivity.
Defined.

Lemma unmatched_customer_witness :
  let event := Event.customer_subscription_updated
                 (Subscription.Build "sub_9" "cus_404" "active"
                    (Some (ApiList.Build
                             [SubscriptionItem.Build (Price.Build "price_pro")]))
                    1700000000 false None) in
  let out := Part000.webhook sample_verifier (Some "whsec") (signed "orphan")
               sample_world in
  verified sample_verifier (Some "whsec") (signed "orphan") = inr event
  ∧ event_customer event = Some "cus_404"
  ∧ answers sample_world
  ∧ matching "cus_404" (users sample_world) = ∅
  ∧ users out.2 = users sample_world
  ∧ status out.1 = 400%Z
  ∧ error_code out.1 = Some "WEBHOOK_SIGNATURE_ERROR"
  ∧ error_message out.1 = Some "No user found for customer".
Proof.
  intros event out.
  assert (verified sample_verifier (Some "whsec") (signed "orphan") = inr event)
    as Hv by reflexivity.
  assert (event_customer event = Some "cus_404") as Hc by reflexivity.
  assert (answers sample_world) as Ha by exact I.
  assert (matching "cus_404" (users sample_world) = ∅) as He
    by (vm_compute; reflexivity).
  pose proof (unmatched_customer sample_verifier (Some "whsec") (signed "orphan")
                sample_world event "cus_404" Hv Hc Ha He) as [Hu Hres].
  exact (conj Hv (conj Hc (conj Ha (conj He (conj Hu Hres))))).
Defined.

Lemma payment_failed_downgrades_witness :
  let create := sample_invoice (Some "subscription_create") in
  let renewal := sample_invoice (Some "subscription_cycle") in
  let out := Part000.webhook sample_verifier (Some "whsec") (signed "failed")
               subscriber_world in
  (verified sample_verifier (Some "whsec") (signed "failed")
     = inr (Event.invoice_payment_failed create)
   ∧ Invoice.billing_reason create = Some "subscription_create"
   ∧ faults subscriber_world = []
   ∧ first_key (matching (Invoice.customer create) (users subscriber_world))
     = Some "u1"
   ∧ field (users subscriber_world) "u1" "plan" = Some (str "pro")
   ∧ is_Some (field (users subscriber_world) "u1" "subscription")
   ∧ out.1 = Response 200 received_true
   ∧ field (users out.2) "u1" "plan" = Some (str "free")
   ∧ field (users out.2) "u1" "subscription" = None)
  ∧ (verified sample_verifier (Some "whsec") (signed "failed_renewal")
       = inr (Event.invoice_payment_failed renewal)
     ∧ Invoice.billing_reason renewal ≠ Some "subscription_create"
     ∧ Part000.webhook sample_verifier (Some "whsec") (signed "failed_renewal")
         subscriber_world
       = (Response 200 received_true, subscriber_world)).
Proof.
  intros create renewal out. split.
  - assert (verified sample_verifier (Some "whsec") (signed "failed")
            = inr (Event.invoice_payment_failed create)) as Hv by reflexivity.
    assert (first_key (matching (Invoice.customer create) (users subscriber_world))
            = Some "u1") as Hfk by (vm_compute; reflexivity).
    assert (field (users subscriber_world) "u1" "plan" = Some (str "pro"))
      as Hpro by (vm_compute; reflexivity).
    assert (is_Some (field (users subscriber_world) "u1" "subscription"))
      as Hsub by (vm_compute; eexists; reflexivity).
    pose proof (proj1 (payment_failed_downgrades sample_verifier (Some "whsec")
                         (signed "failed") subscriber_world create Hv)
                  "u1" eq_refl eq_refl Hfk) as H.
    exact (conj Hv (conj eq_refl (conj eq_refl (conj Hfk (conj Hpro
             (conj Hsub H)))))).
  - assert (verified sample_verifier (Some "whsec") (signed "failed_renewal")
            = inr (Event.invoice_payment_failed renewal)) as Hv by reflexivity.
    assert (Invoice.billing_reason renewal ≠ Some "subscription_create") as Hne
      by (intros H; vm_compute in H; discriminate H).
    exact (conj Hv (conj Hne
             (proj2 (payment_failed_downgrades sample_verifier (Some "whsec")
                       (signed "failed_renewal") subscriber_world renewal Hv)
                Hne))).
Defined.

Lemma store_failure_is_client_error_witness :
  let w := World sample_users [None; Some store_unavailable] [] in
  let out := Part000.webhook sample_verifier (Some "whsec") (signed "active") w in
  let out1 := IndexTs.webhook sample_verifier (Some "whsec") (signed "active") w in
  let w3 := World sample_users [None; None; Some store_unavailable] [] in
  let paid := Part000.webhook sample_verifier (Some "whsec") (signed "paid") w3 in
  (Some store_unavailable ∈ met w out.2
   ∧ out.1 = Part000.on_error store_unavailable
   ∧ client_error out.1
   ∧ users out.2 = users w)
  ∧ (Some store_unavailable ∈ met w out1.2
     ∧ out1.1 = IndexTs.on_error store_unavailable
     ∧ client_error out1.1
     ∧ users out1.2 = users w)
  ∧ (Some store_unavailable ∈ met w3 paid.2
     ∧ paid.1 = Response 200 received_true
     ∧ met w3 paid.2 = [None; None; Some store_unavailable]).
Proof.
  intros w out out1 w3 paid.
  assert (met w out.2 = [None; Some store_unavailable]) as Hmet
    by (vm_compute; reflexivity).
  assert (met w out1.2 = [None; Some store_unavailable]) as Hmet1
    by (vm_compute; reflexivity).
  assert (met w3 paid.2 = [None; None; Some store_unavailable]) as Hmet3
    by (vm_compute; reflexivity).
  assert (Some store_unavailable ∈ met w out.2) as Hin
    by (rewrite Hmet; solve_elem_of).
  assert (Some store_unavailable ∈ met w out1.2) as Hin1
    by (rewrite Hmet1; solve_elem_of).
  assert (Some store_unavailable ∈ met w3 paid.2) as Hin3
    by (rewrite Hmet3; solve_elem_of).
  split_and!; try assumption.
  - destruct (proj1 (proj2 (proj2 (store_failure_is_client_error sample_verifier
                (Some "whsec") (signed "active") w))) _ Hin)
      as [(H & _)|(invoice & H & _)]; [exact H|].
    vm_compute in H. discriminate H.
  - destruct (proj1 (proj2 (proj2 (store_failure_is_client_error sample_verifier
                (Some "whsec") (signed "active") w))) _ Hin)
      as [(_ & H & _)|(invoice & H & _)]; [exact H|].
    vm_compute in H. discriminate H.
  - destruct (proj1 (proj2 (proj2 (store_failure_is_client_error sample_verifier
                (Some "whsec") (signed "active") w))) _ Hin)
      as [(_ & _ & H)|(invoice & H & _)]; [exact H|].
    vm_compute in H. discriminate H.
  - exact (proj1 (proj2 (proj2 (proj2 (store_failure_is_client_error
             sample_verifier (Some "whsec") (signed "active") w))) _ Hin1)).
  - exact (proj1 (proj2 (proj2 (proj2 (proj2 (store_failure_is_client_error
             sample_verifier (Some "whsec") (signed "active") w))) _ Hin1))).
  - exact (proj2 (proj2 (proj2 (proj2 (proj2 (store_failure_is_client_error
             sample_verifier (Some "whsec") (signed "active") w))) _ Hin1))).
  - destruct (proj1 (proj2 (proj2 (store_failure_is_client_error sample_verifier
                (Some "whsec") (signed "paid") w3))) _ Hin3)
      as [(H & _)|(invoice & _ & H & _)]; [|exact H].
    vm_compute in H. discriminate H.
Defined.

Lemma signature_failure_short_circuits_witness :
  let req := Request "active" (Some "forged") in
  let err := JsError "No signatures found matching the expected signature for payload"
                     "StripeSignatureVerificationError" in
  verified sample_verifier (Some "whsec") req = inl err
  ∧ Part000.webhook sample_verifier (Some "whsec") req sample_world
    = (Part000.on_error err, sample_world)
  ∧ status (Part000.on_error err) = 400%Z
  ∧ error_code (Part000.on_error err) = Some "WEBHOOK_SIGNATURE_ERROR".
Proof.
  intros req err.
  assert (verified sample_verifier (Some "whsec") req = inl err) as Hv
    by reflexivity.
  exact (conj Hv (signature_failure_short_circuits sample_verifier (Some "whsec")
                    req sample_world err Hv)).
Defined.

Lemma price_from_first_item_witness :
  let bare := Subscription.Build "sub_1" "cus_1" "active"
                (Some (ApiList.Build [])) 1700000000 false None in
  let full := sample_subscription "trialing" in
  let out1 := Part000.webhook sample_verifier (Some "whsec") (signed "no_items")
                sample_world in
  let out2 := Part000.webhook sample_verifier (Some "whsec") (signed "trialing")
                sample_world in
  (verified sample_verifier (Some "whsec") (signed "no_items")
     = inr (Event.customer_subscription_created bare)
   ∧ status out1.1 = 400%Z
   ∧ error_code out1.1 = Some "WEBHOOK_SIGNATURE_ERROR"
   ∧ users out1.2 = users sample_world)
  ∧ (verified sample_verifier (Some "whsec") (signed "trialing")
       = inr (Event.customer_subscription_updated full)
     ∧ has_profile alice
     ∧ out2.1 = Response 200 received_true
     ∧ ∃ kids, field (users out2.2) "u1" "subscription" = Some (Obj kids)
               ∧ kids !! "priceId" = Some (str "price_pro")).
Proof.
  intros bare full out1 out2. split.
  - assert (verified sample_verifier (Some "whsec") (signed "no_items")
            = inr (Event.customer_subscription_created bare)) as Hv
      by reflexivity.
    exact (conj Hv
             (proj1 (price_from_first_item sample_verifier (Some "whsec")
                       (signed "no_items") sample_world _ bare Hv eq_refl)
                (or_intror (ex_intro _ (ApiList.Build [])
                              (conj eq_refl eq_refl))))).
  - assert (verified sample_verifier (Some "whsec") (signed "trialing")
            = inr (Event.customer_subscription_updated full)) as Hv
      by reflexivity.
    assert (has_profile alice) as Hp by by_computation.
    assert (first_key (matching (Subscription.customer full) (users sample_world))
            = Some "u1") as Hfk by (vm_compute; reflexivity).
    assert (users sample_world !! "u1" = Some alice) as Hr
      by (vm_compute; reflexivity).
    exact (conj Hv (conj Hp
             (proj2 (price_from_first_item sample_verifier (Some "whsec")
                       (signed "trialing") sample_world _ full Hv eq_refl)
                _ (SubscriptionItem.Build (Price.Build "price_pro")) []
                "u1" alice eq_refl eq_refl eq_refl Hfk Hr Hp))).
Defined.

Lemma unknown_event_passthrough_witness :
  verified sample_verifier (Some "whsec") (signed "charge.succeeded")
    = inr (Event.other "charge.succeeded")
  ∧ ("charge.succeeded" ∉ recognized_types)
  ∧ Part000.webhook sample_verifier (Some "whsec") (signed "charge.succeeded")
      sample_world
    = (Response 200 received_true, sample_world).
Proof.
  assert (verified sample_verifier (Some "whsec") (signed "charge.succeeded")
          = inr (Event.other "charge.succeeded")) as Hv by reflexivity.
  assert (Event.type (Event.other "charge.succeeded") ∉ recognized_types) as Ht
    by by_computation.
  exact (conj Hv (conj Ht
           (unknown_event_passthrough sample_verifier (Some "whsec")
              (signed "charge.succeeded") sample_world _ Hv Ht))).
Defined.

Lemma plan_within_enum_witness :
  let upsert := users (Part000.webhook sample_verifier (Some "whsec")
                         (signed "trialing") sample_world).2 in
  let paid := users (Part000.webhook sample_verifier (Some "whsec")
                       (signed "paid") gold_world).2 in
  (upsert !! "u1" ≠ users sample_world !! "u1"
   ∧ in_enum (field upsert "u1" "plan"))
  ∧ (paid !! "u1" ≠ users gold_world !! "u1"
     ∧ field paid "u1" "plan" = field (users gold_world) "u1" "plan").
Proof.
  intros upsert paid. split.
  - assert (upsert !! "u1" ≠ users sample_world !! "u1") as Hne.
    { intros H. apply (f_equal (λ o, o ≫= (.!! "plan"))) in H.
      vm_compute in H. discriminate H. }
    destruct (plan_within_enum sample_verifier (Some "whsec") (signed "trialing")
                sample_world "u1" Hne) as [[_ H]|[[invoice H] _]].
    + exact (conj Hne H).
    + vm_compute in H. discriminate H.
  - assert (paid !! "u1" ≠ users gold_world !! "u1") as Hne.
    { intros H. apply (f_equal (λ o, o ≫= (.!! "invoices"))) in H.
      vm_compute in H. discriminate H. }
    destruct (plan_within_enum sample_verifier (Some "whsec") (signed "paid")
                gold_world "u1" Hne) as [[Hnot _]|[_ H]].
    + destruct Hnot. eexists. reflexivity.
    + exact (conj Hne H).
Defined.

(** * The further theorems at concrete deliveries and exchanges *)

Lemma invoice_recorded_witness :
  let invoice := sample_invoice (Some "subscription_cycle") in
  let out := Part000.webhook sample_verifier (Some "whsec") (signed "paid")
               sample_world in
  verified sample_verifier (Some "whsec") (signed "paid")
    = inr (Event.invoice_paid invoice)
  ∧ answers_next 2 sample_world
  ∧ first_key (matching (Invoice.customer invoice) (users sample_world))
    = Some "u1"
  ∧ is_key (Invoice.id invoice) = true
  ∧ is_undefined (Invoice.hosted_invoice_url invoice) = false
  ∧ is_undefined (Invoice.invoice_pdf invoice) = false
  ∧ out.1 = Response 200 received_true
  ∧ ∃ data, invoice_data invoice = JNode (Obj data)
      ∧ invoices_of (users out.2) "u1"
        = <[Invoice.id invoice := Obj data]> (invoices_of (users sample_world) "u1")
      ∧ data !! "status" = str <$> Invoice.status invoice
      ∧ data !! "currency" = Some (str (Invoice.currency invoice))
      ∧ data !! "amountPaid" = Some (num (Invoice.amount_paid invoice))
      ∧ data !! "created" = Some (num (Invoice.created invoice)).
Proof.
  intros invoice out.
  assert (verified sample_verifier (Some "whsec") (signed "paid")
          = inr (Event.invoice_paid invoice)) as Hv by reflexivity.
  assert (answers_next 2 sample_world) as Ha
    by (intros e; cbn; apply not_elem_of_nil).
  assert (first_key (matching (Invoice.customer invoice) (users sample_world))
          = Some "u1") as Hfk by (vm_compute; reflexivity).
  assert (is_key (Invoice.id invoice) = true) as Hkey by reflexivity.
  exact (conj Hv (conj Ha (conj Hfk (conj Hkey (conj eq_refl (conj eq_refl
           (invoice_recorded sample_verifier (Some "whsec") (signed "paid")
              sample_world invoice "u1" Hv Ha Hfk Hkey eq_refl eq_refl))))))).
Defined.

Lemma incomplete_profile_refused_witness :
  let event := Event.customer_subscription_created (sample_subscription "active") in
  let after := World (users guest_world) [] [Query "cus_1"; Read "u1"] in
  let out0 := Part000.webhook sample_verifier (Some "whsec") (signed "active")
                guest_world in
  let out1 := IndexTs.webhook sample_verifier (Some "whsec") (signed "active")
                guest_world in
  verified sample_verifier (Some "whsec") (signed "active") = inr event
  ∧ is_subscription_event event = true
  ∧ event_customer event = Some "cus_1"
  ∧ answers_next 2 guest_world
  ∧ first_key (matching "cus_1" (users guest_world)) = Some "u1"
  ∧ users guest_world !! "u1" = Some guest
  ∧ ¬ has_profile guest
  ∧ (status out0.1 = 400%Z ∧ out0.2 = after)
  ∧ (status out1.1 = 400%Z ∧ out1.2 = after).
Proof.
  intros event after out0 out1.
  assert (verified sample_verifier (Some "whsec") (signed "active") = inr event)
    as Hv by reflexivity.
  assert (answers_next 2 guest_world) as Ha
    by (intros e; cbn; apply not_elem_of_nil).
  assert (first_key (matching "cus_1" (users guest_world)) = Some "u1") as Hfk
    by (vm_compute; reflexivity).
  assert (users guest_world !! "u1" = Some guest) as Hr
    by exact (lookup_singleton_eq _ _).
  assert (¬ has_profile guest) as Hp by by_computation.
  exact (conj Hv (conj eq_refl (conj eq_refl (conj Ha (conj Hfk (conj Hr (conj Hp
           (incomplete_profile_refused sample_verifier (Some "whsec")
              (signed "active") guest_world event "cus_1" "u1" guest
              Hv eq_refl eq_refl Ha Hfk Hr Hp)))))))).
Defined.

Lemma spread_upsert_stored_witness :
  let subscription := sample_subscription "trialing" in
  let event := Event.customer_subscription_updated subscription in
  let out := Part001.webhook sample_verifier (Some "whsec") (signed "trialing")
               guest_world in
  verified sample_verifier (Some "whsec") (signed "trialing") = inr event
  ∧ upsert_of event = Some subscription
  ∧ faults guest_world = []
  ∧ first_key (matching (Subscription.customer subscription) (users guest_world))
    = Some "u1"
  ∧ first_price subscription = Some "price_pro"
  ∧ out.1 = Response 200 received_true
  ∧ field (users out.2) "u1" "plan" = Some (str "free").
Proof.
  intros subscription event out.
  assert (verified sample_verifier (Some "whsec") (signed "trialing") = inr event)
    as Hv by reflexivity.
  assert (first_key (matching (Subscription.customer subscription)
                       (users guest_world)) = Some "u1") as Hfk
    by (vm_compute; reflexivity).
  destruct (spread_upsert_stored sample_verifier (Some "whsec")
              (signed "trialing") guest_world event subscription "u1" "price_pro"
              Hv eq_refl eq_refl Hfk eq_refl) as (Hres & Hplan & _).
  exact (conj Hv (conj eq_refl (conj eq_refl (conj Hfk (conj eq_refl
           (conj Hres Hplan)))))).
Defined.


Lemma deletion_downgrades_witness :
  let subscription := sample_subscription "canceled" in
  let out0 := Part000.webhook sample_verifier (Some "whsec") (signed "deleted")
                subscriber_world in
  let out1 := IndexTs.webhook sample_verifier (Some "whsec") (signed "deleted")
                subscriber_world in
  verified sample_verifier (Some "whsec") (signed "deleted")
    = inr (Event.customer_subscription_deleted subscription)
  ∧ faults subscriber_world = []
  ∧ first_key (matching (Subscription.customer subscription)
                 (users subscriber_world)) = Some "u1"
  ∧ users subscriber_world !! "u1" = Some subscriber
  ∧ has_profile subscriber
  ∧ subscriber !! "plan" = Some (str "pro")
  ∧ is_Some (subscriber !! "subscription")
  ∧ (out0.1 = Response 200 received_true
     ∧ field (users out0.2) "u1" "plan" = Some (str "free")
     ∧ field (users out0.2) "u1" "subscription" = None)
  ∧ (out1.1 = Response 200 received_true
     ∧ field (users out1.2) "u1" "plan" = Some (str "free")
     ∧ field (users out1.2) "u1" "subscription" = None).
Proof.
  intros subscription out0 out1.
  assert (verified sample_verifier (Some "whsec") (signed "deleted")
          = inr (Event.customer_subscription_deleted subscription)) as Hv
    by reflexivity.
  assert (first_key (matching (Subscription.customer subscription)
                       (users subscriber_world)) = Some "u1") as Hfk
    by (vm_compute; reflexivity).
  assert (users subscriber_world !! "u1" = Some subscriber) as Hr
    by exact (lookup_singleton_eq _ _).
  assert (has_profile subscriber) as Hp by by_computation.
  assert (subscriber !! "plan" = Some (str "pro")) as Hpro
    by exact (lookup_insert_eq _ _ _).
  assert (is_Some (subscriber !! "subscription")) as Hsub
    by (vm_compute; eexists; reflexivity).
  exact (conj Hv (conj eq_refl (conj Hfk (conj Hr (conj Hp (conj Hpro (conj Hsub
           (deletion_downgrades sample_verifier (Some "whsec") (signed "deleted")
              subscriber_world subscription "u1" subscriber
              Hv eq_refl Hfk Hr Hp)))))))).
Defined.


Lemma unknown_user_not_found_witness :
  let req := CheckoutBody.Build "ghost" "https://app.example/billing" in
  is_key "ghost" = true
  ∧ answers sample_store
  ∧ snapshot_present (users sample_store !! "ghost") = false
  ∧ serve sample_provider payment_intent_part_001 req sample_store
    = Some (ApiResponse 404 (error_text "User not found"),
            after_read "ghost" sample_store).
Proof.
  intros req.
  assert (is_key "ghost" = true) as Hkey by reflexivity.
  assert (snapshot_present (users sample_store !! "ghost") = false) as Hp
    by (vm_compute; reflexivity).
  exact (conj Hkey (conj I (conj Hp
           (unknown_user_not_found sample_provider payment_intent_part_001 req
              sample_store Hkey I Hp)))).
Defined.

Lemma stored_customer_reused_witness :
  let req := CheckoutBody.Build "u1" "https://app.example/billing" in
  let down : CustomerParams.t → exn + Customer.t := λ _, inl provider_down in
  is_key "u1" = true
  ∧ users sample_store !! "u1" = Some alice
  ∧ stored_customer alice = Some (str "cus_1")
  ∧ serve (with_customers_create sample_provider down) checkout_part_000 req
      sample_store
    = serve sample_provider checkout_part_000 req sample_store
  ∧ ∃ res, serve sample_provider checkout_part_000 req sample_store
           = Some (res, after_read "u1" sample_store).
Proof.
  intros req down.
  assert (is_key "u1" = true) as Hkey by reflexivity.
  assert (users sample_store !! "u1" = Some alice) as Hr
    by exact (lookup_insert_eq _ _ _).
  assert (stored_customer alice = Some (str "cus_1")) as Hn
    by (vm_compute; reflexivity).
  exact (conj Hkey (conj Hr (conj Hn
           (stored_customer_reused sample_provider down checkout_part_000 req
              sample_store alice (str "cus_1") Hkey Hr Hn)))).
Defined.

Lemma first_use_saves_customer_witness :
  is_key "u2" = true
  ∧ answers_next 2 sample_store
  ∧ users sample_store !! "u2" = Some bob
  ∧ bob ≠ ∅
  ∧ stored_customer bob = None
  ∧ customers_create sample_provider (customer_params "u2" bob)
    = inr (Customer.Build "cus_u2")
  ∧ ∃ res, serve sample_provider checkout_index_ts sample_checkout sample_store
           = Some (res, after_first_use "u2" bob "cus_u2" sample_store)
           ∧ (api_status res = 200%Z ∨ api_status res = 500%Z).
Proof.
  assert (is_key "u2" = true) as Hkey by reflexivity.
  assert (answers_next 2 sample_store) as Ha
    by (intros e; cbn; apply not_elem_of_nil).
  assert (users sample_store !! "u2" = Some bob) as Hr.
  { unfold sample_store. cbn [users].
    rewrite lookup_insert_ne by (intros H; discriminate H).
    apply lookup_singleton_eq. }
  assert (bob ≠ ∅) as Hne.
  { intros H. apply (f_equal (λ m : record, m !! "uid")) in H.
    vm_compute in H. discriminate H. }
  assert (stored_customer bob = None) as Hn by (vm_compute; reflexivity).
  exact (conj Hkey (conj Ha (conj Hr (conj Hne (conj Hn (conj eq_refl
           (first_use_saves_customer sample_provider checkout_index_ts
              sample_checkout sample_store bob (Customer.Build "cus_u2")
              Hkey Ha Hr Hne Hn eq_refl))))))).
Defined.

Lemma customer_creation_failure_witness :
  let p := with_customers_create sample_provider (λ _, inl provider_down) in
  is_key "u2" = true
  ∧ answers sample_store
  ∧ users sample_store !! "u2" = Some bob
  ∧ bob ≠ ∅
  ∧ stored_customer bob = None
  ∧ customers_create p (customer_params "u2" bob) = inl provider_down
  ∧ serve p checkout_part_001 sample_checkout sample_store
    = Some (ApiResponse 500 (error_text "Failed to create checkout session"),
            after_read "u2" sample_store).
Proof.
  intros p.
  assert (is_key "u2" = true) as Hkey by reflexivity.
  assert (users sample_store !! "u2" = Some bob) as Hr.
  { unfold sample_store. cbn [users].
    rewrite lookup_insert_ne by (intros H; discriminate H).
    apply lookup_singleton_eq. }
  assert (bob ≠ ∅) as Hne.
  { intros H. apply (f_equal (λ m : record, m !! "uid")) in H.
    vm_compute in H. discriminate H. }
  assert (stored_customer bob = None) as Hn by (vm_compute; reflexivity).
  exact (conj Hkey (conj I (conj Hr (conj Hne (conj Hn (conj eq_refl
           (customer_creation_failure p checkout_part_001 sample_checkout
              sample_store bob provider_down Hkey I Hr Hne Hn eq_refl))))))).
Defined.

Lemma read_failure_is_server_error_witness :
  let w := World (users sample_store) [Some store_unavailable] [] in
  is_key "u2" = true
  ∧ faults w = [Some store_unavailable]
  ∧ serve sample_provider checkout_part_000 sample_checkout w
    = Some (ApiResponse 500 (error_thrown store_unavailable), after_read "u2" w).
Proof.
  intros w.
  assert (is_key "u2" = true) as Hkey by reflexivity.
  exact (conj Hkey (conj eq_refl
           (read_failure_is_server_error sample_provider checkout_part_000
              sample_checkout w store_unavailable [] Hkey eq_refl))).
Defined.

Lemma unsaved_customer_witness :
  let w := World (users sample_store) [None; Some store_unavailable] [] in
  is_key "u2" = true
  ∧ faults w = [None; Some store_unavailable]
  ∧ users w !! "u2" = Some bob
  ∧ bob ≠ ∅
  ∧ stored_customer bob = None
  ∧ customers_create sample_provider (customer_params "u2" bob)
    = inr (Customer.Build "cus_u2")
  ∧ serve sample_provider payment_intent_part_001 sample_checkout w
    = Some (ApiResponse 500 (error_text "Failed to create payment intent"),
            World (users w) [] [Read "u2"; Update "u2"]).
Proof.
  intros w.
  assert (is_key "u2" = true) as Hkey by reflexivity.
  assert (users w !! "u2" = Some bob) as Hr.
  { unfold w, sample_store. cbn [users].
    rewrite lookup_insert_ne by (intros H; discriminate H).
    apply lookup_singleton_eq. }
  assert (bob ≠ ∅) as Hne.
  { intros H. apply (f_equal (λ m : record, m !! "uid")) in H.
    vm_compute in H. discriminate H. }
  assert (stored_customer bob = None) as Hn by (vm_compute; reflexivity).
  exact (conj Hkey (conj eq_refl (conj Hr (conj Hne (conj Hn (conj eq_refl
           (unsaved_customer sample_provider payment_intent_part_001
              sample_checkout w bob (Customer.Build "cus_u2") store_unavailable []
              Hkey eq_refl Hr Hne Hn eq_refl))))))).
Defined.

Lemma only_customer_id_written_witness :
  is_key "u2" = true
  ∧ ∃ res w',
      serve sample_provider checkout_part_000 sample_checkout sample_store
        = Some (res, w')
      ∧ dom (users w') = dom (users sample_store)
      ∧ ∀ uid k, uid ≠ "u2" ∨ k ≠ "stripeCustomerId" →
                 field (users w') uid k = field (users sample_store) uid k.
Proof.
  assert (is_key "u2" = true) as Hkey by reflexivity.
  exact (conj Hkey
           (only_customer_id_written sample_provider checkout_part_000
              sample_checkout sample_store Hkey)).
Defined.

Lemma answer_statuses_witness :
  is_key "u2" = true
  ∧ ∃ res w',
      serve sample_provider payment_intent_part_001 sample_checkout sample_store
        = Some (res, w')
      ∧ ((api_status res = 200%Z
          ∧ ∃ r, users w' !! "u2" = Some r ∧ is_Some (r !! "stripeCustomerId"))
         ∨ (api_status res = 404%Z
            ∧ users w' = users sample_store
            ∧ snapshot_present (users sample_store !! "u2") = false)
         ∨ api_status res = 500%Z).
Proof.
  assert (is_key "u2" = true) as Hkey by reflexivity.
  exact (conj Hkey
           (answer_statuses sample_provider payment_intent_part_001
              sample_checkout sample_store Hkey)).
Defined.

Lemma second_exchange_reuses_witness :
  let w' := after_first_use "u2" bob "cus_u2" sample_store in
  let down : CustomerParams.t → exn + Customer.t := λ _, inl provider_down in
  is_key "u2" = true
  ∧ answers_next 2 sample_store
  ∧ users sample_store !! "u2" = Some bob
  ∧ bob ≠ ∅
  ∧ stored_customer bob = None
  ∧ customers_create sample_provider (customer_params "u2" bob)
    = inr (Customer.Build "cus_u2")
  ∧ Customer.id (Customer.Build "cus_u2") ≠ ""
  ∧ (∃ res, serve sample_provider checkout_part_000 sample_checkout sample_store
            = Some (res, w'))
  ∧ serve (with_customers_create sample_provider down) payment_intent_part_001
      sample_checkout w'
    = serve sample_provider payment_intent_part_001 sample_checkout w'
  ∧ ∃ res2, serve sample_provider payment_intent_part_001 sample_checkout w'
            = Some (res2, after_read "u2" w').
Proof.
  intros w' down.
  assert (is_key "u2" = true) as Hkey by reflexivity.
  assert (answers_next 2 sample_store) as Ha
    by (intros e; cbn; apply not_elem_of_nil).
  assert (users sample_store !! "u2" = Some bob) as Hr.
  { unfold sample_store. cbn [users].
    rewrite lookup_insert_ne by (intros H; discriminate H).
    apply lookup_singleton_eq. }
  assert (bob ≠ ∅) as Hne.
  { intros H. apply (f_equal (λ m : record, m !! "uid")) in H.
    vm_compute in H. discriminate H. }
  assert (stored_customer bob = None) as Hn by (vm_compute; reflexivity).
  assert (Customer.id (Customer.Build "cus_u2") ≠ "") as Hid
    by (intros H; discriminate H).
  destruct (second_exchange_reuses sample_provider checkout_part_000
              sample_checkout sample_store bob (Customer.Build "cus_u2")
              Hkey Ha Hr Hne Hn eq_refl Hid) as [Hfirst Hsecond].
  exact (conj Hkey (conj Ha (conj Hr (conj Hne (conj Hn (conj eq_refl (conj Hid
           (conj Hfirst
              (Hsecond sample_provider down payment_intent_part_001
                 sample_checkout eq_refl))))))))).
Defined.

Lemma checkout_then_upsert_witness :
  let subscription :=
    Subscription.Build "sub_2" "cus_u2" "trialing"
      (Some (ApiList.Build [SubscriptionItem.Build (Price.Build "price_pro")]))
      1700000000 false None in
  let event := Event.customer_subscription_created subscription in
  let w' := after_first_use "u2" bob "cus_u2" sample_store in
  let out := Part000.webhook trial_verifier (Some "whsec") (signed "trial") w' in
  is_key "u2" = true
  ∧ faults sample_store = []
  ∧ users sample_store !! "u2" = Some bob
  ∧ has_profile bob
  ∧ stored_customer bob = None
  ∧ customers_create sample_provider (customer_params "u2" bob)
    = inr (Customer.Build "cus_u2")
  ∧ matching "cus_u2" (users sample_store) = ∅
  ∧ verified trial_verifier (Some "whsec") (signed "trial") = inr event
  ∧ upsert_of event = Some subscription
  ∧ first_price subscription = Some "price_pro"
  ∧ (∃ res, serve sample_provider checkout_index_ts sample_checkout sample_store
            = Some (res, w'))
  ∧ out.1 = Response 200 received_true
  ∧ field (users out.2) "u2" "plan" = Some (str "pro").
Proof.
  intros subscription event w' out.
  assert (is_key "u2" = true) as Hkey by reflexivity.
  assert (users sample_store !! "u2" = Some bob) as Hr.
  { unfold sample_store. cbn [users].
    rewrite lookup_insert_ne by (intros H; discriminate H).
    apply lookup_singleton_eq. }
  assert (has_profile bob) as Hp by by_computation.
  assert (stored_customer bob = None) as Hn by (vm_compute; reflexivity).
  assert (matching "cus_u2" (users sample_store) = ∅) as Hm
    by (vm_compute; reflexivity).
  assert (verified trial_verifier (Some "whsec") (signed "trial") = inr event)
    as Hv by reflexivity.
  exact (conj Hkey (conj eq_refl (conj Hr (conj Hp (conj Hn (conj eq_refl
           (conj Hm (conj Hv (conj eq_refl (conj eq_refl
              (checkout_then_upsert sample_provider checkout_index_ts
                 sample_checkout sample_store bob (Customer.Build "cus_u2")
                 trial_verifier (Some "whsec") (signed "trial") event
                 subscription "price_pro" Hkey eq_refl Hr Hp Hn eq_refl Hm Hv
                 eq_refl eq_refl eq_refl))))))))))).
Defined.

Lemma checkout_revisions_agree_witness :
  let res := ApiResponse 200
               (session_body "cs_1" (Some "https://checkout.example/cs_1")) in
  let w' := after_first_use "u2" bob "cus_u2" sample_store in
  api_status res ≠ 500%Z
  ∧ serve sample_provider checkout_index_ts sample_checkout sample_store
    = Some (res, w')
  ∧ serve sample_provider checkout_part_001 sample_checkout sample_store
    = Some (res, w').
Proof.
  intros res w'.
  assert (api_status res ≠ 500%Z) as Hst by (intros H; discriminate H).
  assert (serve sample_provider checkout_index_ts sample_checkout sample_store
          = Some (res, w')) as Hrun by (vm_compute; reflexivity).
  exact (conj Hst (conj Hrun
           (proj1 (checkout_revisions_agree sample_provider sample_checkout
                     sample_store res w' Hst) Hrun))).
Defined.

Lemma later_revisions_skip_invoices_witness :
  let event := Event.invoice_paid (sample_invoice (Some "subscription_cycle")) in
  verified sample_verifier (Some "whsec") (signed "paid") = inr event
  ∧ is_subscription_event event = false
  ∧ IndexTs.webhook sample_verifier (Some "whsec") (signed "paid") sample_world
    = (Response 200 received_true, sample_world)
  ∧ Part001.webhook sample_verifier (Some "whsec") (signed "paid") sample_world
    = (Response 200 received_true, sample_world).
Proof.
  intros event.
  assert (verified sample_verifier (Some "whsec") (signed "paid") = inr event)
    as Hv by reflexivity.
  exact (conj Hv (conj eq_refl
           (later_revisions_skip_invoices sample_verifier (Some "whsec")
              (signed "paid") sample_world event Hv eq_refl))).
Defined.

Lemma invalid_invoice_id_refused_witness :
  let invoice := Invoice.Build "" "cus_1" (Some "paid") "usd" 999
                   (JNode (str "https://invoice.example/in_1")) JNull
                   1699999000 (Some "subscription_cycle") in
  let out := Part000.webhook nameless_verifier (Some "whsec") (signed "paid")
               sample_world in
  verified nameless_verifier (Some "whsec") (signed "paid")
    = inr (Event.invoice_paid invoice)
  ∧ answers sample_world
  ∧ first_key (matching (Invoice.customer invoice) (users sample_world))
    = Some "u1"
  ∧ is_path (Invoice.id invoice) = false
  ∧ client_error out.1
  ∧ out.2 = World (users sample_world) [] [Query "cus_1"].
Proof.
  intros invoice out.
  assert (verified nameless_verifier (Some "whsec") (signed "paid")
          = inr (Event.invoice_paid invoice)) as Hv by reflexivity.
  assert (first_key (matching (Invoice.customer invoice) (users sample_world))
          = Some "u1") as Hfk by (vm_compute; reflexivity).
  exact (conj Hv (conj I (conj Hfk (conj eq_refl
           (invalid_invoice_id_refused nameless_verifier (Some "whsec")
              (signed "paid") sample_world invoice "u1" Hv I Hfk eq_refl))))).
Defined.
